(** * RedNote-MCP: session manager, extraction workflows and CLI timeouts

    A shallow embedding of [src/auth/authManager.ts],
    [src/tools/rednoteTools.ts] and the timeout handling of [src/cli.ts].

    - JavaScript strings that the code inspects (share texts, URLs) are
      sequences of UTF-16 code units; message texts, which the code only
      concatenates, are byte strings.
    - JavaScript numbers are rationals: the quotient [timeout / 3] is exact
      here, the rounding of the IEEE quotient is not modelled, and neither is
      NaN.
    - The browser (Playwright) is a collaborator: what each of its calls
      answers is an input of the model (a script), what the code asks of it is
      recorded in a trace, and the pages, contexts and browsers that are open
      are tracked in a [World].  Opening and closing a resource, queries for
      an element and the credential store do not fail here; navigations,
      waits, clicks and evaluations may.
    - Calls of the logger are left out.
    - The file system is there for the constructor of [AuthManager] alone:
      paths are sequences of segments and permissions are not modelled. *)

From Stdlib Require Import List ZArith NArith QArith Qminmax String Ascii Bool Lia.
From Stdlib Require Import DecimalString Qround.
From Stdlib Require DecimalPos.
Import ListNotations.

Close Scope Q_scope.

(* ================================================================== *)
(** ** JavaScript strings as code-unit sequences *)

Module JsString.

Definition code_unit := N.
Definition t := list code_unit.

(** An ASCII literal, one code unit per character. *)
Definition of_ascii (s : string) : t :=
  map N_of_ascii (list_ascii_of_string s).

(** [Canonicalize] of a case-insensitive, non-unicode pattern: the
    upper-case form of the code unit.  A code unit outside ASCII never
    canonicalizes to an ASCII one, and the patterns below only hold ASCII
    letters, so the mapping is written out for ASCII alone. *)
Definition canonicalize (c : code_unit) : code_unit :=
  if ((97 <=? c) && (c <=? 122))%N then (c - 32)%N else c.

(** The other member of a letter's case pair. *)
Definition to_lower (c : code_unit) : code_unit :=
  if ((65 <=? c) && (c <=? 90))%N then (c + 32)%N else c.

(** The [\s] class: WhiteSpace and LineTerminator code units. *)
Definition is_white_space (c : code_unit) : bool :=
  ((9 <=? c) && (c <=? 13) || (c =? 32) || (c =? 160) || (c =? 5760)
   || (8192 <=? c) && (c <=? 8202) || (c =? 8232) || (c =? 8233)
   || (c =? 8239) || (c =? 8287) || (c =? 12288) || (c =? 65279))%N.

(** The code units that [encodeURIComponent] leaves as they are: letters,
    digits and [- _ . ! ~ * ' ( )]. *)
Definition is_uri_unreserved (c : code_unit) : bool :=
  ((97 <=? c) && (c <=? 122) || (65 <=? c) && (c <=? 90)
   || (48 <=? c) && (c <=? 57)
   || (c =? 45) || (c =? 95) || (c =? 46) || (c =? 33) || (c =? 126)
   || (c =? 42) || (c =? 39) || (c =? 40) || (c =? 41))%N.

Definition is_high_surrogate (c : code_unit) : bool :=
  ((55296 <=? c) && (c <=? 56319))%N.

Definition is_low_surrogate (c : code_unit) : bool :=
  ((56320 <=? c) && (c <=? 57343))%N.

(** The octets of the UTF-8 form of a code point. *)
Definition utf8 (cp : N) : list N :=
  (if cp <? 128 then [cp]
   else if cp <? 2048 then [192 + cp / 64; 128 + cp mod 64]
   else if cp <? 65536 then
     [224 + cp / 4096; 128 + (cp / 64) mod 64; 128 + cp mod 64]
   else
     [240 + cp / 262144; 128 + (cp / 4096) mod 64; 128 + (cp / 64) mod 64;
      128 + cp mod 64])%N.

(** An upper-case hexadecimal digit. *)
Definition hex_digit (n : N) : code_unit :=
  (if n <? 10 then 48 + n else 55 + n)%N.

(** The escape [%XX] of an octet. *)
Definition percent (octet : N) : t :=
  [37%N; hex_digit (octet / 16); hex_digit (octet mod 16)].

(** [encodeURIComponent(s)] (ECMAScript [Encode] with the unreserved set
    above): an unreserved code unit is kept, any other code point is
    replaced by the escapes of its UTF-8 octets, a surrogate pair counting
    as one code point.  [None] is the [URIError] that a surrogate without
    its partner raises. *)
Fixpoint encodeURIComponent (s : t) : option t :=
  match s with
  | [] => Some []
  | c :: s' =>
      if is_uri_unreserved c then option_map (cons c) (encodeURIComponent s')
      else if is_high_surrogate c then
        match s' with
        | d :: s'' =>
            if is_low_surrogate d then
              option_map
                (app (flat_map percent
                        (utf8 (65536 + (c - 55296) * 1024 + (d - 56320))%N)))
                (encodeURIComponent s'')
            else None
        | [] => None
        end
      else if is_low_surrogate c then None
      else option_map (app (flat_map percent (utf8 c))) (encodeURIComponent s')
  end.

End JsString.

(* ================================================================== *)
(** ** The regular-expression fragment of [extractRedBookUrl] *)

Module Regex.
Import JsString.

Inductive class_item :=
| Single (c : code_unit)
| Range (lo hi : code_unit)
| WhiteSpace.

Record char_class := { negated : bool; items : list class_item }.

(** Patterns: literal characters, classes, sequence, greedy [r?] and greedy
    [[...]+] over a class.  Both patterns of the source carry the [i]
    flag, so literals and class members are compared after
    [canonicalize]. *)
Inductive regex :=
| Chr (c : code_unit)
| Cls (cs : char_class)
| Cat (r1 r2 : regex)
| Opt (r : regex)
| PlusCls (cs : char_class).

Definition in_range (lo hi c : code_unit) : bool :=
  ((lo <=? c) && (c <=? hi))%N.

(** A class member matches when some character of the item has the same
    canonical form as [c]. *)
Definition item_has (c : code_unit) (it : class_item) : bool :=
  match it with
  | Single d => (canonicalize c =? canonicalize d)%N
  | Range lo hi =>
      in_range lo hi c || in_range lo hi (canonicalize c)
      || in_range lo hi (to_lower c)
  | WhiteSpace => is_white_space c
  end.

Definition in_class (cs : char_class) (c : code_unit) : bool :=
  xorb (negated cs) (existsb (item_has c) (items cs)).

(** Greedy iteration of a class, longest run first, giving characters back
    one at a time while the continuation fails. *)
Fixpoint star_cls (cs : char_class) (s : t) (k : t -> option t) : option t :=
  match s with
  | c :: s' =>
      if in_class cs c then
        match star_cls cs s' k with
        | Some r => Some r
        | None => k s
        end
      else k s
  | [] => k s
  end.

(** Backtracking matcher: [run r s k] matches [r] at the head of [s] and
    hands what is left to the continuation [k]. *)
Fixpoint run (r : regex) (s : t) (k : t -> option t) : option t :=
  match r with
  | Chr c =>
      match s with
      | x :: s' => if (canonicalize x =? canonicalize c)%N then k s' else None
      | [] => None
      end
  | Cls cs =>
      match s with
      | x :: s' => if in_class cs x then k s' else None
      | [] => None
      end
  | Cat r1 r2 => run r1 s (fun s' => run r2 s' k)
  | Opt r1 =>
      match run r1 s k with
      | Some x => Some x
      | None => k s
      end
  | PlusCls cs =>
      match s with
      | x :: s' => if in_class cs x then star_cls cs s' k else None
      | [] => None
      end
  end.

(** [String.prototype.match] without the [g] flag: the match at the
    leftmost position that has one; the whole pattern is the capture group
    1 in both uses. *)
Fixpoint exec (r : regex) (s : t) : option t :=
  match run r s Some with
  | Some rest => Some (firstn (List.length s - List.length rest) s)
  | None =>
      match s with
      | [] => None
      | _ :: s' => exec r s'
      end
  end.

(** A literal run of characters. *)
Fixpoint Str (l : t) (r : regex) : regex :=
  match l with
  | [] => r
  | c :: l' => Cat (Chr c) (Str l' r)
  end.

(** The words of a pattern. *)
Fixpoint lang (r : regex) (w : t) : Prop :=
  match r with
  | Chr c => exists x, w = [x] /\ canonicalize x = canonicalize c
  | Cls cs => exists x, w = [x] /\ in_class cs x = true
  | Cat r1 r2 => exists w1 w2, w = w1 ++ w2 /\ lang r1 w1 /\ lang r2 w2
  | Opt r1 => w = [] \/ lang r1 w
  | PlusCls cs => w <> [] /\ Forall (fun x => in_class cs x = true) w
  end.

(** What follows a greedy class run: nothing, or a character outside the
    class. *)
Definition stops (cs : char_class) (post : t) : Prop :=
  match post with
  | [] => True
  | c :: _ => in_class cs c = false
  end.

(** The class a pattern ends with, when it ends with a greedy class run. *)
Fixpoint tail_class (r : regex) : option char_class :=
  match r with
  | PlusCls cs => Some cs
  | Cat _ r2 => tail_class r2
  | _ => None
  end.

(** No word of the given kind lies anywhere in the text. *)
Definition holds_none (P : t -> Prop) (s : t) : Prop :=
  forall pre w post, s = pre ++ w ++ post -> ~ P w.

(** [w] at [pre] is the first occurrence: no word of the kind starts
    earlier. *)
Definition leftmost (P : t -> Prop) (pre w post : t) : Prop :=
  forall p1 p2 w' post',
    pre = p1 ++ p2 -> p2 <> [] -> p2 ++ w ++ post = w' ++ post' -> ~ P w'.

End Regex.

(* ================================================================== *)
(** ** Link resolution: [RedNoteTools.extractRedBookUrl] *)

Module Link.
Import JsString Regex.
Local Open Scope N_scope.

(** [[a-zA-Z0-9\/]] *)
Definition link_path_class : char_class :=
  {| negated := false;
     items := [Range 97 122; Range 65 90; Range 48 57; Single 47] |}.

(** [[^，\s]], the comma being U+FF0C. *)
Definition url_tail_class : char_class :=
  {| negated := true; items := [Single 65292; WhiteSpace] |}.

(** [/(https?:\/\/xhslink\.com\/[a-zA-Z0-9\/]+)/i] *)
Definition xhslinkRegex : regex :=
  Str (of_ascii "http")
    (Cat (Opt (Chr 115))
       (Str (of_ascii "://xhslink.com/") (PlusCls link_path_class))).

(** [/(https?:\/\/(?:www\.)?xiaohongshu\.com\/[^，\s]+)/i] *)
Definition xiaohongshuRegex : regex :=
  Str (of_ascii "http")
    (Cat (Opt (Chr 115))
       (Str (of_ascii "://")
          (Cat (Opt (Str (of_ascii "www") (Chr 46)))
             (Str (of_ascii "xiaohongshu.com/") (PlusCls url_tail_class))))).

(** Truthiness of a string: the empty string is falsy. *)
Definition truthy (s : t) : bool :=
  match s with
  | [] => false
  | _ :: _ => true
  end.

(** [match && match[1]]: a match whose first group is a non-empty string. *)
Definition group1 (m : option t) : option t :=
  match m with
  | Some g => if truthy g then Some g else None
  | None => None
  end.

(** Equality up to letter case. *)
Definition ci_eq (a b : t) : Prop := map canonicalize a = map canonicalize b.

(** A short link: scheme and short-link host in any letter case, then a
    non-empty path of letters, digits and slashes. *)
Definition is_short_link (w : t) : Prop :=
  exists head path,
    w = head ++ path /\
    (ci_eq head (of_ascii "http://xhslink.com/") \/
     ci_eq head (of_ascii "https://xhslink.com/")) /\
    path <> [] /\ Forall (fun c => in_class link_path_class c = true) path.

(** A link on the site's own domain, with or without [www.], then a
    non-empty tail free of full-width commas and white space. *)
Definition is_site_link (w : t) : Prop :=
  exists head tail,
    w = head ++ tail /\
    (ci_eq head (of_ascii "http://xiaohongshu.com/") \/
     ci_eq head (of_ascii "https://xiaohongshu.com/") \/
     ci_eq head (of_ascii "http://www.xiaohongshu.com/") \/
     ci_eq head (of_ascii "https://www.xiaohongshu.com/")) /\
    tail <> [] /\ Forall (fun c => in_class url_tail_class c = true) tail.

(** What may follow the site link in the text: nothing, a full-width comma
    or white space. *)
Definition comma_or_space_next (post : t) : Prop :=
  match post with
  | [] => True
  | c :: _ => c = 65292 \/ is_white_space c = true
  end.

Definition extractRedBookUrl (shareText : t) : t :=
  let xhslinkMatch := exec xhslinkRegex shareText in
  match group1 xhslinkMatch with
  | Some g => g
  | None =>
      let xiaohongshuMatch := exec xiaohongshuRegex shareText in
      match group1 xiaohongshuMatch with
      | Some g => g
      | None => shareText
      end
  end.

End Link.


(* ================================================================== *)
(** ** Numbers, messages and template literals *)

Module Js.
Local Open Scope string_scope.

Definition number := Q.

(** Truthiness of a number: zero is falsy. *)
Definition truthy (n : number) : bool := negb (Qeq_bool n 0).

(** [x || d] for an optional number [x]. *)
Definition or_else (x : option number) (d : number) : number :=
  match x with
  | Some n => if truthy n then n else d
  | None => d
  end.

(** [a < b] *)
Definition lt (a b : number) : bool := negb (Qle_bool b a).

Definition is_integer (n : number) : bool :=
  (Qnum n mod Zpos (Qden n) =? 0)%Z.

(** [ToString] of a number inside a template literal.  An integer below
    10^21 in size prints its decimal digits; how any other number prints (a
    fraction as the shortest decimal of the double, a larger integer with an
    exponent) is left to [fraction], which the properties below do not
    constrain. *)
Definition toString (fraction : number -> string) (n : number) : string :=
  if is_integer n && (Z.abs (Qnum n / Zpos (Qden n)) <? 10 ^ 21)%Z
  then NilZero.string_of_int (Z.to_int (Qnum n / Zpos (Qden n)))
  else fraction n.

(** [hay.includes(needle)] as a proposition and as a test. *)
Definition includes (hay needle : string) : Prop :=
  exists pre post, hay = pre ++ needle ++ post.

Fixpoint includesb (hay needle : string) : bool :=
  prefix needle hay ||
  match hay with
  | EmptyString => false
  | String _ hay' => includesb hay' needle
  end.

End Js.

(* ================================================================== *)
(** ** The browser, the credential store and the effects of the code *)

Module Browser.
Import Js.

Record Cookie := {
  name : string;
  value : string;
  domain : string;
  path : string;
  expires : number;
  httpOnly : bool;
  secure : bool
}.

(** Where a page is sent. *)
Inductive target :=
| ExplorePage                        (* https://www.xiaohongshu.com/explore *)
| HomePage                           (* https://www.xiaohongshu.com *)
| SearchPage (encoded : JsString.t)  (* .../search_result?keyword=<encoded> *)
| Address (url : JsString.t).

Inductive selector :=
| UserChannel      (* .user.side-bar-component .channel *)
| LoginContainer   (* .login-container *)
| QrcodeImg        (* .qrcode-img *)
| FeedsContainer   (* .feeds-container *)
| NoteContainer    (* #noteContainer *)
| NoteItems        (* .feeds-container .note-item *)
| NoteCover        (* a.cover.mask.ld *)
| CloseCircle      (* .close-circle *)
| CommentList.     (* [role="dialog"] [role="list"] *)

(** What the code asks of its collaborators, in the order it asks. *)
Inductive event :=
| Launch (browser : nat)
| NewContext (browser context : nat)
| NewPage (context page : nat)
| AddCookies (context : nat) (cookies : list Cookie)
| Goto (page : nat) (to : target) (timeout : number)
| WaitForSelector (page : nat) (sel : selector) (detached : bool) (timeout : number)
| Query (page : nat) (sel : selector)
| Evaluate (page : nat)
| Click (page : nat) (sel : selector)
| ExtractDetail (page : nat) (timeout : number)
| SaveCookies (cookies : list Cookie)
| ClosePage (page : nat)
| CloseContext (context : nat)
| CloseBrowser (browser : nat)
| Delay (ms : number)
| RandomDelay (min max : number).

(** The open browsers, contexts (with their browser) and pages (with their
    context), the cookie file, and the trace so far. *)
Record World := {
  fresh : nat;
  browsers : list nat;
  contexts : list (nat * nat);
  pages : list (nat * nat);
  cookie_file : list Cookie;
  trace : list event
}.

Definition emit (e : event) (w : World) : World :=
  {| fresh := fresh w; browsers := browsers w; contexts := contexts w;
     pages := pages w; cookie_file := cookie_file w;
     trace := trace w ++ [e] |}.

(** A returned value or a thrown [Error], of which the code reads the
    message only. *)
Inductive outcome (A : Type) :=
| Returned (a : A)
| Thrown (message : string).
Arguments Returned {A} a.
Arguments Thrown {A} message.

(** A method of an object of class [St]: it reads and writes the fields and
    the world, and returns or throws. *)
Definition Prog (St A : Type) := St -> World -> outcome A * St * World.

Definition ret {St A} (a : A) : Prog St A := fun s w => (Returned a, s, w).

Definition throw {St A} (message : string) : Prog St A :=
  fun s w => (Thrown message, s, w).

Definition bind {St A B} (p : Prog St A) (f : A -> Prog St B) : Prog St B :=
  fun s w =>
    match p s w with
    | (Returned a, s', w') => f a s' w'
    | (Thrown m, s', w') => (Thrown m, s', w')
    end.

(** [try { p } catch (error) { h error.message }] *)
Definition try_catch {St A} (p : Prog St A) (h : string -> Prog St A) : Prog St A :=
  fun s w =>
    match p s w with
    | (Returned a, s', w') => (Returned a, s', w')
    | (Thrown m, s', w') => h m s' w'
    end.

(** [try { p } finally { f }]: [f] runs on both ways out; what it throws
    replaces the outcome of [p]. *)
Definition try_finally {St A} (p : Prog St A) (f : Prog St unit) : Prog St A :=
  fun s w =>
    match p s w with
    | (r, s', w') =>
        match f s' w' with
        | (Returned _, s'', w'') => (r, s'', w'')
        | (Thrown m, s'', w'') => (Thrown m, s'', w'')
        end
    end.

Definition get {St} : Prog St St := fun s w => (Returned s, s, w).
Definition put {St} (s : St) : Prog St unit := fun _ w => (Returned tt, s, w).

(** A call whose answer the collaborator decides. *)
Definition ask {St A} (e : event) (answer : outcome A) : Prog St A :=
  fun s w => (answer, s, emit e w).

Definition tell {St} (e : event) : Prog St unit := ask e (Returned tt).

(** A block with a local variable: [p] runs on the local alone and hands it
    back with its result. *)
Definition with_local {St L A} (init : L) (p : Prog L A) : Prog St (A * L) :=
  fun s w =>
    match p init w with
    | (Returned a, l, w') => (Returned (a, l), s, w')
    | (Thrown m, _, w') => (Thrown m, s, w')
    end.

End Browser.

Declare Scope prog_scope.
Delimit Scope prog_scope with prog.
Notation "x <- p ;; q" := (Browser.bind p (fun x => q))
  (at level 61, p at next level, right associativity) : prog_scope.
Notation "p ;; q" := (Browser.bind p (fun _ => q))
  (at level 61, right associativity) : prog_scope.

Module Playwright.
Import Js Browser.
Local Open Scope prog_scope.

Definition owned_by (b : nat) (cs : list (nat * nat)) : list nat :=
  map fst (filter (fun c => Nat.eqb (snd c) b) cs).

Definition drop_owner (owners : list nat) (xs : list (nat * nat)) : list (nat * nat) :=
  filter (fun x => negb (existsb (Nat.eqb (snd x)) owners)) xs.

Definition drop_id (i : nat) (xs : list (nat * nat)) : list (nat * nat) :=
  filter (fun x => negb (Nat.eqb (fst x) i)) xs.

(** The browser library is not among the sources.  This is the text that
    the message of its [TimeoutError] starts with when the request [api] runs
    out of its [timeout], as in [page.goto: Timeout 10000ms exceeded.]; a call
    log follows it.  The code never builds this text: it only passes it on,
    so the text appears below as an assumption on what a timed-out request
    throws. *)
Definition timeout_message (fraction : number -> string) (api : string)
    (timeout : number) : string :=
  (api ++ ": Timeout " ++ toString fraction timeout ++ "ms exceeded.")%string.

(** [chromium.launch()] *)
Definition launch {St} : Prog St nat :=
  fun s w =>
    let b := fresh w in
    (Returned b, s,
     emit (Launch b)
       {| fresh := S b; browsers := b :: browsers w; contexts := contexts w;
          pages := pages w; cookie_file := cookie_file w; trace := trace w |}).

(** [browser.newContext()] *)
Definition newContext {St} (b : nat) : Prog St nat :=
  fun s w =>
    let c := fresh w in
    (Returned c, s,
     emit (NewContext b c)
       {| fresh := S c; browsers := browsers w; contexts := (c, b) :: contexts w;
          pages := pages w; cookie_file := cookie_file w; trace := trace w |}).

(** [context.newPage()] *)
Definition newPage {St} (c : nat) : Prog St nat :=
  fun s w =>
    let p := fresh w in
    (Returned p, s,
     emit (NewPage c p)
       {| fresh := S p; browsers := browsers w; contexts := contexts w;
          pages := (p, c) :: pages w; cookie_file := cookie_file w;
          trace := trace w |}).

(** [browser.newPage()]: a page in a context of its own; a closed browser
    refuses.  The pair is the context and the page. *)
Definition browserNewPage {St} (b : nat) : Prog St (nat * nat) :=
  fun s w =>
    if existsb (Nat.eqb b) (browsers w)
    then bind (newContext b) (fun c => bind (newPage c) (fun p => ret (c, p))) s w
    else (Thrown "browser.newPage: Target page, context or browser has been closed",
          s, w).

(** [page.close()] *)
Definition closePage {St} (p : nat) : Prog St unit :=
  fun s w =>
    (Returned tt, s,
     emit (ClosePage p)
       {| fresh := fresh w; browsers := browsers w; contexts := contexts w;
          pages := drop_id p (pages w); cookie_file := cookie_file w;
          trace := trace w |}).

(** [context.close()]: the context and its pages. *)
Definition closeContext {St} (c : nat) : Prog St unit :=
  fun s w =>
    (Returned tt, s,
     emit (CloseContext c)
       {| fresh := fresh w; browsers := browsers w;
          contexts := drop_id c (contexts w);
          pages := drop_owner [c] (pages w); cookie_file := cookie_file w;
          trace := trace w |}).

(** [browser.close()]: the browser, its contexts and their pages. *)
Definition closeBrowser {St} (b : nat) : Prog St unit :=
  fun s w =>
    (Returned tt, s,
     emit (CloseBrowser b)
       {| fresh := fresh w;
          browsers := filter (fun x => negb (Nat.eqb x b)) (browsers w);
          contexts := drop_owner [b] (contexts w);
          pages := drop_owner (owned_by b (contexts w)) (pages w);
          cookie_file := cookie_file w; trace := trace w |}).

End Playwright.

(** Modelled from the spec: the credential store ([CookieManager], whose file
    is not among the sources).  [loadCookies] gives the persisted sequence,
    possibly empty; [saveCookies] overwrites it. *)
Module CookieManager.
Import Browser.

Definition loadCookies {St} : Prog St (list Cookie) :=
  fun s w => (Returned (cookie_file w), s, w).

Definition saveCookies {St} (cookies : list Cookie) : Prog St unit :=
  fun s w =>
    (Returned tt, s,
     emit (SaveCookies cookies)
       {| fresh := fresh w; browsers := browsers w; contexts := contexts w;
          pages := pages w; cookie_file := cookies; trace := trace w |}).

End CookieManager.


(* ================================================================== *)
(** ** [src/auth/authManager.ts] *)

Module AuthManager.
Import Js Browser Playwright.
Local Open Scope prog_scope.
Local Open Scope string_scope.

(** The fields of an [AuthManager]; [null] is [None]. *)
Record t := {
  browser : option nat;
  context : option nat;
  page : option nat
}.

(** The constructor: no browser, context or page yet. *)
Definition new : t := {| browser := None; context := None; page := None |}.

Definition set_browser (b : option nat) : Prog t unit :=
  fun s => put {| browser := b; context := context s; page := page s |} s.
Definition set_context (c : option nat) : Prog t unit :=
  fun s => put {| browser := browser s; context := c; page := page s |} s.
Definition set_page (p : option nat) : Prog t unit :=
  fun s => put {| browser := browser s; context := context s; page := p |} s.

(** What the site and the person in front of it answer during one login
    attempt, call by call. *)
Record visit := {
  nav : outcome unit;        (* page.goto(explore) *)
  sidebar : bool;            (* page.$(user channel) found an element *)
  probe : outcome bool;      (* evaluate: the channel's trimmed text is the self marker *)
  dialog : outcome unit;     (* waitForSelector(.login-container) *)
  qrcode : outcome unit;     (* waitForSelector(.qrcode-img) *)
  human : outcome unit;      (* waitForSelector(user channel) *)
  verified : outcome bool;   (* evaluate again after the wait *)
  jar : list Cookie          (* context.cookies() *)
}.

(** The answers depend on the attempt and on the cookies the context was
    given. *)
Definition site := nat -> list Cookie -> visit.

Definition maxRetries : nat := 3.

Definition getBrowser : Prog t nat :=
  this <- get ;;
  match browser this with
  | Some b => ret b
  | None => b <- launch ;; set_browser (Some b) ;; ret b
  end.

Definition getCookies : Prog t (list Cookie) := CookieManager.loadCookies.

Definition close_page_if_any : Prog t unit :=
  this <- get ;;
  match page this with
  | Some p => closePage p
  | None => ret tt
  end.

Definition close_context_if_any : Prog t unit :=
  this <- get ;;
  match context this with
  | Some c => closeContext c
  | None => ret tt
  end.

Section Login.
Variable fraction : number -> string.
Variable timeout : number.
Variable answers : site.

(** The head of the [try] block of one turn of the loop: a new context and
    a page in it, both kept in the fields. *)
Definition open_page (b : nat) : Prog t (nat * nat) :=
  c <- newContext b ;;
  set_context (Some c) ;;
  p <- newPage c ;;
  set_page (Some p) ;;
  ret (c, p).

(** The end of the [try] block, from the wait for the login dialog on: the
    dialog, the QR code, the person who scans it, the check, the cookies. *)
Definition manual_login (p : nat) (v : visit) : Prog t unit :=
  try_catch
    (ask (WaitForSelector p LoginContainer false (Qmin 10000 (timeout / 3))) (dialog v))
    (fun message =>
       throw ("登录对话框加载超时 ("
              ++ toString fraction (Qmin 10000 (timeout / 3)) ++ "ms): " ++ message)) ;;
  try_catch
    (ask (WaitForSelector p QrcodeImg false (Qmin 10000 (timeout / 3))) (qrcode v))
    (fun message =>
       throw ("二维码加载超时 ("
              ++ toString fraction (Qmin 10000 (timeout / 3)) ++ "ms): " ++ message)) ;;
  try_catch
    (ask (WaitForSelector p UserChannel false timeout) (human v))
    (fun message =>
       throw ("等待用户登录超时 (" ++ toString fraction timeout ++ "ms): " ++ message)) ;;
  isLoggedIn <- ask (Evaluate p) (verified v) ;;
  if (isLoggedIn : bool) then CookieManager.saveCookies (jar v)
  else throw "Login verification failed".

(** The [try] block after the page is there: the cookies, the landing page,
    the check for a session, and the manual login without one. *)
Definition sign_in (c p : nat) (retryCount : nat) : Prog t unit :=
  cookies <- CookieManager.loadCookies ;;
  (match cookies with
   | _ :: _ => tell (AddCookies c cookies)
   | [] => ret tt
   end) ;;
  let v := answers retryCount cookies in
  ask (Goto p ExplorePage (Qmin 10000 (timeout / 3))) (nav v) ;;
  tell (Query p UserChannel) ;;
  isLoggedIn <- (if sidebar v then ask (Evaluate p) (probe v) else ret false) ;;
  if (isLoggedIn : bool) then
    CookieManager.saveCookies (jar v)
  else
    manual_login p v.

Definition attempt (b : nat) (retryCount : nat) : Prog t unit :=
  cp <- open_page b ;;
  sign_in (fst cp) (snd cp) retryCount.

(** The [while (retryCount < maxRetries)] loop.  A turn either returns from
    [login] or adds one to [retryCount], so [maxRetries] turns of fuel are
    never used up. *)
Fixpoint login_loop (fuel : nat) (b : nat) (retryCount : nat) : Prog t unit :=
  match fuel with
  | O => ret tt
  | S fuel' =>
      if Nat.ltb retryCount maxRetries then
        try_catch (attempt b retryCount)
          (fun message =>
             close_page_if_any ;;
             close_context_if_any ;;
             let retryCount := S retryCount in
             if Nat.ltb retryCount maxRetries then
               tell (Delay 2000%Q) ;;
               login_loop fuel' b retryCount
             else
               throw ("登录失败，已达到最大重试次数 ("
                      ++ toString fraction (inject_Z (Z.of_nat maxRetries))
                      ++ "): " ++ message))
      else ret tt
  end.

(** The browser is launched anew on every call; [launch] gives a browser,
    so the test for a missing one after it never fires. *)
Definition login_body : Prog t unit :=
  b <- launch ;;
  set_browser (Some b) ;;
  login_loop maxRetries b 0.

End Login.

(** [login(timeout = 60000)] *)
Definition login (fraction : number -> string) (timeout : option number)
    (answers : site) : Prog t unit :=
  login_body fraction
    (match timeout with Some n => n | None => 60000%Q end) answers.

Definition cleanup : Prog t unit :=
  close_page_if_any ;;
  close_context_if_any ;;
  set_page None ;;
  set_context None ;;
  set_browser None.

End AuthManager.


(* ================================================================== *)
(** ** [src/tools/rednoteTools.ts] *)

Module Note.
Record t := {
  title : JsString.t;
  content : JsString.t;
  tags : option (list JsString.t);
  url : JsString.t;
  author : JsString.t;
  likes : option Z;
  collects : option Z;
  comments : option Z
}.
End Note.

Module Comment.
Record t := {
  author : JsString.t;
  content : JsString.t;
  likes : Z;
  time : JsString.t
}.
End Comment.

(** Modelled from the spec: the result type of the detail extractor
    ([noteDetail.ts] is not among the sources), with the fields the
    specification gives a note. *)
Module NoteDetail.
Record t := {
  title : JsString.t;
  content : JsString.t;
  tags : list JsString.t;
  url : JsString.t;
  author : JsString.t;
  likes : option Z;
  collects : option Z;
  comments : option Z
}.

(** [note.url = u] *)
Definition set_url (note : t) (u : JsString.t) : t :=
  {| title := title note; content := content note; tags := tags note;
     url := u; author := author note; likes := likes note;
     collects := collects note; comments := comments note |}.
End NoteDetail.

Module RedNoteTools.
Import Js Browser Playwright.
Local Open Scope prog_scope.
Local Open Scope string_scope.

Record t := {
  authManager : AuthManager.t;
  browser : option nat;
  page : option nat;
  timeout : number
}.

(** [new RedNoteTools(timeout)]: 30000 unless a truthy timeout is given. *)
Definition new (timeout : option number) : t :=
  {| authManager := AuthManager.new; browser := None; page := None;
     timeout := or_else timeout 30000%Q |}.

Definition set_browser (b : option nat) : Prog t unit :=
  fun s => put {| authManager := authManager s; browser := b; page := page s;
                  timeout := timeout s |} s.
Definition set_page (p : option nat) : Prog t unit :=
  fun s => put {| authManager := authManager s; browser := browser s; page := p;
                  timeout := timeout s |} s.

(** A method of [this.authManager]. *)
Definition on_authManager {A} (p : Prog AuthManager.t A) : Prog t A :=
  fun s w =>
    match p (authManager s) w with
    | (r, a, w') =>
        (r, {| authManager := a; browser := browser s; page := page s;
               timeout := timeout s |}, w')
    end.

(** What the site answers while the session is set up. *)
Record session := {
  home_nav : outcome unit;      (* page.goto(home) *)
  login_probe : outcome bool    (* evaluate: the self marker is shown *)
}.

(** What one result item answers: the steps of the [try] block, then those
    of the [catch] block. *)
Record item := {
  open_click : outcome unit;            (* noteItems[i].$eval(cover, click) *)
  detail_wait : outcome unit;           (* waitForSelector(#noteContainer) *)
  extracted : outcome (option Note.t);  (* evaluate; null without a container *)
  close_button : bool;                  (* page.$(.close-circle) found *)
  close_click : outcome unit;
  close_wait : outcome unit;            (* waitForSelector(#noteContainer, detached) *)
  recover_button : bool;
  recover_click : outcome unit;
  recover_wait : outcome unit
}.

Record search_script := {
  search_session : session;
  search_nav : outcome unit;
  results_wait : outcome unit;
  note_items : list item                (* page.$$(.feeds-container .note-item) *)
}.

Record content_script := {
  content_session : session;
  note_nav : outcome unit;
  detail : outcome NoteDetail.t         (* GetNoteDetail(page, timeout) *)
}.

Record comments_script := {
  comments_session : session;
  comments_nav : outcome unit;
  list_wait : outcome unit;
  listed : outcome (list Comment.t)     (* evaluate over the list items *)
}.

Section Methods.
Variable fraction : number -> string.

Definition initialize (timeout : option number) (sess : session) : Prog t unit :=
  this <- get ;;
  let operationTimeout := or_else timeout (RedNoteTools.timeout this) in
  match browser this with
  | Some _ => ret tt
  | None =>
      b <- on_authManager AuthManager.getBrowser ;;
      set_browser (Some b) ;;
      cp <- browserNewPage b ;;
      set_page (Some (snd cp)) ;;
      cookies <- on_authManager AuthManager.getCookies ;;
      (match cookies with
       | _ :: _ => tell (AddCookies (fst cp) cookies)
       | [] => ret tt
       end) ;;
      try_catch
        (ask (Goto (snd cp) HomePage operationTimeout) (home_nav sess))
        (fun _ =>
           throw ("初始化访问主页超时 (" ++ toString fraction operationTimeout ++ "ms)")) ;;
      try_catch
        (isLoggedIn <- ask (Evaluate (snd cp)) (login_probe sess) ;;
         if (isLoggedIn : bool) then ret tt else throw "Not logged in")
        (fun message =>
           if String.eqb message "Not logged in" then throw message
           else throw ("验证登录状态超时 (" ++ toString fraction operationTimeout ++ "ms)"))
  end.

Definition cleanup : Prog t unit :=
  this <- get ;;
  match browser this with
  | Some b => closeBrowser b ;; set_browser None ;; set_page None
  | None => ret tt
  end.

(** [randomDelay(min, max)]; the duration drawn is not modelled. *)
Definition randomDelay {St} (min max : number) : Prog St unit :=
  tell (RandomDelay min max).

(** Close the note dialog when its close button is there. *)
Definition close_dialog {St} (p : nat) (button : bool)
    (click wait : outcome unit) : Prog St unit :=
  tell (Query p CloseCircle) ;;
  if button then
    ask (Click p CloseCircle) click ;;
    ask (WaitForSelector p NoteContainer true 30000%Q) wait
  else ret tt.

Definition push (note : Note.t) : Prog (list Note.t) unit :=
  fun notes w => (Returned tt, (notes ++ [note])%list, w).

(** One turn of the loop over the result items; the local is [notes]. *)
Definition process_note (p : nat) (it : item) : Prog (list Note.t) unit :=
  try_finally
    (try_catch
       (ask (Click p NoteCover) (open_click it) ;;
        ask (WaitForSelector p NoteContainer false 30000%Q) (detail_wait it) ;;
        randomDelay (1 # 2)%Q (3 # 2)%Q ;;
        note <- ask (Evaluate p) (extracted it) ;;
        (match note with
         | Some n => push n
         | None => ret tt
         end) ;;
        randomDelay (1 # 2)%Q 1%Q ;;
        close_dialog p (close_button it) (close_click it) (close_wait it))
       (fun _ =>
          close_dialog p (recover_button it) (recover_click it) (recover_wait it)))
    (randomDelay (1 # 2)%Q (3 # 2)%Q).

(** [for (let i = 0; i < Math.min(noteItems.length, limit); i++)], with
    [rest] the items from index [i] on. *)
Fixpoint process_notes (p : nat) (i : nat) (rest : list item) (bound : number)
    : Prog (list Note.t) unit :=
  match rest with
  | [] => ret tt
  | it :: rest' =>
      if lt (inject_Z (Z.of_nat i)) bound then
        process_note p it ;;
        process_notes p (S i) rest' bound
      else ret tt
  end.

(** The [try] block of [searchNotes], on page [p].  The address of the
    search page is built inside the first inner [try], so the [URIError] of
    [encodeURIComponent] is caught there as a failed navigation is, before
    anything is asked of the page. *)
Definition search_try (p : nat) (operationTimeout : number)
    (keywords : JsString.t) (limit : number) (sc : search_script)
    : Prog t (list Note.t) :=
  try_catch
    (match JsString.encodeURIComponent keywords with
     | Some encoded =>
         ask (Goto p (SearchPage encoded) operationTimeout) (search_nav sc)
     | None => throw "URI malformed"
     end)
    (fun _ =>
       throw ("导航到搜索页面超时 (" ++ toString fraction operationTimeout ++ "ms)")) ;;
  try_catch
    (ask (WaitForSelector p FeedsContainer false operationTimeout) (results_wait sc))
    (fun _ =>
       throw ("搜索结果加载超时 (" ++ toString fraction operationTimeout ++ "ms)")) ;;
  tell (Query p NoteItems) ;;
  let noteItems := note_items sc in
  r <- with_local []
         (process_notes p 0 noteItems
            (Qmin (inject_Z (Z.of_nat (List.length noteItems))) limit)) ;;
  ret (snd r).

(** [searchNotes(keywords, limit = 10, timeout?)] *)
Definition searchNotes (keywords : JsString.t) (limit timeout : option number)
    (sc : search_script) : Prog t (list Note.t) :=
  let limit := match limit with Some n => n | None => 10%Q end in
  this <- get ;;
  let operationTimeout := or_else timeout (RedNoteTools.timeout this) in
  initialize (Some operationTimeout) (search_session sc) ;;
  this <- get ;;
  match page this with
  | None => throw "Page not initialized"
  | Some p =>
      try_finally (search_try p operationTimeout keywords limit sc) cleanup
  end.

(** The [try] block of [getNoteContent]; its [catch] block logs and throws
    the error on. *)
Definition content_try (p : nat) (operationTimeout : number)
    (url : JsString.t) (sc : content_script) : Prog t NoteDetail.t :=
  try_catch
    (let actualURL := Link.extractRedBookUrl url in
     try_catch
       (ask (Goto p (Address actualURL) operationTimeout) (note_nav sc))
       (fun _ =>
          throw ("打开笔记页面超时 (" ++ toString fraction operationTimeout ++ "ms)")) ;;
     note <- ask (ExtractDetail p operationTimeout) (detail sc) ;;
     ret (NoteDetail.set_url note url))
    (fun message => throw message).

(** [getNoteContent(url, timeout?)] *)
Definition getNoteContent (url : JsString.t) (timeout : option number)
    (sc : content_script) : Prog t NoteDetail.t :=
  this <- get ;;
  let operationTimeout := or_else timeout (RedNoteTools.timeout this) in
  initialize (Some operationTimeout) (content_session sc) ;;
  this <- get ;;
  match page this with
  | None => throw "Page not initialized"
  | Some p => try_finally (content_try p operationTimeout url sc) cleanup
  end.

(** The [try] block of [getNoteComments]; its [catch] block logs and throws
    the error on. *)
Definition comments_try (p : nat) (operationTimeout : number)
    (url : JsString.t) (sc : comments_script) : Prog t (list Comment.t) :=
  try_catch
    (try_catch
       (ask (Goto p (Address url) operationTimeout) (comments_nav sc))
       (fun _ =>
          throw ("打开评论页面超时 (" ++ toString fraction operationTimeout ++ "ms)")) ;;
     try_catch
       (ask (WaitForSelector p CommentList false operationTimeout) (list_wait sc))
       (fun _ =>
          throw ("评论加载超时 (" ++ toString fraction operationTimeout ++ "ms)")) ;;
     ask (Evaluate p) (listed sc))
    (fun message => throw message).

(** [getNoteComments(url, timeout?)] *)
Definition getNoteComments (url : JsString.t) (timeout : option number)
    (sc : comments_script) : Prog t (list Comment.t) :=
  this <- get ;;
  let operationTimeout := or_else timeout (RedNoteTools.timeout this) in
  initialize (Some operationTimeout) (comments_session sc) ;;
  this <- get ;;
  match page this with
  | None => throw "Page not initialized"
  | Some p => try_finally (comments_try p operationTimeout url sc) cleanup
  end.

End Methods.

End RedNoteTools.


(* ================================================================== *)
(** ** [src/cli.ts]: the configured timeout and the tool handlers *)

Module Cli.
Import Js Browser.
Local Open Scope prog_scope.

Definition DEFAULT_TIMEOUT : number := 30000%Q.

Definition is_digit (c : JsString.code_unit) : bool :=
  ((48 <=? c) && (c <=? 57))%N.

Fixpoint skip_white_space (s : JsString.t) : JsString.t :=
  match s with
  | c :: s' => if JsString.is_white_space c then skip_white_space s' else s
  | [] => []
  end.

(** The value of the longest run of decimal digits at the head of [s];
    [acc] is the value read so far, [None] before the first digit. *)
Fixpoint read_digits (s : JsString.t) (acc : option Z) : option Z :=
  match s with
  | c :: s' =>
      if is_digit c then
        read_digits s'
          (Some (10 * match acc with Some a => a | None => 0 end
                 + Z.of_N (c - 48)))%Z
      else acc
  | [] => acc
  end.

(** [parseInt(s, 10)]; [None] is NaN.  The value is exact here, as
    JavaScript's is while its size stays below 2^53; past that JavaScript
    rounds to the nearest double, which is not modelled, and the properties
    of the configured timeout below keep to the exact range. *)
Definition parseInt (s : JsString.t) : option Z :=
  match skip_white_space s with
  | 45%N :: s' => option_map Z.opp (read_digits s' None)
  | 43%N :: s' => read_digits s' None
  | s' => read_digits s' None
  end.

Fixpoint starts_with (pre s : JsString.t) : bool :=
  match pre, s with
  | [], _ => true
  | c :: pre', d :: s' => N.eqb c d && starts_with pre' s'
  | _ :: _, [] => false
  end.

(** [s.split('=')] *)
Fixpoint split_eq (s : JsString.t) : list JsString.t :=
  match s with
  | [] => [[]]
  | c :: s' =>
      if N.eqb c 61 then [] :: split_eq s'
      else match split_eq s' with
           | piece :: pieces => (c :: piece) :: pieces
           | [] => [[c]]
           end
  end.

(** [!isNaN(v) && v > 0] *)
Definition positive (v : option Z) : option Z :=
  match v with
  | Some n => if (0 <? n)%Z then Some n else None
  | None => None
  end.

(** [getConfiguredTimeout()], of [process.env.REDNOTE_TIMEOUT] and
    [process.argv]. *)
Definition getConfiguredTimeout (env : option JsString.t)
    (argv : list JsString.t) : number :=
  let envTimeout :=
    match env with
    | Some v => if Link.truthy v then positive (parseInt v) else None
    | None => None
    end in
  match envTimeout with
  | Some n => inject_Z n
  | None =>
      let timeoutArg := find (starts_with (JsString.of_ascii "--timeout=")) argv in
      let timeoutValue :=
        match timeoutArg with
        | Some arg => positive (parseInt (nth 1 (split_eq arg) []))
        | None => None
        end in
      match timeoutValue with
      | Some n => inject_Z n
      | None => DEFAULT_TIMEOUT
      end
  end.

(** [const timeout = getConfiguredTimeout()] and
    [const tools = new RedNoteTools(timeout)]. *)
Definition tools (env : option JsString.t) (argv : list JsString.t)
    : RedNoteTools.t :=
  RedNoteTools.new (Some (getConfiguredTimeout env argv)).

Section Handlers.
Variable fraction : number -> string.

(** The handlers, as far as the timeout they hand on goes: the timer they
    race the call against and the formatting of the result are left out.
    Inside a handler [timeout] is the argument of the call, not the
    configured value of the same name. *)
Definition search_notes (keywords : JsString.t) (limit timeout : option number)
    (sc : RedNoteTools.search_script) : Prog RedNoteTools.t (list Note.t) :=
  let limit := match limit with Some n => n | None => 10%Q end in
  let operationTimeout := or_else timeout DEFAULT_TIMEOUT in
  RedNoteTools.searchNotes fraction keywords (Some limit) (Some operationTimeout) sc.

Definition get_note_content (url : JsString.t) (timeout : option number)
    (sc : RedNoteTools.content_script) : Prog RedNoteTools.t NoteDetail.t :=
  let operationTimeout := or_else timeout DEFAULT_TIMEOUT in
  RedNoteTools.getNoteContent fraction url (Some operationTimeout) sc.

Definition get_note_comments (url : JsString.t) (timeout : option number)
    (sc : RedNoteTools.comments_script) : Prog RedNoteTools.t (list Comment.t) :=
  let operationTimeout := or_else timeout DEFAULT_TIMEOUT in
  RedNoteTools.getNoteComments fraction url (Some operationTimeout) sc.

(** The login tool: a new [AuthManager], [login()] without a timeout, then
    [cleanup()] on both ways out. *)
Definition login (answers : AuthManager.site) (w : World)
    : outcome unit * AuthManager.t * World :=
  try_finally (AuthManager.login fraction None answers) AuthManager.cleanup
    AuthManager.new w.

End Handlers.

End Cli.


(* ================================================================== *)
(** ** Sample inputs *)

Module Sample.
Import Js Browser.
Local Open Scope string_scope.

Definition session_cookie : Cookie :=
  {| name := "web_session"; value := "040069b1"; domain := ".xiaohongshu.com";
     path := "/"; expires := 1800000000%Q; httpOnly := true; secure := true |}.

Definition empty_world : World :=
  {| fresh := 0; browsers := []; contexts := []; pages := [];
     cookie_file := []; trace := [] |}.

(** A machine on which a login was saved before. *)
Definition logged_world : World :=
  {| fresh := 0; browsers := []; contexts := []; pages := [];
     cookie_file := [session_cookie]; trace := [] |}.

(** Fractions are not printed in the samples. *)
Definition no_fraction : number -> string := fun _ => "".

(** A site that keeps a session for any non-empty cookie set. *)
Definition keeps_session : AuthManager.site :=
  fun _ cs =>
    {| AuthManager.nav := Returned tt; AuthManager.sidebar := true;
       AuthManager.probe := Returned true;
       AuthManager.dialog := Thrown "no dialog";
       AuthManager.qrcode := Thrown "no code";
       AuthManager.human := Thrown "nobody";
       AuthManager.verified := Returned false; AuthManager.jar := cs |}.

(** A site whose landing page never loads. *)
Definition unreachable_site : AuthManager.site :=
  fun _ _ =>
    {| AuthManager.nav := Thrown "page.goto: Timeout 10000ms exceeded.";
       AuthManager.sidebar := false; AuthManager.probe := Returned false;
       AuthManager.dialog := Returned tt; AuthManager.qrcode := Returned tt;
       AuthManager.human := Returned tt; AuthManager.verified := Returned true;
       AuthManager.jar := [] |}.

(** A site without a session on which the person scans the code. *)
Definition scanned_site : AuthManager.site :=
  fun _ _ =>
    {| AuthManager.nav := Returned tt;
       AuthManager.sidebar := false; AuthManager.probe := Returned false;
       AuthManager.dialog := Returned tt; AuthManager.qrcode := Returned tt;
       AuthManager.human := Returned tt; AuthManager.verified := Returned true;
       AuthManager.jar := [session_cookie] |}.

(** A site whose landing page loads at the third attempt only; the person
    then scans the code. *)
Definition slow_site : AuthManager.site :=
  fun k cs =>
    match k with
    | 2%nat => scanned_site k cs
    | _ => unreachable_site k cs
    end.

(** A site that shows the session on the home page. *)
Definition session_up : RedNoteTools.session :=
  {| RedNoteTools.home_nav := Returned tt;
     RedNoteTools.login_probe := Returned true |}.

(** A site that shows no session. *)
Definition session_down : RedNoteTools.session :=
  {| RedNoteTools.home_nav := Returned tt;
     RedNoteTools.login_probe := Returned false |}.

(** The note of the result item number [i]. *)
Definition note_of (i : N) : Note.t :=
  {| Note.title := (JsString.of_ascii "note" ++ [48 + i]%N)%list;
     Note.content := [];
     Note.tags := None;
     Note.url := (JsString.of_ascii "https://www.xiaohongshu.com/explore/"
                  ++ [48 + i]%N)%list;
     Note.author := JsString.of_ascii "author";
     Note.likes := Some 0%Z; Note.collects := Some 0%Z;
     Note.comments := Some 0%Z |}.

(** An item that opens, gives its note and closes. *)
Definition good_item (i : N) : RedNoteTools.item :=
  {| RedNoteTools.open_click := Returned tt;
     RedNoteTools.detail_wait := Returned tt;
     RedNoteTools.extracted := Returned (Some (note_of i));
     RedNoteTools.close_button := true;
     RedNoteTools.close_click := Returned tt;
     RedNoteTools.close_wait := Returned tt;
     RedNoteTools.recover_button := false;
     RedNoteTools.recover_click := Returned tt;
     RedNoteTools.recover_wait := Returned tt |}.

(** An item whose detail view does not appear; the handler finds nothing to
    close. *)
Definition early_failure : RedNoteTools.item :=
  {| RedNoteTools.open_click := Returned tt;
     RedNoteTools.detail_wait := Thrown "page.waitForSelector: Timeout 30000ms exceeded.";
     RedNoteTools.extracted := Returned None;
     RedNoteTools.close_button := false;
     RedNoteTools.close_click := Returned tt;
     RedNoteTools.close_wait := Returned tt;
     RedNoteTools.recover_button := false;
     RedNoteTools.recover_click := Returned tt;
     RedNoteTools.recover_wait := Returned tt |}.


(** An item whose detail view does not appear and whose view does not close
    in the handler either. *)
Definition stuck_item : RedNoteTools.item :=
  {| RedNoteTools.open_click := Returned tt;
     RedNoteTools.detail_wait := Thrown "page.waitForSelector: Timeout 30000ms exceeded.";
     RedNoteTools.extracted := Returned None;
     RedNoteTools.close_button := false;
     RedNoteTools.close_click := Returned tt;
     RedNoteTools.close_wait := Returned tt;
     RedNoteTools.recover_button := true;
     RedNoteTools.recover_click := Returned tt;
     RedNoteTools.recover_wait := Thrown "page.waitForSelector: Timeout 30000ms exceeded." |}.

Definition results (items : list RedNoteTools.item) : RedNoteTools.search_script :=
  {| RedNoteTools.search_session := session_up;
     RedNoteTools.search_nav := Returned tt;
     RedNoteTools.results_wait := Returned tt;
     RedNoteTools.note_items := items |}.

(** Twenty result items, the third of which fails before its note is read. *)
Definition twenty_items : list RedNoteTools.item :=
  ([good_item 0; good_item 1; early_failure; good_item 3; good_item 4]
   ++ map good_item [5; 6; 7; 8; 9; 10; 11; 12; 13; 14; 15; 16; 17; 18; 19]%N)%list.


Definition four_items : list RedNoteTools.item :=
  [good_item 0; good_item 1; good_item 2; good_item 3].

Definition keywords : JsString.t := JsString.of_ascii "coffee".

(** The share text of a note, and the short link in it. *)
Definition share_text : JsString.t :=
  (JsString.of_ascii "look http://xhslink.com/abc " ++ [22797; 21046]%N)%list.

Definition short_link : JsString.t := JsString.of_ascii "http://xhslink.com/abc".

Definition some_detail : NoteDetail.t :=
  {| NoteDetail.title := JsString.of_ascii "title";
     NoteDetail.content := [];
     NoteDetail.tags := [];
     NoteDetail.url := JsString.of_ascii "https://www.xiaohongshu.com/explore/65a";
     NoteDetail.author := JsString.of_ascii "author";
     NoteDetail.likes := None; NoteDetail.collects := None;
     NoteDetail.comments := None |}.

Definition detail_page : RedNoteTools.content_script :=
  {| RedNoteTools.content_session := session_up;
     RedNoteTools.note_nav := Returned tt;
     RedNoteTools.detail := Returned some_detail |}.

Definition comments_page : RedNoteTools.comments_script :=
  {| RedNoteTools.comments_session := session_up;
     RedNoteTools.comments_nav := Returned tt;
     RedNoteTools.list_wait := Returned tt;
     RedNoteTools.listed := Returned [] |}.

End Sample.

(* ================================================================== *)
(** ** Vocabulary of the properties *)

Module Obs.
Import Js Browser.

Definition result {St A} (out : outcome A * St * World) : outcome A := fst (fst out).
Definition state {St A} (out : outcome A * St * World) : St := snd (fst out).
Definition after {St A} (out : outcome A * St * World) : World := snd out.

(** The events a run adds to the trace. *)
Definition added {St A} (w : World) (out : outcome A * St * World)
    (evs : list event) : Prop :=
  trace (after out) = trace w ++ evs.

(** Every run of [p] takes the world to one that [R] relates to it,
    whatever way the run ends. *)
Definition steps {St A} (R : World -> World -> Prop) (p : Prog St A) : Prop :=
  forall s w, R w (after (p s w)).

Record preorder (R : World -> World -> Prop) : Prop := {
  pre_refl : forall w, R w w;
  pre_trans : forall a b c, R a b -> R b c -> R a c
}.

(** The trace grew by events that satisfy [P]. *)
Definition grows (P : event -> Prop) (w w' : World) : Prop :=
  exists evs, trace w' = trace w ++ evs /\ Forall P evs.

(** Every run of [p] adds events that satisfy [P]. *)
Definition emits {St A} (P : event -> Prop) (p : Prog St A) : Prop :=
  steps (grows P) p.

(** No browser, context or page was opened or closed. *)
Definition untouched (w w' : World) : Prop :=
  browsers w' = browsers w /\ contexts w' = contexts w /\ pages w' = pages w.

(** The timeouts of the login waits for a caller's [total]. *)
Definition budgeted (total : number) (e : event) : Prop :=
  match e with
  | Goto _ ExplorePage t => t = Qmin 10000 (total / 3)
  | WaitForSelector _ LoginContainer _ t => t = Qmin 10000 (total / 3)
  | WaitForSelector _ QrcodeImg _ t => t = Qmin 10000 (total / 3)
  | WaitForSelector _ UserChannel _ t => t = total
  | _ => True
  end.

(** Events that neither open nor close a resource nor pause between
    attempts. *)
Definition quiet (e : event) : Prop :=
  match e with
  | Launch _ | NewContext _ _ | NewPage _ _ | ClosePage _ | CloseContext _
  | CloseBrowser _ | Delay _ => False
  | _ => True
  end.

(** The events of one login attempt on browser [b]: context [c] and page
    [p] are opened, the rest is quiet. *)
Definition attempt_trace (b c p : nat) (evs : list event) : Prop :=
  exists rest, evs = NewContext b c :: NewPage c p :: rest /\ Forall quiet rest.

(** The events of the retry loop from attempt [k] on (attempts are counted
    from 0) and the way the loop ends, by the outcomes [outcome_of] of the
    attempts.  An attempt that returns ends the loop, which returns.  After
    an attempt that fails, its page and context are closed; while an attempt
    is left, a pause of 2000 ms and the next attempt follow; when none is
    left, the loop throws the terminal error, which wraps the failure of
    that last attempt. *)
Inductive login_trace (b : nat) (outcome_of : nat -> outcome unit)
  : nat -> list event -> outcome unit -> Prop :=
| last_returned k c p evs :
    attempt_trace b c p evs ->
    outcome_of k = Returned tt ->
    login_trace b outcome_of k evs (Returned tt)
| last_failed k c p evs cause :
    attempt_trace b c p evs ->
    outcome_of k = Thrown cause ->
    S k = AuthManager.maxRetries ->
    login_trace b outcome_of k (evs ++ [ClosePage p; CloseContext c])
      (Thrown ("登录失败，已达到最大重试次数 (3): " ++ cause)%string)
| retried k c p evs cause rest r :
    attempt_trace b c p evs ->
    outcome_of k = Thrown cause ->
    (S k < AuthManager.maxRetries)%nat ->
    login_trace b outcome_of (S k) rest r ->
    login_trace b outcome_of k
      (evs ++ [ClosePage p; CloseContext c; Delay 2000%Q] ++ rest) r.

(** The bounded requests of a login attempt on page [p], by what the site
    answers ([v]), are among [evs]: the landing page under
    [min(10000, total / 3)] in any case; when it loads and shows no session,
    the wait for the login dialog under the same bound; once the dialog is
    there, the wait for the QR code under the same bound; once the code is
    there, the wait for the identity element under [total]. *)
Definition attempt_waits (total : number) (p : nat) (v : AuthManager.visit)
    (evs : list event) : Prop :=
  In (Goto p ExplorePage (Qmin 10000 (total / 3))) evs /\
  (AuthManager.nav v = Returned tt ->
   (AuthManager.sidebar v = false \/ AuthManager.probe v = Returned false) ->
   In (WaitForSelector p LoginContainer false (Qmin 10000 (total / 3))) evs /\
   (AuthManager.dialog v = Returned tt ->
    In (WaitForSelector p QrcodeImg false (Qmin 10000 (total / 3))) evs /\
    (AuthManager.qrcode v = Returned tt ->
     In (WaitForSelector p UserChannel false total) evs))).

Definition is_new_context (e : event) : bool :=
  match e with
  | NewContext _ _ => true
  | _ => false
  end.

(** What the retry loop may do besides its attempts: it never launches or
    closes a browser, and it only pauses for 2000 ms. *)
Definition retry_event (e : event) : Prop :=
  match e with
  | Launch _ | CloseBrowser _ => False
  | Delay ms => ms = 2000%Q
  | _ => True
  end.

Definition is_wait (e : event) : bool :=
  match e with
  | WaitForSelector _ _ _ _ => true
  | _ => false
  end.

(** The site takes the cookies for a session: with them in the context the
    landing page loads, shows the identity element with the self marker, and
    the context's cookies are again such cookies. *)
Definition recognises (valid : list Cookie -> Prop)
    (answers : AuthManager.site) : Prop :=
  forall k cs,
    valid cs ->
    AuthManager.nav (answers k cs) = Returned tt /\
    AuthManager.sidebar (answers k cs) = true /\
    AuthManager.probe (answers k cs) = Returned true /\
    valid (AuthManager.jar (answers k cs)).

(** The calls of a login that replays the cookies and finds itself logged
    in: launch, context and page, the cookies, the landing page, the probe,
    and the cookies saved again. *)
Definition replay_trace (b : nat) (total : number)
    (cookies jar : list Cookie) : list event :=
  [Launch b; NewContext b (S b); NewPage (S b) (S (S b))]
  ++ match cookies with
     | [] => []
     | _ :: _ => [AddCookies (S b) cookies]
     end
  ++ [Goto (S (S b)) ExplorePage (Qmin 10000 (total / 3));
      Query (S (S b)) UserChannel;
      Evaluate (S (S b));
      SaveCookies jar].

(** Every run of [p] leaves the fields as they were. *)
Definition keeps_state {St A} (p : Prog St A) : Prop :=
  forall s w, state (p s w) = s.

(** The note an item contributes: its detail view opened and its fields
    were read from a note container. *)
Definition item_note (it : RedNoteTools.item) : list Note.t :=
  match RedNoteTools.open_click it, RedNoteTools.detail_wait it,
        RedNoteTools.extracted it with
  | Returned _, Returned _, Returned (Some n) => [n]
  | _, _, _ => []
  end.

Definition failed {A} (r : outcome A) : bool :=
  match r with
  | Thrown _ => true
  | Returned _ => false
  end.

(** The [try] block of an item throws: at the opening click, at the wait
    for the detail view, at the extraction, or while closing the view. *)
Definition try_fails (it : RedNoteTools.item) : bool :=
  failed (RedNoteTools.open_click it)
  || failed (RedNoteTools.detail_wait it)
  || failed (RedNoteTools.extracted it)
  || RedNoteTools.close_button it
     && (failed (RedNoteTools.close_click it)
         || failed (RedNoteTools.close_wait it)).

(** The error that leaves the [catch] block of an item, if any: the [try]
    block threw, and closing the view in the handler threw again. *)
Definition item_escapes (it : RedNoteTools.item) : option string :=
  if try_fails it && RedNoteTools.recover_button it then
    match RedNoteTools.recover_click it, RedNoteTools.recover_wait it with
    | Thrown m, _ => Some m
    | Returned _, Thrown m => Some m
    | Returned _, Returned _ => None
    end
  else None.

(** The number of turns of the loop over [len] items with [limit]: the
    indices below [min(len, limit)]. *)
Definition iterations (len : nat) (limit : number) : nat :=
  Z.to_nat (Z.min (Z.of_nat len) (Qceiling limit)).

(** The session can be set up: the home page loads and shows the self
    marker. *)
Definition session_ok (sess : RedNoteTools.session) : Prop :=
  RedNoteTools.home_nav sess = Returned tt /\
  RedNoteTools.login_probe sess = Returned true.

(** An orchestrator that holds no browser, neither itself nor in its
    session manager. *)
Definition idle (tools : RedNoteTools.t) : Prop :=
  RedNoteTools.browser tools = None /\
  AuthManager.browser (RedNoteTools.authManager tools) = None.

(** What a workflow call comes to once its session is set up: the [try]
    block [body] on the page, then [cleanup]. *)
Definition workflow {A} (fraction : number -> string)
    (timeout : option number) (sess : RedNoteTools.session)
    (body : nat -> number -> Prog RedNoteTools.t A)
    (s : RedNoteTools.t) (w : World) : outcome A * RedNoteTools.t * World :=
  let T := or_else timeout (RedNoteTools.timeout s) in
  match RedNoteTools.initialize fraction (Some T) sess s w with
  | (Returned _, s1, w1) =>
      match RedNoteTools.page s1 with
      | None => (Thrown "Page not initialized"%string, s1, w1)
      | Some p => try_finally (body p T) RedNoteTools.cleanup s1 w1
      end
  | (Thrown m, s1, w1) => (Thrown m, s1, w1)
  end.

(** Pages are sent to [url] and to no other address. *)
Definition goes_only_to (url : JsString.t) (e : event) : Prop :=
  match e with
  | Goto _ (Address u) _ => u = url
  | _ => True
  end.

(** The end of a workflow call that launched browser [b], context [S b]
    and page [S (S b)]: the browser was closed last, the fields hold no
    browser and no page, and neither the browser nor a context of it nor a
    page of that context is open. *)
Definition closed_with_browser {A} (w : World)
    (out : outcome A * RedNoteTools.t * World) : Prop :=
  let b := fresh w in
  (exists evs,
     added w out (evs ++ [CloseBrowser b]) /\
     In (Launch b) evs /\ In (NewContext b (S b)) evs /\
     In (NewPage (S b) (S (S b))) evs) /\
  RedNoteTools.browser (state out) = None /\
  RedNoteTools.page (state out) = None /\
  ~ In b (browsers (after out)) /\
  (forall c, ~ In (c, b) (contexts (after out))) /\
  (forall p, ~ In (p, S b) (pages (after out))).

(** Every navigation, every wait and the detail extraction run under the
    timeout [t0]. *)
Definition timed_by (t0 : number) (e : event) : Prop :=
  match e with
  | Goto _ _ t => t = t0
  | WaitForSelector _ _ _ t => t = t0
  | ExtractDetail _ t => t = t0
  | _ => True
  end.

(** The run threw an error whose message holds [bound]. *)
Definition carries {A} (r : outcome A) (bound : string) : Prop :=
  exists msg, r = Thrown msg /\ includes msg bound.

(** The request [api] failed by running out of its [timeout]: it threw the
    browser's message for that, with whatever call log follows it. *)
Definition timed_out {A} (fraction : number -> string) (api : string)
    (timeout : number) (r : outcome A) : Prop :=
  exists log,
    r = Thrown (Playwright.timeout_message fraction api timeout ++ log)%string.

End Obs.

(* ================================================================== *)
(** ** The constructor of [AuthManager] and the file system *)

(** The file system as far as the constructor touches it.  A path is the
    sequence of its segments, so [path.join(dir, name)] adds a segment;
    permissions are not modelled. *)
Module NodeFs.
Import Browser.
Local Open Scope string_scope.

Definition path := list string.

Inductive kind := File | Directory.

Definition t := path -> option kind.

Definition path_eqb (a b : path) : bool :=
  if list_eq_dec string_dec a b then true else false.

(** [path.join(dir, name)] *)
Definition join (dir : path) (name : string) : path := (dir ++ [name])%list.

Definition dirname (p : path) : path := removelast p.

(** [fs.existsSync(p)] *)
Definition existsSync (fs : t) (p : path) : bool :=
  match fs p with
  | Some _ => true
  | None => false
  end.

(** The text of a path: each segment after a [/]. *)
Fixpoint render (p : path) : string :=
  match p with
  | [] => ""
  | segment :: p' => "/" ++ segment ++ render p'
  end.

(** [fs.mkdirSync(p)], not recursive: it throws when [p] exists and when
    the parent of [p] is missing or is no directory. *)
Definition mkdirSync (fs : t) (p : path) : outcome unit * t :=
  match fs p with
  | Some _ =>
      (Thrown ("EEXIST: file already exists, mkdir '" ++ render p ++ "'"), fs)
  | None =>
      match fs (dirname p) with
      | Some Directory =>
          (Returned tt, fun q => if path_eqb q p then Some Directory else fs q)
      | Some File =>
          (Thrown ("ENOTDIR: not a directory, mkdir '" ++ render p ++ "'"), fs)
      | None =>
          (Thrown ("ENOENT: no such file or directory, mkdir '" ++ render p ++ "'"),
           fs)
      end
  end.

End NodeFs.

Module AuthManagerSetup.
Import Browser NodeFs.
Local Open Scope string_scope.

(** [if (!fs.existsSync(dir)) fs.mkdirSync(dir)] *)
Definition ensure_dir (fs : NodeFs.t) (dir : path) : outcome unit * NodeFs.t :=
  if existsSync fs dir then (Returned tt, fs) else mkdirSync fs dir.

(** [constructor(cookiePath?)], as far as the cookie path and the
    directories go: the path it hands to [new CookieManager] and the file
    system it leaves.  [None] is a missing or empty [cookiePath]; [homeDir]
    is [os.homedir()]. *)
Definition constructor (cookiePath : option path) (homeDir : path)
    (fs : NodeFs.t) : outcome path * NodeFs.t :=
  match cookiePath with
  | Some given => (Returned given, fs)
  | None =>
      let mcpDir := join homeDir ".mcp" in
      let rednoteDir := join mcpDir "rednote" in
      match ensure_dir fs mcpDir with
      | (Thrown m, fs1) => (Thrown m, fs1)
      | (Returned _, fs1) =>
          match ensure_dir fs1 rednoteDir with
          | (Thrown m, fs2) => (Thrown m, fs2)
          | (Returned _, fs2) => (Returned (join rednoteDir "cookies.json"), fs2)
          end
      end
  end.

(** A file system that holds the home directory and nothing in it. *)
Definition bare_home : NodeFs.t :=
  fun p => if path_eqb p ["home"; "user"] then Some Directory else None.

End AuthManagerSetup.

(* ================================================================== *)
(** ** Vocabulary of the further properties *)

Module More.
Import Js Browser.

(** The value of a decimal numeral read from the left, [acc] being the value
    of the digits before it. *)
Fixpoint uint_value (d : Decimal.uint) (acc : Z) : Z :=
  match d with
  | Decimal.Nil => acc
  | Decimal.D0 d' => uint_value d' (10 * acc + 0)
  | Decimal.D1 d' => uint_value d' (10 * acc + 1)
  | Decimal.D2 d' => uint_value d' (10 * acc + 2)
  | Decimal.D3 d' => uint_value d' (10 * acc + 3)
  | Decimal.D4 d' => uint_value d' (10 * acc + 4)
  | Decimal.D5 d' => uint_value d' (10 * acc + 5)
  | Decimal.D6 d' => uint_value d' (10 * acc + 6)
  | Decimal.D7 d' => uint_value d' (10 * acc + 7)
  | Decimal.D8 d' => uint_value d' (10 * acc + 8)
  | Decimal.D9 d' => uint_value d' (10 * acc + 9)
  end%Z.

(** The text goes on with something that is not a digit, or ends. *)
Definition no_digit_next (rest : JsString.t) : Prop :=
  match rest with
  | [] => True
  | c :: _ => Cli.is_digit c = false
  end.

(** The name of the command-line option, with its equals sign. *)
Definition timeout_flag : JsString.t := JsString.of_ascii "--timeout=".

(** The decimal digits of an integer, as a JavaScript string. *)
Definition decimal (n : Z) : JsString.t :=
  JsString.of_ascii (NilZero.string_of_int (Z.to_int n)).

(** The integers that a JavaScript number holds exactly
    ([Number.MAX_SAFE_INTEGER] is 2^53 - 1): on them the exact arithmetic of
    the model and the doubles of the source agree. *)
Definition safe_integer (n : Z) : Prop :=
  (Z.abs n <= 9007199254740991)%Z.

Definition all_white_space (ws : JsString.t) : Prop :=
  Forall (fun c => JsString.is_white_space c = true) ws.

(** The text before the first equals sign. *)
Fixpoint before_eq (s : JsString.t) : JsString.t :=
  match s with
  | [] => []
  | c :: s' => if N.eqb c 61 then [] else c :: before_eq s'
  end.

(** No argument of [args] starts with [--timeout=]. *)
Definition no_timeout_flag (args : list JsString.t) : Prop :=
  Forall (fun a => Cli.starts_with timeout_flag a = false) args.

(** A call of one of the three extraction methods of the orchestrator. *)
Inductive call :=
| SearchNotes (keywords : JsString.t) (limit timeout : option number)
    (sc : RedNoteTools.search_script)
| GetNoteContent (url : JsString.t) (timeout : option number)
    (sc : RedNoteTools.content_script)
| GetNoteComments (url : JsString.t) (timeout : option number)
    (sc : RedNoteTools.comments_script).

Definition session_of (c : call) : RedNoteTools.session :=
  match c with
  | SearchNotes _ _ _ sc => RedNoteTools.search_session sc
  | GetNoteContent _ _ sc => RedNoteTools.content_session sc
  | GetNoteComments _ _ sc => RedNoteTools.comments_session sc
  end.

Definition timeout_of (c : call) : option number :=
  match c with
  | SearchNotes _ _ t _ => t
  | GetNoteContent _ t _ => t
  | GetNoteComments _ t _ => t
  end.

(** The call made, its value dropped. *)
Definition perform (fraction : number -> string) (c : call)
    : Prog RedNoteTools.t unit :=
  match c with
  | SearchNotes k l t sc =>
      bind (RedNoteTools.searchNotes fraction k l t sc) (fun _ => ret tt)
  | GetNoteContent u t sc =>
      bind (RedNoteTools.getNoteContent fraction u t sc) (fun _ => ret tt)
  | GetNoteComments u t sc =>
      bind (RedNoteTools.getNoteComments fraction u t sc) (fun _ => ret tt)
  end.

(** The [try] block of the call, its value dropped. *)
Definition body_of (fraction : number -> string) (c : call) (p : nat)
    (T : number) : Prog RedNoteTools.t unit :=
  match c with
  | SearchNotes k l _ sc =>
      bind (RedNoteTools.search_try fraction p T k
              (match l with Some n => n | None => 10%Q end) sc)
        (fun _ => ret tt)
  | GetNoteContent u _ sc =>
      bind (RedNoteTools.content_try fraction p T u sc) (fun _ => ret tt)
  | GetNoteComments u _ sc =>
      bind (RedNoteTools.comments_try fraction p T u sc) (fun _ => ret tt)
  end.

(** The calls of [cs] made one after the other on the same orchestrator,
    whatever way each of them ends: the fields and the world after the
    last. *)
Fixpoint serve (fraction : number -> string) (cs : list call)
    (s : RedNoteTools.t) (w : World) : RedNoteTools.t * World :=
  match cs with
  | [] => (s, w)
  | c :: cs' =>
      serve fraction cs' (Obs.state (perform fraction c s w))
        (Obs.after (perform fraction c s w))
  end.

(** The event closes a page, a context or a browser. *)
Definition closes (e : event) : bool :=
  match e with
  | ClosePage _ | CloseContext _ | CloseBrowser _ => true
  | _ => false
  end.

(** An event of a [try] block on page [p]: a request on that page or a
    pause, and no navigation to the home page. *)
Definition on_page (p : nat) (e : event) : Prop :=
  match e with
  | Goto q HomePage _ => False
  | Goto q _ _ => q = p
  | WaitForSelector q _ _ _ => q = p
  | Query q _ => q = p
  | Evaluate q => q = p
  | Click q _ => q = p
  | ExtractDetail q _ => q = p
  | RandomDelay _ _ => True
  | _ => False
  end.

(** The timeouts of a search under the operation timeout [T]: navigations
    and the wait for the results run under [T], the waits for the detail view
    of an item under 30000. *)
Definition search_timed (T : number) (e : event) : Prop :=
  match e with
  | Goto _ _ t => t = T
  | WaitForSelector _ NoteContainer _ t => t = 30000%Q
  | WaitForSelector _ _ _ t => t = T
  | _ => True
  end.

(** The number of result items whose cover was clicked. *)
Definition is_cover_click (e : event) : bool :=
  match e with
  | Click _ NoteCover => true
  | _ => false
  end.

Definition opened (evs : list event) : nat :=
  List.length (filter is_cover_click evs).

Definition other_request (e : event) : Prop := is_cover_click e = false.

(** The identifiers in use are ones that were handed out: every open
    context, every open page and the context of every open page is below the
    next fresh identifier. *)
Definition well_formed (w : World) : Prop :=
  (forall c b, In (c, b) (contexts w) -> (c < fresh w)%nat) /\
  (forall p c, In (p, c) (pages w) -> (p < fresh w)%nat /\ (c < fresh w)%nat).

(** Nothing was opened or closed and no identifier was handed out. *)
Definition settled (w w' : World) : Prop :=
  fresh w' = fresh w /\ browsers w' = browsers w /\
  contexts w' = contexts w /\ pages w' = pages w.

(** The stored cookies are as they were. *)
Definition same_cookies (w w' : World) : Prop :=
  cookie_file w' = cookie_file w.

(** The requests that start the setup of a call on page [p] of context [c]
    in browser [b]: the stored cookies, if there are any, are given to the
    context before the home page is loaded under [T]. *)
Definition setup_trace (b c p : nat) (cookies : list Cookie) (T : number)
    : list event :=
  [Launch b; NewContext b c; NewPage c p]
  ++ match cookies with
     | [] => []
     | _ :: _ => [AddCookies c cookies]
     end
  ++ [Goto p HomePage T].

(** The browser was closed, the orchestrator has dropped it and its page,
    and its session manager still holds it. *)
Definition spent (b : nat) (s : RedNoteTools.t) (w : World) : Prop :=
  RedNoteTools.browser s = None /\ RedNoteTools.page s = None /\
  AuthManager.browser (RedNoteTools.authManager s) = Some b /\
  ~ In b (browsers w).

(** The orchestrator holds a browser and no page. *)
Definition jammed (s : RedNoteTools.t) : Prop :=
  RedNoteTools.browser s <> None /\ RedNoteTools.page s = None.

(** A comments page on a site that shows no session. *)
Definition comments_page_down : RedNoteTools.comments_script :=
  {| RedNoteTools.comments_session := Sample.session_down;
     RedNoteTools.comments_nav := Returned tt;
     RedNoteTools.list_wait := Returned tt;
     RedNoteTools.listed := Returned [] |}.

End More.

(* ================================================================== *)
(** * Properties *)

(** ** The matcher against the words of a pattern *)

Section MatcherFacts.
Import JsString Regex.

Lemma star_cls_sound cs s k x :
  star_cls cs s k = Some x ->
  exists w s', s = w ++ s' /\ Forall (fun c => in_class cs c = true) w /\ k s' = Some x.
Proof.
  induction s as [|c s IH].
  - simpl. intros H. exists [], []. auto.
  - simpl. destruct (in_class cs c) eqn:Hc.
    + destruct (star_cls cs s k) eqn:Hs.
      * intros E. inversion E; subst.
        destruct (IH eq_refl) as (w & s' & -> & Hw & Hk).
        exists (c :: w), s'. auto.
      * intros Hk. exists [], (c :: s). auto.
    + intros Hk. exists [], (c :: s). auto.
Qed.

Lemma run_sound r : forall s k x,
  run r s k = Some x ->
  exists w s', s = w ++ s' /\ lang r w /\ k s' = Some x.
Proof.
  induction r as [c|cs|r1 IH1 r2 IH2|r1 IH1|cs]; intros s k x; simpl.
  - destruct s as [|y s]; [discriminate|].
    destruct (N.eqb_spec (canonicalize y) (canonicalize c)); [|discriminate].
    intros Hk. exists [y], s. eauto.
  - destruct s as [|y s]; [discriminate|].
    destruct (in_class cs y) eqn:Hy; [|discriminate].
    intros Hk. exists [y], s. eauto.
  - intros H. apply IH1 in H. destruct H as (w1 & s1 & -> & L1 & H).
    apply IH2 in H. destruct H as (w2 & s2 & -> & L2 & H).
    exists (w1 ++ w2), s2. rewrite <- app_assoc. eauto 7.
  - destruct (run r1 s k) eqn:H1.
    + intros E; inversion E; subst. apply IH1 in H1.
      destruct H1 as (w & s' & -> & L & H). exists w, s'. auto.
    + intros Hk. exists [], s. auto.
  - destruct s as [|y s]; [discriminate|].
    destruct (in_class cs y) eqn:Hy; [|discriminate].
    intros H. apply star_cls_sound in H. destruct H as (w & s' & -> & Hw & Hk).
    exists (y :: w), s'. repeat split; auto. discriminate.
Qed.

Lemma star_cls_complete cs w : forall s' k x,
  Forall (fun c => in_class cs c = true) w ->
  k s' = Some x ->
  exists y, star_cls cs (w ++ s') k = Some y.
Proof.
  induction w as [|c w IH]; intros s' k x Hw Hk.
  - simpl. destruct s' as [|c s']; simpl; eauto.
    destruct (in_class cs c); eauto.
    destruct (star_cls cs s' k); eauto.
  - inversion Hw; subst. simpl. rewrite H1.
    destruct (IH s' k x H2 Hk) as (y & ->). eauto.
Qed.

Lemma run_complete r : forall w s' k x,
  lang r w ->
  k s' = Some x ->
  exists y, run r (w ++ s') k = Some y.
Proof.
  induction r as [c|cs|r1 IH1 r2 IH2|r1 IH1|cs]; intros w s' k x; simpl.
  - intros (y & -> & Hy) Hk. simpl. rewrite Hy, N.eqb_refl. eauto.
  - intros (y & -> & Hy) Hk. simpl. rewrite Hy. eauto.
  - intros (w1 & w2 & -> & L1 & L2) Hk.
    destruct (IH2 w2 s' k x L2 Hk) as (y & Hy).
    rewrite <- app_assoc.
    exact (IH1 w1 (w2 ++ s') (fun s0 => run r2 s0 k) y L1 Hy).
  - intros [-> | L] Hk.
    + simpl. destruct (run r1 s' k); eauto.
    + destruct (IH1 w s' k x L Hk) as (y & ->). eauto.
  - intros (Hne & Hw) Hk. destruct w as [|c w]; [congruence|].
    inversion Hw; subst. simpl. rewrite H1.
    eapply star_cls_complete; eauto.
Qed.

Lemma star_cls_greedy cs s post :
  star_cls cs s Some = Some post -> stops cs post.
Proof.
  induction s as [|c s IH]; simpl.
  - intros E; inversion E; exact I.
  - destruct (in_class cs c) eqn:Hc.
    + destruct (star_cls cs s Some) eqn:Hs.
      * intros E; inversion E; subst. auto.
      * intros _.
        destruct (@star_cls_complete cs [] s Some s (Forall_nil _) eq_refl)
          as (y & Hy).
        simpl in Hy. assert (X : None = Some y) by exact (eq_trans (eq_sym Hs) Hy).
        discriminate X.
    + intros E; inversion E; subst. exact Hc.
Qed.

Lemma run_greedy r : forall cs s post,
  tail_class r = Some cs ->
  run r s Some = Some post -> stops cs post.
Proof.
  induction r as [c|cs0|r1 IH1 r2 IH2|r1 IH1|cs0]; intros cs s post; simpl;
    try discriminate.
  - intros T H. apply run_sound in H. destruct H as (w & s' & _ & _ & H).
    eauto.
  - intros T; inversion T; subst.
    destruct s as [|y s]; [discriminate|].
    destruct (in_class cs y); [|discriminate].
    apply star_cls_greedy.
Qed.

Lemma firstn_app_exact (w rest : t) :
  firstn (List.length (w ++ rest) - List.length rest) (w ++ rest) = w.
Proof.
  rewrite length_app.
  replace (List.length w + List.length rest - List.length rest)%nat
    with (List.length w + 0)%nat by lia.
  rewrite firstn_app_2. simpl. apply app_nil_r.
Qed.

Lemma exec_unfold r s :
  exec r s =
  match run r s Some with
  | Some rest => Some (firstn (List.length s - List.length rest) s)
  | None => match s with [] => None | _ :: s' => exec r s' end
  end.
Proof. destruct s; reflexivity. Qed.

Lemma exec_here r s rest :
  run r s Some = Some rest ->
  exists w, exec r s = Some w /\ s = w ++ rest /\ lang r w.
Proof.
  intros R. rewrite exec_unfold, R.
  destruct (run_sound _ _ _ _ R) as (w & s' & Hs & L & K).
  inversion K; subst s'. exists w. subst s.
  rewrite firstn_app_exact. auto.
Qed.

(** [exec] finds a word of the pattern, at the first position that has
    one. *)
Lemma exec_some r s w :
  exec r s = Some w ->
  exists pre post,
    s = pre ++ w ++ post /\ lang r w /\
    run r (w ++ post) Some = Some post /\
    leftmost (lang r) pre w post.
Proof.
  induction s as [|c s IH]; rewrite exec_unfold.
  - destruct (run r [] Some) as [rest|] eqn:R; [|discriminate].
    destruct (exec_here _ _ _ R) as (w0 & E0 & Hs & L).
    rewrite exec_unfold, R in E0. rewrite E0.
    intros E; inversion E; subst w0; clear E.
    exists [], rest. simpl. rewrite <- Hs. repeat split; auto.
    intros p1 p2 w' post' Hp Hne. destruct p1, p2; simpl in Hp; congruence.
  - destruct (run r (c :: s) Some) as [rest|] eqn:R.
    + destruct (exec_here _ _ _ R) as (w0 & E0 & Hs & L).
      rewrite exec_unfold, R in E0. rewrite E0.
      intros E; inversion E; subst w0; clear E.
      exists [], rest. simpl. rewrite <- Hs. repeat split; auto.
      intros p1 p2 w' post' Hp Hne. destruct p1, p2; simpl in Hp; congruence.
    + intros E. destruct (IH E) as (pre & post & -> & L & K & Lm).
      exists (c :: pre), post. repeat split; auto.
      intros p1 p2 w' post' Hp Hne Hw Lw.
      destruct p1 as [|d p1]; simpl in Hp.
      * subst p2. simpl in Hw.
        destruct (@run_complete r w' post' Some post' Lw eq_refl) as (y & Hy).
        rewrite <- Hw in Hy.
        assert (X : None = Some y) by exact (eq_trans (eq_sym R) Hy).
        discriminate X.
      * inversion Hp; subst. eapply Lm; eauto.
Qed.

Lemma exec_none r s :
  exec r s = None -> holds_none (lang r) s.
Proof.
  unfold holds_none.
  induction s as [|c s IH]; rewrite exec_unfold.
  - destruct (run r [] Some) eqn:R; [discriminate|]. intros _ pre w post Hs L.
    destruct pre; [|discriminate]. simpl in Hs.
    destruct (@run_complete r w post Some post L eq_refl) as (y & Hy).
    rewrite <- Hs in Hy.
    assert (X : None = Some y) by exact (eq_trans (eq_sym R) Hy).
    discriminate X.
  - destruct (run r (c :: s) Some) eqn:R; [discriminate|].
    intros E pre w post Hs L. destruct pre as [|d pre]; simpl in Hs.
    + destruct (@run_complete r w post Some post L eq_refl) as (y & Hy).
      rewrite <- Hs in Hy.
      assert (X : None = Some y) by exact (eq_trans (eq_sym R) Hy).
      discriminate X.
    + inversion Hs; subst. exact (IH E pre w post eq_refl L).
Qed.

End MatcherFacts.

(** ** The words of the two link patterns *)

Section LinkShapes.
Import JsString Regex Link.

Lemma ci_eq_app a b c d : ci_eq a c -> ci_eq b d -> ci_eq (a ++ b) (c ++ d).
Proof. unfold ci_eq. intros H1 H2. rewrite !map_app. congruence. Qed.

Lemma ci_eq_app_inv a b : forall h,
  ci_eq h (a ++ b) -> exists h1 h2, h = h1 ++ h2 /\ ci_eq h1 a /\ ci_eq h2 b.
Proof.
  unfold ci_eq. induction a as [|x a IH]; intros h H.
  - exists [], h. auto.
  - destruct h as [|y h]; [discriminate|]. simpl in H. inversion H.
    destruct (IH h H2) as (h1 & h2 & -> & E1 & E2).
    exists (y :: h1), h2. simpl. repeat split; congruence.
Qed.

Lemma lang_Str l r : forall w,
  lang (Str l r) w <-> exists h w2, w = h ++ w2 /\ ci_eq h l /\ lang r w2.
Proof.
  unfold ci_eq. induction l as [|c l IH]; intros w; simpl.
  - split.
    + intros L. exists [], w. auto.
    + intros (h & w2 & -> & E & L). destruct h; [exact L|discriminate].
  - split.
    + intros (w1 & w2 & -> & (x & -> & Hx) & L).
      apply IH in L. destruct L as (h & w3 & -> & E & L).
      exists (x :: h), w3. simpl. repeat split; congruence.
    + intros (h & w2 & -> & E & L). destruct h as [|x h]; [discriminate|].
      inversion E. exists [x], (h ++ w2). repeat split; eauto.
      apply IH. eauto.
Qed.

Lemma ci_eq_single h c : ci_eq h [c] -> exists x, h = [x] /\ canonicalize x = canonicalize c.
Proof.
  unfold ci_eq. destruct h as [|x [|y h]]; try discriminate.
  intros E; inversion E. eauto.
Qed.

Lemma lang_xhslinkRegex w : lang xhslinkRegex w <-> is_short_link w.
Proof.
  unfold xhslinkRegex, is_short_link. rewrite lang_Str. split.
  - intros (h1 & w1 & -> & E1 & (o & w2 & -> & Ho & L)).
    apply lang_Str in L. destruct L as (h2 & path & -> & E2 & Hne & Hp).
    destruct Ho as [-> | (x & -> & Hx)].
    + exists (h1 ++ h2), path. rewrite <- app_assoc. repeat split; auto.
      left. exact (ci_eq_app _ _ _ _ E1 E2).
    + exists (h1 ++ [x] ++ h2), path. rewrite <- !app_assoc.
      repeat split; auto. right.
      change (of_ascii "https://xhslink.com/")
        with (of_ascii "http" ++ [115%N] ++ of_ascii "://xhslink.com/").
      apply ci_eq_app; auto. apply ci_eq_app; auto.
      unfold ci_eq. simpl. congruence.
  - intros (head & path & -> & [E | E] & Hne & Hp).
    + change (of_ascii "http://xhslink.com/")
        with (of_ascii "http" ++ of_ascii "://xhslink.com/") in E.
      apply ci_eq_app_inv in E. destruct E as (h1 & h2 & -> & E1 & E2).
      exists h1, (h2 ++ path). rewrite <- app_assoc.
      split; [reflexivity|]. split; [exact E1|].
      exists [], (h2 ++ path). split; [reflexivity|]. split; [left; reflexivity|].
      apply lang_Str. exists h2, path. simpl. auto.
    + change (of_ascii "https://xhslink.com/")
        with (of_ascii "http" ++ [115%N] ++ of_ascii "://xhslink.com/") in E.
      apply ci_eq_app_inv in E. destruct E as (h1 & h' & -> & E1 & E).
      apply ci_eq_app_inv in E. destruct E as (o & h2 & -> & Eo & E2).
      apply ci_eq_single in Eo. destruct Eo as (x & -> & Hx).
      exists h1, ([x] ++ h2 ++ path). rewrite <- !app_assoc.
      split; [reflexivity|]. split; [exact E1|].
      exists [x], (h2 ++ path). split; [reflexivity|].
      split; [right; exists x; auto|].
      apply lang_Str. exists h2, path. simpl. auto.
Qed.

Lemma lang_opt_s o : lang (Opt (Chr 115%N)) o <-> o = [] \/ ci_eq o [115%N].
Proof.
  simpl. split; (intros [H | H]; [left; exact H | right]).
  - destruct H as (x & -> & Hx). unfold ci_eq. simpl. congruence.
  - apply ci_eq_single in H. exact H.
Qed.

Lemma lang_opt_www o :
  lang (Opt (Str (of_ascii "www") (Chr 46%N))) o <->
  o = [] \/ ci_eq o (of_ascii "www.").
Proof.
  change (lang (Opt (Str (of_ascii "www") (Chr 46%N))) o)
    with (o = [] \/ lang (Str (of_ascii "www") (Chr 46%N)) o).
  rewrite lang_Str.
  split; (intros [H | H]; [left; exact H | right]).
  - destruct H as (h & w2 & -> & E & (x & -> & Hx)).
    change (of_ascii "www.") with (of_ascii "www" ++ [46%N]).
    apply ci_eq_app; auto. unfold ci_eq. simpl. congruence.
  - change (of_ascii "www.") with (of_ascii "www" ++ [46%N]) in H.
    apply ci_eq_app_inv in H. destruct H as (h & d & -> & E & Ed).
    apply ci_eq_single in Ed. destruct Ed as (x & -> & Hx).
    exists h, [x]. simpl. eauto.
Qed.

(** The pieces of a site link, in the order the pattern reads them. *)
Lemma lang_xiaohongshuRegex_parts w :
  lang xiaohongshuRegex w <->
  exists h1 o1 h2 o2 h3 tail,
    w = h1 ++ o1 ++ h2 ++ o2 ++ h3 ++ tail /\
    ci_eq h1 (of_ascii "http") /\ (o1 = [] \/ ci_eq o1 [115%N]) /\
    ci_eq h2 (of_ascii "://") /\ (o2 = [] \/ ci_eq o2 (of_ascii "www.")) /\
    ci_eq h3 (of_ascii "xiaohongshu.com/") /\
    tail <> [] /\ Forall (fun c => in_class url_tail_class c = true) tail.
Proof.
  unfold xiaohongshuRegex. rewrite lang_Str. split.
  - intros (h1 & w1 & -> & E1 & (o1 & w2 & -> & Ho1 & L)).
    apply lang_opt_s in Ho1. apply lang_Str in L.
    destruct L as (h2 & w3 & -> & E2 & (o2 & w4 & -> & Ho2 & L)).
    apply lang_opt_www in Ho2. apply lang_Str in L.
    destruct L as (h3 & tail & -> & E3 & Hne & Ht).
    exists h1, o1, h2, o2, h3, tail. auto 10.
  - intros (h1 & o1 & h2 & o2 & h3 & tail & -> & E1 & Ho1 & E2 & Ho2 & E3 & Hne & Ht).
    exists h1, (o1 ++ h2 ++ o2 ++ h3 ++ tail).
    split; [reflexivity|]. split; [exact E1|].
    exists o1, (h2 ++ o2 ++ h3 ++ tail).
    split; [reflexivity|]. split; [apply lang_opt_s; exact Ho1|].
    apply lang_Str. exists h2, (o2 ++ h3 ++ tail).
    split; [reflexivity|]. split; [exact E2|].
    exists o2, (h3 ++ tail).
    split; [reflexivity|]. split; [apply lang_opt_www; exact Ho2|].
    apply lang_Str. exists h3, tail. simpl. auto.
Qed.

Lemma lang_xiaohongshuRegex w : lang xiaohongshuRegex w <-> is_site_link w.
Proof.
  rewrite lang_xiaohongshuRegex_parts. unfold is_site_link. split.
  - intros (h1 & o1 & h2 & o2 & h3 & tail & -> & E1 & Ho1 & E2 & Ho2 & E3 & Hne & Ht).
    exists (h1 ++ o1 ++ h2 ++ o2 ++ h3), tail.
    split; [now rewrite <- !app_assoc|]. split; [|auto].
    destruct Ho1 as [-> | Ho1], Ho2 as [-> | Ho2]; simpl.
    + left.
      change (of_ascii "http://xiaohongshu.com/")
        with (of_ascii "http" ++ of_ascii "://" ++ of_ascii "xiaohongshu.com/").
      auto using ci_eq_app.
    + right; right; left.
      change (of_ascii "http://www.xiaohongshu.com/")
        with (of_ascii "http" ++ of_ascii "://" ++ of_ascii "www."
              ++ of_ascii "xiaohongshu.com/").
      auto using ci_eq_app.
    + right; left.
      change (of_ascii "https://xiaohongshu.com/")
        with (of_ascii "http" ++ [115%N] ++ of_ascii "://"
              ++ of_ascii "xiaohongshu.com/").
      auto using ci_eq_app.
    + right; right; right.
      change (of_ascii "https://www.xiaohongshu.com/")
        with (of_ascii "http" ++ [115%N] ++ of_ascii "://" ++ of_ascii "www."
              ++ of_ascii "xiaohongshu.com/").
      auto using ci_eq_app.
  - intros (head & tail & -> & E & Hne & Ht).
    destruct E as [E | [E | [E | E]]].
    + change (of_ascii "http://xiaohongshu.com/")
        with (of_ascii "http" ++ of_ascii "://" ++ of_ascii "xiaohongshu.com/") in E.
      apply ci_eq_app_inv in E. destruct E as (h1 & r1 & -> & E1 & E).
      apply ci_eq_app_inv in E. destruct E as (h2 & h3 & -> & E2 & E3).
      exists h1, [], h2, [], h3, tail. simpl. rewrite <- !app_assoc. auto 10.
    + change (of_ascii "https://xiaohongshu.com/")
        with (of_ascii "http" ++ [115%N] ++ of_ascii "://"
              ++ of_ascii "xiaohongshu.com/") in E.
      apply ci_eq_app_inv in E. destruct E as (h1 & r1 & -> & E1 & E).
      apply ci_eq_app_inv in E. destruct E as (o1 & r2 & -> & Eo1 & E).
      apply ci_eq_app_inv in E. destruct E as (h2 & h3 & -> & E2 & E3).
      exists h1, o1, h2, [], h3, tail. simpl. rewrite <- !app_assoc. auto 10.
    + change (of_ascii "http://www.xiaohongshu.com/")
        with (of_ascii "http" ++ of_ascii "://" ++ of_ascii "www."
              ++ of_ascii "xiaohongshu.com/") in E.
      apply ci_eq_app_inv in E. destruct E as (h1 & r1 & -> & E1 & E).
      apply ci_eq_app_inv in E. destruct E as (h2 & r2 & -> & E2 & E).
      apply ci_eq_app_inv in E. destruct E as (o2 & h3 & -> & Eo2 & E3).
      exists h1, [], h2, o2, h3, tail. simpl. rewrite <- !app_assoc. auto 10.
    + change (of_ascii "https://www.xiaohongshu.com/")
        with (of_ascii "http" ++ [115%N] ++ of_ascii "://" ++ of_ascii "www."
              ++ of_ascii "xiaohongshu.com/") in E.
      apply ci_eq_app_inv in E. destruct E as (h1 & r1 & -> & E1 & E).
      apply ci_eq_app_inv in E. destruct E as (o1 & r2 & -> & Eo1 & E).
      apply ci_eq_app_inv in E. destruct E as (h2 & r3 & -> & E2 & E).
      apply ci_eq_app_inv in E. destruct E as (o2 & h3 & -> & Eo2 & E3).
      exists h1, o1, h2, o2, h3, tail. simpl. rewrite <- !app_assoc. auto 10.
Qed.

Lemma url_tail_class_spec c :
  in_class url_tail_class c = false <-> c = 65292%N \/ is_white_space c = true.
Proof.
  unfold in_class, url_tail_class. simpl. unfold canonicalize at 2. simpl.
  rewrite orb_false_r. destruct (is_white_space c) eqn:W.
  - rewrite orb_true_r. simpl. tauto.
  - rewrite orb_false_r. simpl.
    destruct (N.eqb_spec (canonicalize c) 65292) as [E | E];
      unfold canonicalize in E;
      destruct ((97 <=? c) && (c <=? 122))%N eqn:R;
      try (apply andb_true_iff in R; destruct R as [R1 R2];
           apply N.leb_le in R1, R2);
      (split; [intros H | intros [H | H]]); try discriminate; try lia; auto.
Qed.

End LinkShapes.

(** ** Link resolution *)

Section LinkResolution.
Import JsString Regex Link.

Lemma is_short_link_nonempty w : is_short_link w -> truthy w = true.
Proof.
  intros (head & path & -> & _ & Hne & _).
  destruct head; simpl; auto. destruct path; simpl; congruence.
Qed.

Lemma is_site_link_nonempty w : is_site_link w -> truthy w = true.
Proof.
  intros (head & path & -> & _ & Hne & _).
  destruct head; simpl; auto. destruct path; simpl; congruence.
Qed.

Lemma leftmost_iff (P Q : t -> Prop) pre w post :
  (forall x, P x <-> Q x) -> leftmost P pre w post -> leftmost Q pre w post.
Proof.
  intros E L p1 p2 w' post' H1 H2 H3 HQ. apply (L p1 p2 w' post' H1 H2 H3).
  apply E. exact HQ.
Qed.

Lemma holds_none_iff (P Q : t -> Prop) s :
  (forall x, P x <-> Q x) -> holds_none P s -> holds_none Q s.
Proof.
  intros E L pre w post H HQ. apply (L pre w post H). apply E. exact HQ.
Qed.

Lemma exec_xhslink_some s w :
  exec xhslinkRegex s = Some w ->
  is_short_link w /\
  exists pre post,
    s = pre ++ w ++ post /\ stops link_path_class post /\
    leftmost is_short_link pre w post.
Proof.
  intros E. destruct (exec_some _ _ _ E) as (pre & post & Hs & L & R & Lm).
  split; [apply lang_xhslinkRegex; exact L|].
  exists pre, post. split; [exact Hs|]. split.
  - eapply run_greedy; [|exact R]. reflexivity.
  - eapply leftmost_iff; [apply lang_xhslinkRegex | exact Lm].
Qed.

Lemma exec_xiaohongshu_some s w :
  exec xiaohongshuRegex s = Some w ->
  is_site_link w /\
  exists pre post,
    s = pre ++ w ++ post /\ comma_or_space_next post /\
    leftmost is_site_link pre w post.
Proof.
  intros E. destruct (exec_some _ _ _ E) as (pre & post & Hs & L & R & Lm).
  split; [apply lang_xiaohongshuRegex; exact L|].
  exists pre, post. split; [exact Hs|]. split.
  - assert (G : stops url_tail_class post)
      by (eapply run_greedy; [|exact R]; reflexivity).
    destruct post as [|c post]; simpl in *; [exact I|].
    apply url_tail_class_spec. exact G.
  - eapply leftmost_iff; [apply lang_xiaohongshuRegex | exact Lm].
Qed.

(** C5.  [extractRedBookUrl] is a total function of the share text.  It looks
    for a short link first: when the text holds one, the result is the first
    such link alone, cut where the run of letters, digits and slashes ends.
    Otherwise it looks for a link on the site's domain: when the text holds
    one, the result is the first such link, cut before the next full-width
    comma or white-space character (or at the end of the text).  A text that
    holds neither is returned as it is. *)
Theorem extractRedBookUrl_resolves (shareText : t) :
  match exec xhslinkRegex shareText with
  | Some w =>
      extractRedBookUrl shareText = w /\ is_short_link w /\
      exists pre post,
        shareText = pre ++ w ++ post /\ stops link_path_class post /\
        leftmost is_short_link pre w post
  | None =>
      holds_none is_short_link shareText /\
      match exec xiaohongshuRegex shareText with
      | Some w =>
          extractRedBookUrl shareText = w /\ is_site_link w /\
          exists pre post,
            shareText = pre ++ w ++ post /\ comma_or_space_next post /\
            leftmost is_site_link pre w post
      | None =>
          holds_none is_site_link shareText /\
          extractRedBookUrl shareText = shareText
      end
  end.
Proof.
  unfold extractRedBookUrl.
  destruct (exec xhslinkRegex shareText) as [w|] eqn:E1.
  - destruct (exec_xhslink_some _ _ E1) as (Hw & Hpos).
    simpl. rewrite (is_short_link_nonempty _ Hw). auto.
  - split; [eapply holds_none_iff; [apply lang_xhslinkRegex | apply exec_none; exact E1]|].
    simpl. destruct (exec xiaohongshuRegex shareText) as [w|] eqn:E2.
    + destruct (exec_xiaohongshu_some _ _ E2) as (Hw & Hpos).
      simpl. rewrite (is_site_link_nonempty _ Hw). auto.
    + split; [eapply holds_none_iff; [apply lang_xiaohongshuRegex | apply exec_none; exact E2]|].
      reflexivity.
Qed.

(** The share text of the specification: only the link comes back. *)
Example extract_short_link :
  extractRedBookUrl
    (of_ascii "look http://xhslink.com/a/Bc9 " ++ [22797; 21046]%N) =
  of_ascii "http://xhslink.com/a/Bc9".
Proof. reflexivity. Qed.

Example extract_site_link :
  extractRedBookUrl
    (of_ascii "https://www.xiaohongshu.com/explore/65a?x=1" ++ [65292; 22797]%N) =
  of_ascii "https://www.xiaohongshu.com/explore/65a?x=1".
Proof. reflexivity. Qed.

Example extract_short_link_first :
  extractRedBookUrl
    (of_ascii "https://www.xiaohongshu.com/explore/1 http://XHSLINK.com/q") =
  of_ascii "http://XHSLINK.com/q".
Proof. reflexivity. Qed.

Example extract_direct_url :
  extractRedBookUrl (of_ascii "https://example.com/page") =
  of_ascii "https://example.com/page".
Proof. reflexivity. Qed.

End LinkResolution.

(** ** Runs of programs *)

Section StepLogic.
Import Js Browser Playwright Obs.
Context {St : Type}.
Variable R : World -> World -> Prop.
Hypothesis HR : preorder R.

Lemma steps_ret {A} (a : A) : steps R (@ret St A a).
Proof. intros s w. apply (pre_refl _ HR). Qed.

Lemma steps_throw {A} m : steps R (@throw St A m).
Proof. intros s w. apply (pre_refl _ HR). Qed.

Lemma steps_get : steps R (@get St).
Proof. intros s w. apply (pre_refl _ HR). Qed.

Lemma steps_put s0 : steps R (@put St s0).
Proof. intros s w. apply (pre_refl _ HR). Qed.

Lemma steps_loadCookies : steps R (@CookieManager.loadCookies St).
Proof. intros s w. apply (pre_refl _ HR). Qed.

Lemma steps_bind {A B} (p : Prog St A) (f : A -> Prog St B) :
  steps R p -> (forall a, steps R (f a)) -> steps R (bind p f).
Proof.
  intros Hp Hf s w. unfold bind, after. specialize (Hp s w). unfold after in Hp.
  destruct (p s w) as [[[a|m] s1] w1]; simpl in *.
  - eapply (pre_trans _ HR); [exact Hp | apply Hf].
  - exact Hp.
Qed.

Lemma steps_try_catch {A} (p : Prog St A) h :
  steps R p -> (forall m, steps R (h m)) -> steps R (try_catch p h).
Proof.
  intros Hp Hh s w. unfold try_catch, after. specialize (Hp s w).
  unfold after in Hp. destruct (p s w) as [[[a|m] s1] w1]; simpl in *.
  - exact Hp.
  - eapply (pre_trans _ HR); [exact Hp | apply Hh].
Qed.

Lemma steps_try_finally {A} (p : Prog St A) f :
  steps R p -> steps R f -> steps R (try_finally p f).
Proof.
  intros Hp Hf s w. unfold try_finally, after. specialize (Hp s w).
  unfold after in Hp. destruct (p s w) as [[r s1] w1]; simpl in *.
  specialize (Hf s1 w1). unfold after in Hf.
  destruct (f s1 w1) as [[[u|m] s2] w2]; simpl in *;
    eapply (pre_trans _ HR); eauto.
Qed.

Lemma steps_with_local {L A} (init : L) (p : Prog L A) :
  steps R p -> steps R (@with_local St L A init p).
Proof.
  intros Hp s w. unfold with_local, after. specialize (Hp init w).
  unfold after in Hp. destruct (p init w) as [[[a|m] l] w']; exact Hp.
Qed.

End StepLogic.

Section TraceLogic.
Import Js Browser Playwright Obs.
Context {St : Type}.
Variable P : event -> Prop.

Lemma grows_preorder : preorder (grows P).
Proof.
  split.
  - intros w. exists []. split; [now rewrite app_nil_r | constructor].
  - intros a b c (e1 & A1 & F1) (e2 & A2 & F2). exists (e1 ++ e2).
    rewrite A2, A1, app_assoc. split; [reflexivity | apply Forall_app; auto].
Qed.

Lemma grows_one e w w' : P e -> trace w' = trace w ++ [e] -> grows P w w'.
Proof. intros H E. exists [e]. auto. Qed.

Lemma emits_ret {A} (a : A) : emits P (@ret St A a).
Proof. apply steps_ret, grows_preorder. Qed.

Lemma emits_throw {A} m : emits P (@throw St A m).
Proof. apply steps_throw, grows_preorder. Qed.

Lemma emits_get : emits P (@get St).
Proof. apply steps_get, grows_preorder. Qed.

Lemma emits_put s0 : emits P (@put St s0).
Proof. apply steps_put, grows_preorder. Qed.

Lemma emits_ask {A} e (a : outcome A) : P e -> emits P (@ask St A e a).
Proof. intros H s w. now apply (grows_one e). Qed.

Lemma emits_tell e : P e -> emits P (@tell St e).
Proof. apply emits_ask. Qed.

Lemma emits_bind {A B} (p : Prog St A) (f : A -> Prog St B) :
  emits P p -> (forall a, emits P (f a)) -> emits P (bind p f).
Proof. apply steps_bind, grows_preorder. Qed.

Lemma emits_try_catch {A} (p : Prog St A) h :
  emits P p -> (forall m, emits P (h m)) -> emits P (try_catch p h).
Proof. apply steps_try_catch, grows_preorder. Qed.

Lemma emits_try_finally {A} (p : Prog St A) f :
  emits P p -> emits P f -> emits P (try_finally p f).
Proof. apply steps_try_finally, grows_preorder. Qed.

Lemma emits_with_local {L A} (init : L) (p : Prog L A) :
  emits P p -> emits P (@with_local St L A init p).
Proof. intros H. apply steps_with_local. exact H. Qed.

Lemma emits_launch : (forall b, P (Launch b)) -> emits P (@launch St).
Proof. intros H s w. now apply (grows_one (Launch (fresh w))). Qed.

Lemma emits_newContext b :
  (forall c, P (NewContext b c)) -> emits P (@newContext St b).
Proof. intros H s w. now apply (grows_one (NewContext b (fresh w))). Qed.

Lemma emits_newPage c : (forall p, P (NewPage c p)) -> emits P (@newPage St c).
Proof. intros H s w. now apply (grows_one (NewPage c (fresh w))). Qed.

Lemma emits_browserNewPage b :
  (forall c, P (NewContext b c)) -> (forall c p, P (NewPage c p)) ->
  emits P (@browserNewPage St b).
Proof.
  intros H1 H2 s w. unfold browserNewPage.
  destruct (existsb (Nat.eqb b) (browsers w)).
  - apply emits_bind; [apply emits_newContext; auto|]. intros c.
    apply emits_bind; [apply emits_newPage; auto|]. intros p. apply emits_ret.
  - apply (pre_refl _ grows_preorder).
Qed.

Lemma emits_closePage p : P (ClosePage p) -> emits P (@closePage St p).
Proof. intros H s w. now apply (grows_one (ClosePage p)). Qed.

Lemma emits_closeContext c : P (CloseContext c) -> emits P (@closeContext St c).
Proof. intros H s w. now apply (grows_one (CloseContext c)). Qed.

Lemma emits_closeBrowser b : P (CloseBrowser b) -> emits P (@closeBrowser St b).
Proof. intros H s w. now apply (grows_one (CloseBrowser b)). Qed.

Lemma emits_loadCookies : emits P (@CookieManager.loadCookies St).
Proof. apply steps_loadCookies, grows_preorder. Qed.

Lemma emits_saveCookies cs :
  P (SaveCookies cs) -> emits P (@CookieManager.saveCookies St cs).
Proof. intros H s w. now apply (grows_one (SaveCookies cs)). Qed.

End TraceLogic.

Section StateLogic.
Import Js Browser Playwright Obs.
Context {St : Type}.

Lemma keeps_ret {A} (a : A) : keeps_state (@ret St A a).
Proof. intros s w. reflexivity. Qed.

Lemma keeps_throw {A} m : keeps_state (@throw St A m).
Proof. intros s w. reflexivity. Qed.

Lemma keeps_ask {A} e (a : outcome A) : keeps_state (@ask St A e a).
Proof. intros s w. reflexivity. Qed.

Lemma keeps_bind {A B} (p : Prog St A) (f : A -> Prog St B) :
  keeps_state p -> (forall a, keeps_state (f a)) -> keeps_state (bind p f).
Proof.
  intros Hp Hf s w. unfold bind, state. specialize (Hp s w). unfold state in Hp.
  destruct (p s w) as [[[a|m] s1] w1]; cbn in *; subst; [apply Hf | reflexivity].
Qed.

Lemma keeps_try_catch {A} (p : Prog St A) h :
  keeps_state p -> (forall m, keeps_state (h m)) -> keeps_state (try_catch p h).
Proof.
  intros Hp Hh s w. unfold try_catch, state. specialize (Hp s w). unfold state in Hp.
  destruct (p s w) as [[[a|m] s1] w1]; cbn in *; subst; [reflexivity | apply Hh].
Qed.

Lemma keeps_with_local {L A} (init : L) (p : Prog L A) :
  keeps_state (@with_local St L A init p).
Proof.
  intros s w. unfold with_local, state.
  destruct (p init w) as [[[a|m] l] w']; reflexivity.
Qed.

Lemma untouched_preorder : preorder untouched.
Proof.
  split.
  - intros w. repeat split.
  - intros a b c (H1 & H2 & H3) (H4 & H5 & H6). unfold untouched.
    rewrite H4, H5, H6. auto.
Qed.

Lemma untouched_ask {A} e (a : outcome A) : steps untouched (@ask St A e a).
Proof. intros s w. repeat split. Qed.

End StateLogic.

(** One step of an argument that a block opens and closes nothing and
    leaves the fields alone. *)
Ltac quiet_step :=
  match goal with
  | |- Obs.keeps_state (Browser.bind _ _) => apply keeps_bind; [|intros ?]
  | |- Obs.keeps_state (Browser.try_catch _ _) => apply keeps_try_catch; [|intros ?]
  | |- Obs.keeps_state (Browser.ret _) => apply keeps_ret
  | |- Obs.keeps_state (Browser.throw _) => apply keeps_throw
  | |- Obs.keeps_state (Browser.ask _ _) => apply keeps_ask
  | |- Obs.keeps_state (Browser.tell _) => apply keeps_ask
  | |- Obs.keeps_state (Browser.with_local _ _) => apply keeps_with_local
  | |- Obs.steps Obs.untouched (Browser.bind _ _) =>
      apply (steps_bind _ untouched_preorder); [|intros ?]
  | |- Obs.steps Obs.untouched (Browser.try_catch _ _) =>
      apply (steps_try_catch _ untouched_preorder); [|intros ?]
  | |- Obs.steps Obs.untouched (Browser.try_finally _ _) =>
      apply (steps_try_finally _ untouched_preorder)
  | |- Obs.steps Obs.untouched (Browser.ret _) =>
      apply (steps_ret _ untouched_preorder)
  | |- Obs.steps Obs.untouched (Browser.throw _) =>
      apply (steps_throw _ untouched_preorder)
  | |- Obs.steps Obs.untouched (Browser.ask _ _) => apply untouched_ask
  | |- Obs.steps Obs.untouched (Browser.tell _) => apply untouched_ask
  | |- Obs.steps Obs.untouched (Browser.with_local _ _) => apply steps_with_local
  | |- Obs.steps Obs.untouched (match ?x with _ => _ end) => destruct x
  | |- Obs.keeps_state (match ?x with _ => _ end) => destruct x
  | |- Obs.steps Obs.untouched (let _ := _ in _) => cbv zeta
  | |- Obs.keeps_state (let _ := _ in _) => cbv zeta
  end.

(** One step of a trace argument: split the program at its head. *)
Ltac emits_step :=
  match goal with
  | |- Obs.emits _ (Browser.bind _ _) => apply emits_bind; [|intros ?]
  | |- Obs.emits _ (Browser.try_catch _ _) => apply emits_try_catch; [|intros ?]
  | |- Obs.emits _ (Browser.try_finally _ _) => apply emits_try_finally
  | |- Obs.emits _ (Browser.ret _) => apply emits_ret
  | |- Obs.emits _ (Browser.throw _) => apply emits_throw
  | |- Obs.emits _ Browser.get => apply emits_get
  | |- Obs.emits _ (Browser.put _) => apply emits_put
  | |- Obs.emits _ (Browser.ask _ _) => apply emits_ask; simpl; auto
  | |- Obs.emits _ (Browser.tell _) => apply emits_tell; simpl; auto
  | |- Obs.emits _ (Browser.with_local _ _) => apply emits_with_local
  | |- Obs.emits _ Playwright.launch => apply emits_launch; simpl; auto
  | |- Obs.emits _ (Playwright.newContext _) => apply emits_newContext; simpl; auto
  | |- Obs.emits _ (Playwright.newPage _) => apply emits_newPage; simpl; auto
  | |- Obs.emits _ (Playwright.browserNewPage _) =>
      apply emits_browserNewPage; simpl; auto
  | |- Obs.emits _ (Playwright.closePage _) => apply emits_closePage; simpl; auto
  | |- Obs.emits _ (Playwright.closeContext _) => apply emits_closeContext; simpl; auto
  | |- Obs.emits _ (Playwright.closeBrowser _) => apply emits_closeBrowser; simpl; auto
  | |- Obs.emits _ CookieManager.loadCookies => apply emits_loadCookies
  | |- Obs.emits _ (CookieManager.saveCookies _) => apply emits_saveCookies; simpl; auto
  | |- Obs.emits _ (match ?x with _ => _ end) => destruct x
  | |- Obs.emits _ (let _ := _ in _) => cbv zeta
  end.

(** ** The login flow *)

Section LoginTimeouts.
Import Js Browser Playwright Obs AuthManager.
Variable fraction : number -> string.
Variable answers : site.

Lemma emits_field_updates (P : event -> Prop) :
  (forall x, emits P (set_browser x)) /\
  (forall x, emits P (set_context x)) /\
  (forall x, emits P (set_page x)).
Proof.
  repeat split; intros x s w; apply (pre_refl _ (grows_preorder P)).
Qed.

Lemma emits_close_if_any (P : event -> Prop) :
  (forall p, P (ClosePage p)) -> (forall c, P (CloseContext c)) ->
  emits P close_page_if_any /\ emits P close_context_if_any.
Proof.
  intros H1 H2. unfold close_page_if_any, close_context_if_any.
  split; repeat emits_step.
Qed.

Lemma sign_in_budgeted total c p k :
  emits (budgeted total) (sign_in fraction total answers c p k).
Proof. unfold sign_in, manual_login. repeat emits_step. Qed.

Lemma attempt_budgeted total b k :
  emits (budgeted total) (attempt fraction total answers b k).
Proof.
  unfold attempt, open_page.
  destruct (emits_field_updates (budgeted total)) as (_ & Hc & Hp).
  repeat (emits_step || apply Hc || apply Hp || apply sign_in_budgeted).
Qed.

Lemma login_loop_budgeted total fuel : forall b k,
  emits (budgeted total) (login_loop fraction total answers fuel b k).
Proof.
  induction fuel as [|fuel IH]; intros b k; simpl.
  - apply emits_ret.
  - destruct (emits_close_if_any (budgeted total)) as (Hp & Hc); simpl; auto.
    repeat (emits_step || apply attempt_budgeted || apply Hp || apply Hc || apply IH).
Qed.

(** Whatever the site answers and however many attempts are made, the
    requests of [login(total)] keep to the budget. *)
Lemma login_budgeted (total : number) (am : AuthManager.t) (w : World) :
  exists evs,
    added w (login fraction (Some total) answers am w) evs /\
    Forall (budgeted total) evs.
Proof.
  unfold login, login_body.
  destruct (emits_field_updates (budgeted total)) as (Hb & _ & _).
  assert (H : emits (budgeted total)
                (bind launch (fun b =>
                   bind (set_browser (Some b)) (fun _ =>
                     login_loop fraction total answers maxRetries b 0)))).
  { repeat (emits_step || apply Hb || apply login_loop_budgeted). }
  exact (H am w).
Qed.

(** A login that goes through the dialog asks for the four waits, in this
    order and with these timeouts. *)
Lemma sign_in_full_trace total c p k (am : AuthManager.t) (w : World) :
  let v := answers k (cookie_file w) in
  cookie_file w = [] ->
  nav v = Returned tt -> sidebar v = false ->
  dialog v = Returned tt -> qrcode v = Returned tt -> human v = Returned tt ->
  verified v = Returned true ->
  added w (sign_in fraction total answers c p k am w)
    [Goto p ExplorePage (Qmin 10000 (total / 3));
     Query p UserChannel;
     WaitForSelector p LoginContainer false (Qmin 10000 (total / 3));
     WaitForSelector p QrcodeImg false (Qmin 10000 (total / 3));
     WaitForSelector p UserChannel false total;
     Evaluate p;
     SaveCookies (jar v)].
Proof.
  intros v Hc Hn Hs Hd Hq Hh Hv. subst v.
  unfold sign_in, manual_login, added, bind, try_catch, ask, tell,
    CookieManager.loadCookies.
  rewrite Hc in *. cbn [ret].
  rewrite Hn. cbn [emit trace]. rewrite Hs. cbn [ret].
  rewrite Hd. cbn [emit trace]. rewrite Hq. cbn [emit trace].
  rewrite Hh. cbn [emit trace]. rewrite Hv. cbn.
  rewrite <- !app_assoc. reflexivity.
Qed.

Example budget_of_minute : (Qmin 10000 (60000 / 3) == 10000)%Q.
Proof. reflexivity. Qed.

Example budget_of_nine_seconds : (Qmin 10000 (9000 / 3) == 3000)%Q.
Proof. reflexivity. Qed.

Example budget_of_ten_ms : (Qmin 10000 (10 / 3) == 10 # 3)%Q.
Proof. reflexivity. Qed.

End LoginTimeouts.

Section LoginRetries.
Import Js Browser Playwright Obs AuthManager.
Variable fraction : number -> string.
Variable total : number.
Variable answers : site.

Lemma sign_in_quiet c p k : emits quiet (sign_in fraction total answers c p k).
Proof. unfold sign_in, manual_login. repeat emits_step. Qed.

(** [sign_in] leaves the fields alone. *)
Lemma sign_in_state c p k s w :
  state (sign_in fraction total answers c p k s w) = s.
Proof.
  unfold sign_in, manual_login, state, bind, try_catch, ask, tell, ret, throw,
    CookieManager.loadCookies, CookieManager.saveCookies.
  destruct (cookie_file w); cbn;
    destruct (nav (answers k _)); cbn; try reflexivity;
    destruct (sidebar (answers k _)); cbn;
    try (destruct (probe (answers k _)) as [[|]|]; cbn; try reflexivity);
    destruct (dialog (answers k _)); cbn; try reflexivity;
    destruct (qrcode (answers k _)); cbn; try reflexivity;
    destruct (human (answers k _)); cbn; try reflexivity;
    destruct (verified (answers k _)) as [[|]|]; cbn; reflexivity.
Qed.

(** One attempt opens a context and a page, keeps them in the fields, and
    signs in on them. *)
Lemma attempt_unfold b k s w :
  attempt fraction total answers b k s w =
  sign_in fraction total answers (fresh w) (S (fresh w)) k
    {| browser := browser s; context := Some (fresh w);
       page := Some (S (fresh w)) |}
    {| fresh := S (S (fresh w)); browsers := browsers w;
       contexts := (fresh w, b) :: contexts w;
       pages := (S (fresh w), fresh w) :: pages w;
       cookie_file := cookie_file w;
       trace := (trace w ++ [NewContext b (fresh w)])
                ++ [NewPage (fresh w) (S (fresh w))] |}.
Proof. reflexivity. Qed.

Lemma attempt_shape b k s w :
  let out := attempt fraction total answers b k s w in
  (exists evs, added w out evs /\ attempt_trace b (fresh w) (S (fresh w)) evs) /\
  page (state out) = Some (S (fresh w)) /\
  context (state out) = Some (fresh w) /\
  browser (state out) = browser s.
Proof.
  cbv zeta. rewrite attempt_unfold.
  match goal with |- context [sign_in _ _ _ ?c ?p ?k ?s1 ?w1] =>
    destruct (sign_in_quiet c p k s1 w1) as (rest & Hr & Hq);
    pose proof (sign_in_state c p k s1 w1) as Hs
  end.
  rewrite Hs. cbn [page context browser]. repeat split.
  eexists. split.
  - unfold added. rewrite Hr. cbn [trace]. rewrite <- !app_assoc. reflexivity.
  - exists rest. split; [reflexivity | exact Hq].
Qed.

Lemma ceiling_literal :
  toString fraction (inject_Z (Z.of_nat maxRetries)) = "3"%string.
Proof. reflexivity. Qed.

(** The [catch] block closes the page and the context of the attempt. *)
Lemma close_both_run {A} p c (K : Prog t A) s w :
  page s = Some p -> context s = Some c ->
  bind close_page_if_any (fun _ => bind close_context_if_any (fun _ => K)) s w =
  K s (after (@closeContext unit c tt (after (@closePage unit p tt w)))).
Proof.
  intros Hp Hc. cbv [bind close_page_if_any close_context_if_any get].
  rewrite Hp. cbn. rewrite Hc. reflexivity.
Qed.

Lemma bind_tell {St A} e (K : Prog St A) s w :
  bind (tell e) (fun _ => K) s w = K s (emit e w).
Proof. reflexivity. Qed.

Lemma quiet_facts rest :
  Forall quiet rest ->
  filter is_new_context rest = [] /\ Forall retry_event rest.
Proof.
  induction 1 as [|e rest He _ [IH1 IH2]]; [split; constructor|].
  destruct e; simpl in He; try contradiction; simpl; auto.
Qed.

Lemma attempt_trace_facts b c p evs :
  attempt_trace b c p evs ->
  List.length (filter is_new_context evs) = 1%nat /\ Forall retry_event evs.
Proof.
  intros (rest & -> & Hq). destruct (quiet_facts rest Hq) as (H1 & H2).
  simpl. rewrite H1. repeat constructor; auto.
Qed.

End LoginRetries.

Section CookieReplay.
Import Js Browser Playwright Obs AuthManager.
Variable fraction : number -> string.
Variable valid : list Cookie -> Prop.

Lemma login_body_replay total answers (am : AuthManager.t) (w : World) :
  valid (cookie_file w) -> recognises valid answers ->
  let out := login_body fraction total answers am w in
  let jar' := jar (answers 0%nat (cookie_file w)) in
  result out = Returned tt /\
  added w out (replay_trace (fresh w) total (cookie_file w) jar') /\
  cookie_file (after out) = jar' /\ valid jar'.
Proof.
  intros Hv Hr. destruct (Hr 0%nat (cookie_file w) Hv) as (Hn & Hs & Hp & Hj).
  cbv zeta.
  assert (E : login_body fraction total answers am w =
              sign_in fraction total answers (S (fresh w)) (S (S (fresh w))) 0
                {| browser := Some (fresh w); context := Some (S (fresh w));
                   page := Some (S (S (fresh w))) |}
                {| fresh := S (S (S (fresh w))); browsers := fresh w :: browsers w;
                   contexts := (S (fresh w), fresh w) :: contexts w;
                   pages := (S (S (fresh w)), S (fresh w)) :: pages w;
                   cookie_file := cookie_file w;
                   trace := ((trace w ++ [Launch (fresh w)])
                             ++ [NewContext (fresh w) (S (fresh w))])
                            ++ [NewPage (S (fresh w)) (S (S (fresh w)))] |}).
  { unfold login_body. unfold bind at 1. cbn [launch].
    unfold bind at 1. cbn [set_browser put]. cbn [login_loop maxRetries Nat.ltb Nat.leb].
    unfold try_catch. rewrite attempt_unfold. cbn [fresh browsers contexts pages cookie_file trace emit browser].
    unfold sign_in, bind, CookieManager.loadCookies. cbn [cookie_file].
    destruct (cookie_file w); cbn; rewrite Hn; cbn; rewrite Hs; cbn; rewrite Hp; reflexivity. }
  rewrite E. clear E.
  unfold sign_in, bind, CookieManager.loadCookies, replay_trace, result, added, after.
  cbn [cookie_file].
  destruct (cookie_file w); cbn; rewrite Hn; cbn; rewrite Hs; cbn; rewrite Hp; cbn;
    rewrite <- !app_assoc; auto.
Qed.

Lemma replay_trace_no_wait b total cookies jar' :
  Forall (fun e => is_wait e = false) (replay_trace b total cookies jar').
Proof. unfold replay_trace. destruct cookies; repeat constructor. Qed.

(** C7.  When the persisted cookies are ones the site takes for a session,
    two calls of [login] in a row both return after the cookie replay and the
    identity probe: each call is one attempt that loads the cookies, opens the
    landing page, finds the self marker and saves the cookies again, and
    neither call waits for the login dialog, the QR code or anything else. *)
Theorem login_twice_replays (t1 t2 : option number)
    (answers1 answers2 : site) (am : AuthManager.t) (w : World) :
  valid (cookie_file w) ->
  recognises valid answers1 -> recognises valid answers2 ->
  let total1 := match t1 with Some n => n | None => 60000%Q end in
  let total2 := match t2 with Some n => n | None => 60000%Q end in
  let out1 := login fraction t1 answers1 am w in
  let out2 := login fraction t2 answers2 (state out1) (after out1) in
  let jar1 := jar (answers1 0%nat (cookie_file w)) in
  let jar2 := jar (answers2 0%nat jar1) in
  result out1 = Returned tt /\ result out2 = Returned tt /\
  added w out1 (replay_trace (fresh w) total1 (cookie_file w) jar1) /\
  added (after out1) out2 (replay_trace (fresh (after out1)) total2 jar1 jar2) /\
  forall e,
    In e (replay_trace (fresh w) total1 (cookie_file w) jar1
          ++ replay_trace (fresh (after out1)) total2 jar1 jar2) ->
    is_wait e = false.
Proof.
  intros Hv H1 H2. cbv zeta. unfold login.
  set (T1 := match t1 with Some n => n | None => 60000%Q end).
  set (T2 := match t2 with Some n => n | None => 60000%Q end).
  destruct (login_body_replay T1 answers1 am w Hv H1) as (R1 & A1 & C1 & V1).
  set (out1 := login_body fraction T1 answers1 am w) in *.
  rewrite <- C1 in V1.
  destruct (login_body_replay T2 answers2 (state out1) (after out1) V1 H2)
    as (R2 & A2 & C2 & V2).
  rewrite C1 in A2.
  repeat split; auto.
  intros e He. apply in_app_or in He.
  destruct He as [He | He];
    [pose proof (replay_trace_no_wait (fresh w) T1 (cookie_file w)
                   (jar (answers1 0%nat (cookie_file w)))) as F
    |pose proof (replay_trace_no_wait (fresh (after out1)) T2
                   (jar (answers1 0%nat (cookie_file w)))
                   (jar (answers2 0%nat (jar (answers1 0%nat (cookie_file w)))))) as F];
    rewrite Forall_forall in F; exact (F e He).
Qed.

End CookieReplay.

Lemma login_twice_replays_witness :
  Obs.result
    (AuthManager.login Sample.no_fraction None Sample.keeps_session
       AuthManager.new Sample.logged_world) = Browser.Returned tt.
Proof.
  apply (login_twice_replays Sample.no_fraction (fun cs => cs <> [])
           None None Sample.keeps_session Sample.keeps_session
           AuthManager.new Sample.logged_world).
  - discriminate.
  - intros k cs H. repeat split; auto.
  - intros k cs H. repeat split; auto.
Defined.

(** ** The search workflow *)

Section SearchItems.
Import Js Browser Playwright Obs RedNoteTools.

(** One turn of the loop: the note is pushed as soon as it is extracted, and
    the turn throws only when its handler does. *)
Lemma process_note_run p it notes w :
  let out := process_note p it notes w in
  result out =
    match item_escapes it with
    | Some m => Thrown m
    | None => Returned tt
    end /\
  state out = notes ++ item_note it.
Proof.
  unfold process_note, item_escapes, item_note, try_fails, result, state,
    try_finally, try_catch, bind, ask, tell, randomDelay, close_dialog, push,
    ret, failed.
  destruct it as [oc dw ex cb cc cw rb rc rw]. cbn [open_click detail_wait
    extracted close_button close_click close_wait recover_button
    recover_click recover_wait].
  destruct oc as [[]|m1]; cbn;
    [destruct dw as [[]|m2]; cbn;
       [destruct ex as [[n|]|m3]; cbn;
          [destruct cb; cbn; [destruct cc as [[]|m4]; cbn; [destruct cw as [[]|m5]; cbn|]|]
          |destruct cb; cbn; [destruct cc as [[]|m4]; cbn; [destruct cw as [[]|m5]; cbn|]|]
          |]
       |]
    |];
    rewrite ?app_nil_r;
    try (split; reflexivity);
    (destruct rb; cbn;
     [destruct rc as [[]|m6]; cbn; [destruct rw as [[]|m7]; cbn|]|];
     rewrite ?app_nil_r; split; reflexivity).
Qed.

Lemma lt_spec (a b : number) : lt a b = true <-> (a < b)%Q.
Proof.
  unfold lt. rewrite negb_true_iff. split.
  - intros H. apply Qnot_le_lt. intros L. apply Qle_bool_iff in L. congruence.
  - intros H. destruct (Qle_bool b a) eqn:E; [|reflexivity].
    apply Qle_bool_iff in E. exfalso. exact (Qlt_not_le _ _ H E).
Qed.

Lemma below_ceiling (i : Z) (q : number) :
  (inject_Z i < q)%Q <-> (i < Qceiling q)%Z.
Proof.
  split.
  - intros H. rewrite Zlt_Qlt. eapply Qlt_le_trans; [exact H | apply Qle_ceiling].
  - intros H. eapply Qle_lt_trans; [|apply Qceiling_lt].
    rewrite <- Zle_Qle. lia.
Qed.

(** The loop test, counted: index [i] runs when it is below [iterations]. *)
Lemma loop_test (i len : nat) (limit : number) :
  lt (inject_Z (Z.of_nat i)) (Qmin (inject_Z (Z.of_nat len)) limit) = true <->
  (i < iterations len limit)%nat.
Proof.
  rewrite lt_spec, Q.min_glb_lt_iff, <- Zlt_Qlt, below_ceiling.
  unfold iterations. lia.
Qed.


End SearchItems.

(** ** The workflows of the orchestrator *)

Section Workflows.
Import Js Browser Playwright Obs RedNoteTools.
Variable fraction : number -> string.

Lemma steps_on_authManager {A} R (p : Prog AuthManager.t A) :
  steps R p -> steps R (on_authManager p).
Proof.
  intros H s w. unfold on_authManager, after. specialize (H (authManager s) w).
  unfold after in H. destruct (p (authManager s) w) as [[r a] w']. exact H.
Qed.

Lemma emits_getBrowser P :
  (forall b, P (Launch b)) -> emits P AuthManager.getBrowser.
Proof.
  intros H. unfold AuthManager.getBrowser.
  repeat emits_step. intros s w. apply (pre_refl _ (grows_preorder P)).
Qed.

Lemma emits_initialize P timeout sess :
  (forall b, P (Launch b)) -> (forall b c, P (NewContext b c)) ->
  (forall c p, P (NewPage c p)) -> (forall c cs, P (AddCookies c cs)) ->
  (forall p x, P (Goto p HomePage (or_else timeout x))) ->
  (forall p, P (Evaluate p)) ->
  emits P (initialize fraction timeout sess).
Proof.
  intros H1 H2 H3 H4 H5 H6. unfold initialize.
  assert (Hset : forall x, emits P (set_browser x) /\ emits P (set_page x))
    by (intros x; split; intros s w; apply (pre_refl _ (grows_preorder P))).
  repeat (emits_step
          || (apply steps_on_authManager; apply emits_getBrowser; assumption)
          || (apply steps_on_authManager; unfold AuthManager.getCookies;
              apply emits_loadCookies)
          || apply (proj1 (Hset _)) || apply (proj2 (Hset _))).
Qed.

Lemma emits_cleanup P : (forall b, P (CloseBrowser b)) -> emits P cleanup.
Proof.
  intros H. unfold cleanup.
  assert (Hset : forall x, emits P (set_browser x) /\ emits P (set_page x))
    by (intros x; split; intros s w; apply (pre_refl _ (grows_preorder P))).
  repeat (emits_step || apply (proj1 (Hset _)) || apply (proj2 (Hset _))).
Qed.

Lemma cleanup_returns s w : result (cleanup s w) = Returned tt.
Proof. unfold cleanup, result, bind, get. cbn. destruct (browser s); reflexivity. Qed.

Lemma try_finally_cleanup {A} (body : Prog t A) s w :
  result (try_finally body cleanup s w) = result (body s w).
Proof.
  unfold try_finally, result. destruct (body s w) as [[r s1] w1].
  pose proof (cleanup_returns s1 w1) as H. unfold result in H.
  destruct (cleanup s1 w1) as [[[u|m] s2] w2]; cbn in *; [reflexivity | discriminate].
Qed.

(** The three methods have the shape of [workflow]. *)
Lemma searchNotes_workflow keywords limit timeout sc s w :
  searchNotes fraction keywords limit timeout sc s w =
  workflow fraction timeout (search_session sc)
    (fun p T => search_try fraction p T keywords
                  (match limit with Some n => n | None => 10%Q end) sc) s w.
Proof.
  unfold searchNotes, workflow, bind, get.
  destruct (initialize _ _ _ s w) as [[[u|m] s1] w1]; [|reflexivity].
  destruct (page s1); reflexivity.
Qed.

Lemma getNoteContent_workflow url timeout sc s w :
  getNoteContent fraction url timeout sc s w =
  workflow fraction timeout (content_session sc)
    (fun p T => content_try fraction p T url sc) s w.
Proof.
  unfold getNoteContent, workflow, bind, get.
  destruct (initialize _ _ _ s w) as [[[u|m] s1] w1]; [|reflexivity].
  destruct (page s1); reflexivity.
Qed.

Lemma getNoteComments_workflow url timeout sc s w :
  getNoteComments fraction url timeout sc s w =
  workflow fraction timeout (comments_session sc)
    (fun p T => comments_try fraction p T url sc) s w.
Proof.
  unfold getNoteComments, workflow, bind, get.
  destruct (initialize _ _ _ s w) as [[[u|m] s1] w1]; [|reflexivity].
  destruct (page s1); reflexivity.
Qed.

(** A workflow that returns has run its [try] block to the end, after a
    session setup, and [cleanup] after it. *)
Lemma workflow_returned {A} P timeout sess (body : nat -> number -> Prog t A) s w a :
  let T := or_else timeout (RedNoteTools.timeout s) in
  (forall b, P (Launch b)) -> (forall b c, P (NewContext b c)) ->
  (forall c p, P (NewPage c p)) -> (forall c cs, P (AddCookies c cs)) ->
  (forall p x, P (Goto p HomePage (or_else (Some T) x))) ->
  (forall p, P (Evaluate p)) ->
  (forall b, P (CloseBrowser b)) ->
  result (workflow fraction timeout sess body s w) = Returned a ->
  exists p s1 w1 e0 e2,
    trace w1 = trace w ++ e0 /\ Forall P e0 /\
    result (body p T s1 w1) = Returned a /\
    trace (after (workflow fraction timeout sess body s w)) =
      trace (after (body p T s1 w1)) ++ e2 /\ Forall P e2.
Proof.
  intros T H1 H2 H3 H4 H5 H6 H7. unfold workflow. fold T.
  destruct (emits_initialize P (Some T) sess H1 H2 H3 H4 H5 H6 s w) as (e0 & A0 & F0).
  unfold after in A0.
  destruct (initialize _ _ _ s w) as [[[u|m] s1] w1]; [|discriminate].
  destruct (page s1) as [p|]; [|discriminate].
  rewrite try_finally_cleanup. intros Hr.
  exists p, s1, w1, e0. cbn [snd] in A0.
  unfold try_finally, after.
  destruct (body p _ s1 w1) as [[r s2] w2].
  destruct (emits_cleanup P H7 s2 w2) as (e2 & A2 & F2). unfold after in A2.
  exists e2.
  destruct (cleanup s2 w2) as [[[u'|m'] s3] w3]; cbn [snd] in *; auto.
Qed.

Lemma workflow_emits {A} P timeout sess (body : nat -> number -> Prog t A) s w :
  let T := or_else timeout (RedNoteTools.timeout s) in
  (forall b, P (Launch b)) -> (forall b c, P (NewContext b c)) ->
  (forall c p, P (NewPage c p)) -> (forall c cs, P (AddCookies c cs)) ->
  (forall p x, P (Goto p HomePage (or_else (Some T) x))) ->
  (forall p, P (Evaluate p)) ->
  (forall b, P (CloseBrowser b)) ->
  (forall p, emits P (body p T)) ->
  grows P w (after (workflow fraction timeout sess body s w)).
Proof.
  intros T H1 H2 H3 H4 H5 H6 H7 Hb. unfold workflow. fold T.
  pose proof (emits_initialize P (Some T) sess H1 H2 H3 H4 H5 H6 s w) as G0.
  unfold after in *.
  destruct (initialize _ _ _ s w) as [[[u|m] s1] w1]; [|exact G0].
  destruct (page s1) as [p|]; [|exact G0].
  eapply (pre_trans _ (grows_preorder P)); [exact G0|].
  apply (emits_try_finally P); [apply Hb | apply emits_cleanup; exact H7].
Qed.

(** With an idle orchestrator and a site that shows the session, the setup
    launches a browser, opens a page in it and returns. *)
Lemma initialize_idle T sess tools w :
  idle tools -> session_ok sess ->
  exists w',
    initialize fraction T sess tools w =
      (Returned tt,
       {| authManager :=
            {| AuthManager.browser := Some (fresh w);
               AuthManager.context := AuthManager.context (authManager tools);
               AuthManager.page := AuthManager.page (authManager tools) |};
          browser := Some (fresh w);
          page := Some (S (S (fresh w)));
          timeout := timeout tools |}, w') /\
    browsers w' = fresh w :: browsers w /\
    contexts w' = (S (fresh w), fresh w) :: contexts w /\
    pages w' = (S (S (fresh w)), S (fresh w)) :: pages w /\
    exists e0,
      trace w' = trace w ++ Launch (fresh w) :: NewContext (fresh w) (S (fresh w))
                   :: NewPage (S (fresh w)) (S (S (fresh w))) :: e0.
Proof.
  intros [Hb Ha] [Hn Hp].
  unfold initialize, bind, get. cbv beta iota. rewrite Hb. cbv beta iota.
  unfold on_authManager, AuthManager.getBrowser, bind, get. cbv beta iota.
  rewrite Ha. cbn. unfold browserNewPage. cbn [browsers emit existsb].
  rewrite Nat.eqb_refl. cbn.
  destruct (cookie_file w); cbn; rewrite Hn; cbn; rewrite Hp; cbn;
    eexists; (split; [reflexivity|]); cbn [browsers contexts pages emit];
    repeat split; cbn [trace emit]; rewrite <- !app_assoc; cbn [app];
    eexists; reflexivity.
Qed.

(** *** Navigation of the comments and of the note-detail workflows *)


Lemma content_try_trace p T url sc s w :
  exists rest,
    added w (content_try fraction p T url sc s w)
      (Goto p (Address (Link.extractRedBookUrl url)) T :: rest) /\
    Forall (goes_only_to (Link.extractRedBookUrl url)) rest.
Proof.
  unfold content_try, try_catch, bind, ask, throw, added, after.
  destruct (note_nav sc); cbn; [destruct (detail sc); cbn|];
    eexists; (split; [rewrite <- ?app_assoc; reflexivity | repeat constructor]).
Qed.


Lemma content_try_result p T url sc s w :
  result (content_try fraction p T url sc s w) =
  match note_nav sc with
  | Returned _ =>
      match detail sc with
      | Returned d => Returned (NoteDetail.set_url d url)
      | Thrown m => Thrown m
      end
  | Thrown _ =>
      Thrown ("打开笔记页面超时 (" ++ toString fraction T ++ "ms)")%string
  end.
Proof.
  unfold content_try, try_catch, bind, ask, throw, result.
  destruct (note_nav sc); cbn; [destruct (detail sc); cbn|]; reflexivity.
Qed.

(** The result of a workflow on an idle orchestrator with a session. *)
Lemma workflow_idle_result {A} timeout sess (body : nat -> number -> Prog t A) tools w :
  idle tools -> session_ok sess ->
  exists w1,
    result (workflow fraction timeout sess body tools w) =
    result (body (S (S (fresh w))) (or_else timeout (RedNoteTools.timeout tools))
              {| authManager :=
                   {| AuthManager.browser := Some (fresh w);
                      AuthManager.context := AuthManager.context (authManager tools);
                      AuthManager.page := AuthManager.page (authManager tools) |};
                 browser := Some (fresh w);
                 page := Some (S (S (fresh w)));
                 timeout := RedNoteTools.timeout tools |} w1).
Proof.
  intros Hi Hs. unfold workflow.
  destruct (initialize_idle (Some (or_else timeout (RedNoteTools.timeout tools)))
              sess tools w Hi Hs) as (w1 & E & _).
  rewrite E. cbn [page]. exists w1. apply try_finally_cleanup.
Qed.

(** C6.  The note that [getNoteContent] returns is what the detail extractor
    gave, with its [url] field set to the caller's [url] as given, although
    the page was sent to the resolved link; and the call does return such a
    note when the session is set up, the page opens and the extractor gives
    one. *)
Theorem getNoteContent_keeps_url (url : JsString.t) (timeout : option number)
    (sc : content_script) (tools : RedNoteTools.t) (w : World) :
  let out := getNoteContent fraction url timeout sc tools w in
  match result out with
  | Returned note =>
      NoteDetail.url note = url /\
      exists d p evs,
        detail sc = Returned d /\ note = NoteDetail.set_url d url /\
        added w out evs /\
        In (Goto p (Address (Link.extractRedBookUrl url))
              (or_else timeout (RedNoteTools.timeout tools))) evs
  | Thrown _ => True
  end /\
  (idle tools -> session_ok (content_session sc) ->
   note_nav sc = Returned tt ->
   forall d, detail sc = Returned d ->
   result out = Returned (NoteDetail.set_url d url)).
Proof.
  cbv zeta. rewrite getNoteContent_workflow. split.
  - destruct (result (workflow _ _ _ _ tools w)) as [a|m] eqn:Hr; [|exact I].
    destruct (workflow_returned (fun _ => True) timeout (content_session sc)
                (fun p T => content_try fraction p T url sc)
                tools w a) as (p & s1 & w1 & e0 & e2 & A0 & F0 & Rb & A2 & F2);
      auto.
    rewrite content_try_result in Rb.
    destruct (note_nav sc); [|discriminate].
    destruct (detail sc) as [d|]; [|discriminate].
    inversion Rb; subst a. split; [reflexivity|].
    destruct (content_try_trace p (or_else timeout (RedNoteTools.timeout tools))
                url sc s1 w1) as (rest & Ab & Fb).
    unfold added in Ab.
    exists d, p, (e0 ++ Goto p (Address (Link.extractRedBookUrl url))
                          (or_else timeout (RedNoteTools.timeout tools))
                     :: rest ++ e2).
    repeat split.
    + unfold added. rewrite A2, Ab, A0. rewrite <- !app_assoc. reflexivity.
    + apply in_or_app. right. left. reflexivity.
  - intros Hi Hs Hn d Hd.
    destruct (workflow_idle_result timeout (content_session sc)
                (fun p T => content_try fraction p T url sc) tools w Hi Hs)
      as (w1 & E).
    rewrite E, content_try_result, Hn, Hd. reflexivity.
Qed.

(** *** Partial results of the search workflow *)

Lemma iterations_le_len len limit : (iterations len limit <= len)%nat.
Proof. unfold iterations. lia. Qed.







(** *** Release of the browser *)

Lemma process_notes_untouched p bound : forall rest i,
  steps untouched (process_notes p i rest bound).
Proof.
  induction rest as [|it rest IH]; intros i; cbn [process_notes].
  - repeat quiet_step.
  - unfold process_note, randomDelay, close_dialog, push.
    repeat (quiet_step || apply IH).
    intros s w. repeat split.
Qed.

Lemma process_notes_emits (P : event -> Prop) p bound :
  (forall sel, P (Click p sel)) -> (forall sel, P (Query p sel)) ->
  P (Evaluate p) -> (forall a b, P (RandomDelay a b)) ->
  (forall d, P (WaitForSelector p NoteContainer d 30000%Q)) ->
  forall rest i, emits P (process_notes p i rest bound).
Proof.
  intros H1 H2 H3 H4 H5.
  induction rest as [|it rest IH]; intros i; cbn [process_notes].
  - apply emits_ret.
  - unfold process_note, randomDelay, close_dialog, push.
    repeat (emits_step || apply IH).
    intros s w. apply (pre_refl _ (grows_preorder P)).
Qed.

Lemma try_blocks_quiet :
  (forall p T keywords limit sc,
     keeps_state (search_try fraction p T keywords limit sc) /\
     steps untouched (search_try fraction p T keywords limit sc) /\
     emits (fun _ => True) (search_try fraction p T keywords limit sc)) /\
  (forall p T url sc,
     keeps_state (content_try fraction p T url sc) /\
     steps untouched (content_try fraction p T url sc) /\
     emits (fun _ => True) (content_try fraction p T url sc)) /\
  (forall p T url sc,
     keeps_state (comments_try fraction p T url sc) /\
     steps untouched (comments_try fraction p T url sc) /\
     emits (fun _ => True) (comments_try fraction p T url sc)).
Proof.
  split; [|split]; intros; (split; [|split]).
  - unfold search_try. repeat quiet_step.
  - unfold search_try. repeat (quiet_step || apply process_notes_untouched).
  - unfold search_try. repeat emits_step. apply process_notes_emits; auto.
  - unfold content_try. repeat quiet_step.
  - unfold content_try. repeat quiet_step.
  - unfold content_try. repeat emits_step.
  - unfold comments_try. repeat quiet_step.
  - unfold comments_try. repeat quiet_step.
  - unfold comments_try. repeat emits_step.
Qed.

Lemma cleanup_run s w b :
  browser s = Some b ->
  cleanup s w =
  (Returned tt,
   {| authManager := authManager s; browser := None; page := None;
      timeout := timeout s |},
   after (@closeBrowser unit b tt w)).
Proof. intros H. unfold cleanup, bind, get. cbv beta iota. rewrite H. reflexivity. Qed.

Lemma in_drop_owner x o owners xs :
  In o owners -> ~ In (x, o) (drop_owner owners xs).
Proof.
  intros Ho Hin. unfold drop_owner in Hin. apply filter_In in Hin.
  destruct Hin as (_ & Hn). apply negb_true_iff in Hn. cbn [snd] in Hn.
  assert (existsb (Nat.eqb o) owners = true)
    by (apply existsb_exists; exists o; split; [exact Ho | apply Nat.eqb_refl]).
  congruence.
Qed.

(** A workflow on an idle orchestrator with a session ends with its browser
    closed, however its [try] block ends. *)
Lemma workflow_closes {A} timeout sess (body : nat -> number -> Prog t A) tools w :
  idle tools -> session_ok sess ->
  (forall p T, keeps_state (body p T)) ->
  (forall p T, steps untouched (body p T)) ->
  (forall p T, emits (fun _ => True) (body p T)) ->
  closed_with_browser w (workflow fraction timeout sess body tools w).
Proof.
  intros Hi Hs Hk Hu He. unfold workflow.
  destruct (initialize_idle (Some (or_else timeout (RedNoteTools.timeout tools)))
              sess tools w Hi Hs) as (w1 & E & Hb & Hc & Hp & e0 & Ht).
  rewrite E. cbn [page]. unfold try_finally.
  match goal with |- context [body ?p ?T ?s1 w1] =>
    pose proof (Hk p T s1 w1) as Ks; destruct (Hu p T s1 w1) as (Ub & Uc & Up);
    destruct (He p T s1 w1) as (e1 & A1 & _);
    unfold state, after in Ks, Ub, Uc, Up, A1;
    destruct (body p T s1 w1) as [[r s2] w2]
  end.
  cbn [fst snd] in *. subst s2.
  match goal with |- context [cleanup ?s0 w2] =>
    rewrite (cleanup_run s0 w2 (fresh w) eq_refl)
  end.
  unfold closed_with_browser, state, after, added. cbn.
  rewrite Ub, Uc, Up, Hb, Hc, Hp, A1, Ht. cbn [owned_by filter map snd fst].
  rewrite Nat.eqb_refl. cbn [map fst].
  split; [|split; [|split; [|split; [|split]]]]; try reflexivity.
  - exists (Launch (fresh w) :: NewContext (fresh w) (S (fresh w))
              :: NewPage (S (fresh w)) (S (S (fresh w))) :: e0 ++ e1).
    split; [rewrite <- !app_assoc; cbn [app]; rewrite <- !app_assoc; reflexivity|].
    cbn. auto 6.
  - intros Hin. apply filter_In in Hin. destruct Hin as (_ & Hn).
    rewrite Nat.eqb_refl in Hn. discriminate.
  - intros c. apply in_drop_owner. left. reflexivity.
  - intros p. apply in_drop_owner. left. reflexivity.
Qed.

(** C4, as the code has it.  On an orchestrator that holds no browser, a
    workflow call whose session setup succeeds ends, whether its [try] block
    returns or throws, with [cleanup] closing the browser the call launched,
    and with it the context and the page the call opened; the browser and page
    fields are cleared.  The browser is thus closed at the end of every such
    call, not kept until the orchestrator is torn down. *)
Theorem workflows_close_browser (tools : RedNoteTools.t) (w : World) :
  idle tools ->
  (forall keywords limit timeout sc,
     session_ok (search_session sc) ->
     closed_with_browser w (searchNotes fraction keywords limit timeout sc tools w)) /\
  (forall url timeout sc,
     session_ok (content_session sc) ->
     closed_with_browser w (getNoteContent fraction url timeout sc tools w)) /\
  (forall url timeout sc,
     session_ok (comments_session sc) ->
     closed_with_browser w (getNoteComments fraction url timeout sc tools w)).
Proof.
  intros Hi. destruct try_blocks_quiet as (Hs & Hc & Hm).
  split; [|split]; intros.
  - rewrite searchNotes_workflow.
    apply workflow_closes; auto; intros p T; apply Hs.
  - rewrite getNoteContent_workflow.
    apply workflow_closes; auto; intros p T; apply Hc.
  - rewrite getNoteComments_workflow.
    apply workflow_closes; auto; intros p T; apply Hm.
Qed.

End Workflows.

(** ** The claims on sample runs *)

Section SampleRuns.
Import Js Browser Obs Sample.

(** Twenty items found, a limit of five, the third item failing before its
    note is read: four notes, the third item's left out. *)
Example search_five_of_twenty :
  result (RedNoteTools.searchNotes no_fraction keywords (Some 5%Q) None
            (results twenty_items) (RedNoteTools.new None) empty_world)
  = Returned [note_of 0; note_of 1; note_of 3; note_of 4].
Proof. vm_compute. reflexivity. Qed.

(** An item whose view cannot be closed in the handler ends the call with
    that error; the items after it are not worked through. *)
Example search_stuck_item :
  result (RedNoteTools.searchNotes no_fraction keywords (Some 5%Q) None
            (results [good_item 0; stuck_item; good_item 2])
            (RedNoteTools.new None) empty_world)
  = Thrown "page.waitForSelector: Timeout 30000ms exceeded.".
Proof. vm_compute. reflexivity. Qed.

(** A fractional limit runs the loop for every index below it. *)
Example search_fractional_limit :
  result (RedNoteTools.searchNotes no_fraction keywords (Some (5 # 2)%Q) None
            (results four_items) (RedNoteTools.new None) empty_world)
  = Returned [note_of 0; note_of 1; note_of 2].
Proof. vm_compute. reflexivity. Qed.

(** When the session setup throws, nothing is closed: the browser and the
    page stay open and stay in the fields. *)
Example setup_failure_leaves_browser :
  let out := RedNoteTools.getNoteComments no_fraction short_link None
               {| RedNoteTools.comments_session := session_down;
                  RedNoteTools.comments_nav := Returned tt;
                  RedNoteTools.list_wait := Returned tt;
                  RedNoteTools.listed := Returned [] |}
               (RedNoteTools.new None) empty_world in
  result out = Thrown "Not logged in" /\
  browsers (after out) = [0%nat] /\ pages (after out) = [(2%nat, 1%nat)] /\
  RedNoteTools.browser (state out) = Some 0%nat.
Proof. vm_compute. repeat split. Qed.

End SampleRuns.

(** ** The timeout of the tool handlers *)

Section HandlerTimeouts.
Import Js Browser Playwright Obs RedNoteTools.
Variable fraction : number -> string.

Lemma search_try_timed p keywords limit sc :
  emits (timed_by 30000%Q) (search_try fraction p 30000%Q keywords limit sc).
Proof.
  unfold search_try. repeat emits_step. apply process_notes_emits; simpl; auto.
Qed.

Lemma content_try_timed p url sc :
  emits (timed_by 30000%Q) (content_try fraction p 30000%Q url sc).
Proof. unfold content_try. repeat emits_step. Qed.

Lemma comments_try_timed p url sc :
  emits (timed_by 30000%Q) (comments_try fraction p 30000%Q url sc).
Proof. unfold comments_try. repeat emits_step. Qed.

(** C8 on the code.  Whatever [REDNOTE_TIMEOUT] and [--timeout=] say, a
    [search_notes], [get_note_content] or [get_note_comments] call without a
    timeout runs every navigation and wait under [DEFAULT_TIMEOUT], 30000 ms:
    the handlers fall back on that constant and hand it on as the call's
    timeout, so the instance default that holds the configured value is never
    read.  With [REDNOTE_TIMEOUT=5000] the configured value and the instance
    default are 5000 and the calls still run under 30000. *)
Theorem handlers_ignore_configured_timeout (env : option JsString.t)
    (argv : list JsString.t) (w : World) :
  (forall keywords limit sc,
     grows (timed_by 30000%Q) w
       (after (Cli.search_notes fraction keywords limit None sc (Cli.tools env argv) w))) /\
  (forall url sc,
     grows (timed_by 30000%Q) w
       (after (Cli.get_note_content fraction url None sc (Cli.tools env argv) w))) /\
  (forall url sc,
     grows (timed_by 30000%Q) w
       (after (Cli.get_note_comments fraction url None sc (Cli.tools env argv) w))) /\
  Cli.getConfiguredTimeout (Some (JsString.of_ascii "5000")) [] = 5000%Q /\
  RedNoteTools.timeout (Cli.tools (Some (JsString.of_ascii "5000")) []) = 5000%Q.
Proof.
  split; [|split; [|split; [|split]]]; try reflexivity; intros.
  - unfold Cli.search_notes. rewrite searchNotes_workflow.
    apply workflow_emits; simpl; auto.
    intros p. apply search_try_timed.
  - unfold Cli.get_note_content. rewrite getNoteContent_workflow.
    apply workflow_emits; simpl; auto.
    intros p. apply content_try_timed.
  - unfold Cli.get_note_comments. rewrite getNoteComments_workflow.
    apply workflow_emits; simpl; auto.
    intros p. apply comments_try_timed.
Qed.

End HandlerTimeouts.

(** ** Messages of the timeout errors *)

Section TimeoutMessages.
Import Js Browser Playwright Obs.
Local Open Scope string_scope.
Variable fraction : number -> string.

Lemma prefix_append needle post : prefix needle (needle ++ post) = true.
Proof.
  induction needle as [|a needle IH]; [destruct post; reflexivity|].
  simpl. destruct (ascii_dec a a); [exact IH | congruence].
Qed.

(** The test [includesb] finds what [includes] says is there. *)
Lemma includes_includesb hay needle : includes hay needle -> includesb hay needle = true.
Proof.
  intros (pre & post & ->). induction pre as [|c pre IH].
  - change ("" ++ needle ++ post) with (needle ++ post).
    assert (U : forall h, includesb h needle =
                          prefix needle h ||
                          match h with
                          | EmptyString => false
                          | String _ h' => includesb h' needle
                          end) by (intros [|? ?]; reflexivity).
    rewrite U, prefix_append. reflexivity.
  - simpl. rewrite IH. apply orb_true_r.
Qed.

Lemma includes_between pre needle post : includes (pre ++ needle ++ post) needle.
Proof. exists pre, post. reflexivity. Qed.

Lemma append_assoc (a b c : string) : (a ++ b) ++ c = a ++ b ++ c.
Proof. induction a as [|x a IH]; simpl; [reflexivity | now rewrite IH]. Qed.

(** What a cause carries, the error that wraps it carries. *)
Lemma includes_wrapped head cause bound :
  includes cause bound -> includes (head ++ cause) bound.
Proof.
  intros (pre & post & ->). exists (head ++ pre), post.
  now rewrite append_assoc.
Qed.

Lemma not_carries {A} m bound :
  includesb m bound = false -> ~ carries (@Thrown A m) bound.
Proof.
  intros H (msg & E & Hin). injection E as <-.
  apply includes_includesb in Hin. congruence.
Qed.

Lemma failed_thrown {A} (r : outcome A) : failed r = true -> exists m, r = Thrown m.
Proof. destruct r; [discriminate | eauto]. Qed.

Lemma manual_login_timeouts total p v s w :
  let out := AuthManager.manual_login fraction total p v s w in
  let sub := toString fraction (Qmin 10000 (total / 3)) in
  (failed (AuthManager.dialog v) = true -> carries (result out) sub) /\
  (AuthManager.dialog v = Returned tt -> failed (AuthManager.qrcode v) = true ->
   carries (result out) sub) /\
  (AuthManager.dialog v = Returned tt -> AuthManager.qrcode v = Returned tt ->
   failed (AuthManager.human v) = true ->
   carries (result out) (toString fraction total)).
Proof.
  cbv zeta. unfold AuthManager.manual_login, bind, try_catch, ask, throw, result.
  split; [|split].
  - intros F. apply failed_thrown in F. destruct F as (m & ->).
    cbv beta iota. cbn [fst snd].
    eexists. split; [reflexivity | apply includes_between].
  - intros -> F. apply failed_thrown in F. destruct F as (m & ->).
    cbv beta iota. cbn [fst snd].
    eexists. split; [reflexivity | apply includes_between].
  - intros -> -> F. apply failed_thrown in F. destruct F as (m & ->).
    cbv beta iota. cbn [fst snd].
    eexists. split; [reflexivity | apply includes_between].
Qed.

(** Without a session on the landing page, the attempt goes on to the
    manual login. *)
Lemma sign_in_manual total answers c p k s w :
  let v := answers k (cookie_file w) in
  AuthManager.nav v = Returned tt ->
  (AuthManager.sidebar v = false \/ AuthManager.probe v = Returned false) ->
  exists w0,
    AuthManager.sign_in fraction total answers c p k s w =
    AuthManager.manual_login fraction total p v s w0.
Proof.
  intros v Hn Hnot. subst v. unfold AuthManager.sign_in.
  unfold bind at 1. unfold CookieManager.loadCookies at 1.
  unfold bind at 1.
  destruct (cookie_file w) eqn:Ec; cbn [ret tell ask];
    unfold bind at 1; cbn [ask]; rewrite Hn;
    unfold bind at 1; cbn [tell ask];
    unfold bind at 1;
    (destruct Hnot as [Hs | Hp];
     [rewrite Hs; cbn [ret]; eexists; reflexivity
     |rewrite Hp; destruct (AuthManager.sidebar _); cbn [ret ask];
      eexists; reflexivity]).
Qed.

Lemma initialize_home_timeout T sess tools w m :
  idle tools -> RedNoteTools.home_nav sess = Thrown m ->
  result (RedNoteTools.initialize fraction T sess tools w) =
  Thrown ("初始化访问主页超时 ("
          ++ toString fraction (or_else T (RedNoteTools.timeout tools)) ++ "ms)").
Proof.
  intros [Hb Ha] Hn.
  unfold RedNoteTools.initialize, bind, get. cbv beta iota. rewrite Hb. cbv beta iota.
  unfold RedNoteTools.on_authManager, AuthManager.getBrowser, bind, get. cbv beta iota.
  rewrite Ha. cbn. unfold Playwright.browserNewPage. cbn [browsers emit existsb].
  rewrite Nat.eqb_refl. cbn.
  destruct (cookie_file w); cbn; rewrite Hn; reflexivity.
Qed.

Lemma search_try_timeouts p T keywords limit sc s w :
  let out := RedNoteTools.search_try fraction p T keywords limit sc s w in
  (failed (RedNoteTools.search_nav sc) = true ->
   carries (result out) (toString fraction T)) /\
  (RedNoteTools.search_nav sc = Returned tt ->
   failed (RedNoteTools.results_wait sc) = true ->
   carries (result out) (toString fraction T)).
Proof.
  cbv zeta. unfold RedNoteTools.search_try, bind, try_catch, ask, throw, result.
  split.
  - intros F. apply failed_thrown in F. destruct F as (m & ->).
    destruct (JsString.encodeURIComponent keywords); cbv beta iota; cbn [fst snd];
      (eexists; split; [reflexivity | apply includes_between]).
  - intros -> F. apply failed_thrown in F. destruct F as (m & ->).
    destruct (JsString.encodeURIComponent keywords); cbv beta iota; cbn [fst snd];
      (eexists; split; [reflexivity | apply includes_between]).
Qed.

(** Keywords that cannot be encoded end the call as a failed navigation to
    the search page does. *)
Lemma search_try_malformed p T keywords limit sc s w :
  JsString.encodeURIComponent keywords = None ->
  carries (result (RedNoteTools.search_try fraction p T keywords limit sc s w))
    (toString fraction T).
Proof.
  intros E.
  unfold RedNoteTools.search_try, bind, try_catch, ask, throw, result.
  rewrite E. cbv beta iota. cbn [fst snd].
  eexists. split; [reflexivity | apply includes_between].
Qed.

Lemma content_try_timeouts p T url sc s w :
  failed (RedNoteTools.note_nav sc) = true ->
  carries (result (RedNoteTools.content_try fraction p T url sc s w))
    (toString fraction T).
Proof.
  intros F. apply failed_thrown in F. destruct F as (m & E).
  rewrite content_try_result, E.
  eexists. split; [reflexivity | apply includes_between].
Qed.

Lemma comments_try_timeouts p T url sc s w :
  let out := RedNoteTools.comments_try fraction p T url sc s w in
  (failed (RedNoteTools.comments_nav sc) = true ->
   carries (result out) (toString fraction T)) /\
  (RedNoteTools.comments_nav sc = Returned tt ->
   failed (RedNoteTools.list_wait sc) = true ->
   carries (result out) (toString fraction T)).
Proof.
  cbv zeta. unfold RedNoteTools.comments_try, bind, try_catch, ask, throw, result.
  split.
  - intros F. apply failed_thrown in F. destruct F as (m & ->).
    cbv beta iota. cbn [fst snd].
    eexists. split; [reflexivity | apply includes_between].
  - intros -> F. apply failed_thrown in F. destruct F as (m & ->).
    cbv beta iota. cbn [fst snd].
    eexists. split; [reflexivity | apply includes_between].
Qed.

End TimeoutMessages.

(** ** Where the code departs from the claims, and sample uses *)

Section Departures.
Import Js Browser Obs Sample.
Local Open Scope string_scope.


(** Against C4: a search that succeeds closes the browser it launched; no
    browser is left open for the next call. *)
Lemma searchNotes_closes_browser :
  let out := RedNoteTools.searchNotes no_fraction keywords None None
               (results []) (RedNoteTools.new None) empty_world in
  result out = Returned [] /\
  trace (after out) =
    [Launch 0; NewContext 0 1; NewPage 1 2; Goto 2 HomePage 30000%Q; Evaluate 2;
     Goto 2 (SearchPage keywords) 30000%Q;
     WaitForSelector 2 FeedsContainer false 30000%Q; Query 2 NoteItems;
     CloseBrowser 0] /\
  browsers (after out) = [].
Proof. vm_compute. auto. Qed.

(** A login whose dialog does not appear, under [login(9000)]: the error
    names the bound of the dialog wait, 3000 ms. *)
Example login_dialog_timeout_message :
  result (AuthManager.login no_fraction (Some 9000%Q)
            (fun _ _ =>
               {| AuthManager.nav := Returned tt; AuthManager.sidebar := false;
                  AuthManager.probe := Returned false;
                  AuthManager.dialog :=
                    Thrown "page.waitForSelector: Timeout 3000ms exceeded.";
                  AuthManager.qrcode := Returned tt;
                  AuthManager.human := Returned tt;
                  AuthManager.verified := Returned true; AuthManager.jar := [] |})
            AuthManager.new empty_world)
  = Thrown ("登录失败，已达到最大重试次数 (3): "
            ++ "登录对话框加载超时 (3000ms): "
            ++ "page.waitForSelector: Timeout 3000ms exceeded.").
Proof. vm_compute. reflexivity. Qed.

(** The configured timeout at work: with [REDNOTE_TIMEOUT=5000] a search
    without a timeout still runs under 30000 ms. *)
Example search_notes_under_configuration :
  after (Cli.search_notes no_fraction keywords None None (results [])
           (Cli.tools (Some (JsString.of_ascii "5000")) []) empty_world)
  = {| fresh := 3; browsers := []; contexts := []; pages := [];
       cookie_file := [];
       trace :=
         [Launch 0; NewContext 0 1; NewPage 1 2; Goto 2 HomePage 30000%Q;
          Evaluate 2; Goto 2 (SearchPage keywords) 30000%Q;
          WaitForSelector 2 FeedsContainer false 30000%Q; Query 2 NoteItems;
          CloseBrowser 0] |}.
Proof. vm_compute. reflexivity. Qed.

(** A timeout given with the call is the one the call runs under. *)
Example get_note_comments_with_timeout :
  trace (after (Cli.get_note_comments no_fraction short_link (Some 5000%Q)
                  comments_page (Cli.tools None []) empty_world))
  = [Launch 0; NewContext 0 1; NewPage 1 2; Goto 2 HomePage 5000%Q; Evaluate 2;
     Goto 2 (Address short_link) 5000%Q;
     WaitForSelector 2 CommentList false 5000%Q; Evaluate 2; CloseBrowser 0].
Proof. vm_compute. reflexivity. Qed.

(** The login tool has no timeout of its own: [login()] runs under 60000. *)
Example login_tool_timeout :
  trace (after (Cli.login no_fraction keeps_session logged_world))
  = (replay_trace 0 60000%Q [session_cookie] [session_cookie]
     ++ [ClosePage 2; CloseContext 1])%list.
Proof. vm_compute. reflexivity. Qed.

(** The two URL workflows on a share text: the note-detail workflow opens the
    short link in it, the comments workflow opens the text itself. *)
Example share_text_navigation :
  In (Goto 2 (Address short_link) 30000%Q)
     (trace (after (RedNoteTools.getNoteContent no_fraction share_text None
                      detail_page (RedNoteTools.new None) empty_world))) /\
  In (Goto 2 (Address share_text) 30000%Q)
     (trace (after (RedNoteTools.getNoteComments no_fraction share_text None
                      comments_page (RedNoteTools.new None) empty_world))).
Proof. vm_compute. auto 10. Qed.


Lemma workflows_close_browser_witness :
  closed_with_browser empty_world
    (RedNoteTools.getNoteComments no_fraction short_link None comments_page
       (RedNoteTools.new None) empty_world).
Proof.
  apply (proj2 (proj2
           (workflows_close_browser no_fraction (RedNoteTools.new None) empty_world
              (conj eq_refl eq_refl)))).
  split; reflexivity.
Defined.

Lemma getNoteContent_keeps_url_witness :
  result (RedNoteTools.getNoteContent no_fraction share_text None detail_page
            (RedNoteTools.new None) empty_world)
  = Returned (NoteDetail.set_url some_detail share_text).
Proof.
  apply (proj2 (getNoteContent_keeps_url no_fraction share_text None detail_page
                  (RedNoteTools.new None) empty_world)).
  - split; reflexivity.
  - split; reflexivity.
  - reflexivity.
  - reflexivity.
Defined.

End Departures.

(* ================================================================== *)
(** * Further properties *)

(** ** Reading the configured timeout *)

Section ConfiguredTimeout.
Import Js Browser Obs More.
Local Open Scope Z_scope.

Lemma read_digits_uint d : forall rest acc,
  no_digit_next rest ->
  Cli.read_digits (JsString.of_ascii (NilEmpty.string_of_uint d) ++ rest) (Some acc)
  = Some (uint_value d acc).
Proof.
  induction d; intros rest acc Hr; cbn [NilEmpty.string_of_uint uint_value];
    try (change (JsString.of_ascii (String ?c ?s)) with (N_of_ascii c :: JsString.of_ascii s));
    try (cbn [JsString.of_ascii list_ascii_of_string map app Cli.read_digits];
         cbn [N_of_ascii Cli.is_digit]; rewrite IHd by exact Hr;
         reflexivity).
  cbn. destruct rest as [|c rest]; cbn; [reflexivity|].
  cbn in Hr. rewrite Hr. reflexivity.
Qed.

Lemma read_digits_first d rest :
  d <> Decimal.Nil -> no_digit_next rest ->
  Cli.read_digits (JsString.of_ascii (NilEmpty.string_of_uint d) ++ rest) None
  = Some (uint_value d 0).
Proof.
  intros Hd Hr. destruct d; [congruence|..];
    cbn [NilEmpty.string_of_uint uint_value];
    change (JsString.of_ascii (String ?c ?s)) with (N_of_ascii c :: JsString.of_ascii s);
    cbn [app Cli.read_digits]; cbn [N_of_ascii Cli.is_digit];
    cbv beta iota; apply read_digits_uint; exact Hr.
Qed.

Lemma uint_value_acc d : forall acc,
  uint_value d (Zpos acc) = Zpos (Pos.of_uint_acc d acc).
Proof.
  induction d; intros acc; cbn [uint_value Pos.of_uint_acc]; try reflexivity;
    rewrite <- IHd; f_equal; lia.
Qed.

Lemma uint_value_of_uint d : uint_value d 0 = Z.of_N (Pos.of_uint d).
Proof.
  induction d; cbn [uint_value Pos.of_uint]; try reflexivity;
    try (exact IHd); cbn [Z.of_N]; rewrite <- uint_value_acc; reflexivity.
Qed.

Lemma uint_value_to_uint p : uint_value (Pos.to_uint p) 0 = Zpos p.
Proof.
  rewrite uint_value_of_uint, DecimalPos.Unsigned.of_to. reflexivity.
Qed.

Lemma string_of_uint_nonnil d :
  d <> Decimal.Nil -> NilZero.string_of_uint d = NilEmpty.string_of_uint d.
Proof. destruct d; [congruence|reflexivity..]. Qed.

Lemma skip_white_space_app ws s :
  all_white_space ws ->
  Cli.skip_white_space (ws ++ s) = Cli.skip_white_space s.
Proof.
  induction 1 as [|c ws Hc _ IH]; [reflexivity|].
  cbn [app Cli.skip_white_space]. rewrite Hc. exact IH.
Qed.

Lemma digit_head d rest :
  d <> Decimal.Nil ->
  exists c s, JsString.of_ascii (NilEmpty.string_of_uint d) ++ rest = c :: s /\
    Cli.is_digit c = true.
Proof.
  intros Hd. destruct d; [congruence|..]; cbn [NilEmpty.string_of_uint];
    change (JsString.of_ascii (String ?c ?s)) with (N_of_ascii c :: JsString.of_ascii s);
    cbn [app]; eexists; eexists; (split; [reflexivity|reflexivity]).
Qed.

Lemma digit_facts c :
  Cli.is_digit c = true ->
  JsString.is_white_space c = false /\ c <> 45%N /\ c <> 43%N /\ c <> 61%N.
Proof.
  unfold Cli.is_digit, JsString.is_white_space. intros H.
  apply andb_true_iff in H. destruct H as [H1 H2].
  apply N.leb_le in H1. apply N.leb_le in H2.
  split; [|split; [|split]]; try (intros ->; lia).
  assert (L : forall a, (c <? a)%N = true -> (a <=? c)%N = false).
  { intros a Ha. apply N.ltb_lt in Ha. apply N.leb_gt. exact Ha. }
  assert (G : forall a, (a <? c)%N = true -> (c <=? a)%N = false).
  { intros a Ha. apply N.ltb_lt in Ha. apply N.leb_gt. exact Ha. }
  assert (E : forall a, ((a <? 48) || (57 <? a))%N = true -> (c =? a)%N = false).
  { intros a Ha. apply N.eqb_neq. apply orb_true_iff in Ha.
    destruct Ha as [Ha|Ha]; apply N.ltb_lt in Ha; lia. }
  rewrite (G 13%N) by (apply N.ltb_lt; lia).
  rewrite !E by reflexivity.
  rewrite (L 8192%N) by (apply N.ltb_lt; lia).
  rewrite andb_false_r. reflexivity.
Qed.

Lemma no_sign_head (A : Type) (c : JsString.code_unit) (s : JsString.t)
    (a b : JsString.t -> A) (d : JsString.t -> A) :
  c <> 45%N -> c <> 43%N ->
  match c :: s with
  | 45%N :: s' => a s'
  | 43%N :: s' => b s'
  | s' => d s'
  end = d (c :: s).
Proof.
  intros M P. destruct c as [|q]; [reflexivity|].
  do 6 (destruct q as [q|q|]; try reflexivity); congruence.
Qed.

(** [parseInt] reads a printed integer back, after leading white space and
    before whatever follows the digits. *)
Lemma parseInt_decimal (n : Z) (ws rest : JsString.t) :
  all_white_space ws -> no_digit_next rest ->
  Cli.parseInt (ws ++ decimal n ++ rest) = Some n.
Proof.
  intros Hws Hr. unfold Cli.parseInt, decimal.
  rewrite skip_white_space_app by exact Hws.
  destruct n as [|p|p]; cbn [Z.to_int NilZero.string_of_int].
  - cbn. destruct rest as [|c rest]; cbn; [reflexivity|].
    cbn in Hr. rewrite Hr. reflexivity.
  - rewrite string_of_uint_nonnil by apply DecimalPos.Unsigned.to_uint_nonnil.
    destruct (digit_head (Pos.to_uint p) rest
                (DecimalPos.Unsigned.to_uint_nonnil p)) as (c & s & E & Hc).
    pose proof (read_digits_first (Pos.to_uint p) rest
                  (DecimalPos.Unsigned.to_uint_nonnil p) Hr) as R.
    rewrite E in *. destruct (digit_facts c Hc) as (W & M & P & _).
    cbn [Cli.skip_white_space]. rewrite W.
    rewrite uint_value_to_uint in R.
    exact (eq_trans
             (no_sign_head _ c s
                (fun s' => option_map Z.opp (Cli.read_digits s' None))
                (fun s' => Cli.read_digits s' None)
                (fun s' => Cli.read_digits s' None) M P) R).
  - rewrite string_of_uint_nonnil by apply DecimalPos.Unsigned.to_uint_nonnil.
    change (JsString.of_ascii (String "-" ?s)) with (45%N :: JsString.of_ascii s).
    cbn [app Cli.skip_white_space].
    change (JsString.is_white_space 45%N) with false. cbv iota.
    rewrite read_digits_first;
      [|apply DecimalPos.Unsigned.to_uint_nonnil|exact Hr].
    rewrite uint_value_to_uint. reflexivity.
Qed.

Lemma positive_some n : 0 < n -> Cli.positive (Some n) = Some n.
Proof.
  intros H. unfold Cli.positive.
  destruct (Z.ltb_spec 0 n); [reflexivity|lia].
Qed.

Lemma positive_inv v n : Cli.positive v = Some n -> 0 < n.
Proof.
  destruct v as [m|]; [|discriminate]. unfold Cli.positive.
  destruct (Z.ltb_spec 0 m); [|discriminate].
  intros E. injection E as <-. assumption.
Qed.

Lemma parseInt_truthy v n : Cli.parseInt v = Some n -> Link.truthy v = true.
Proof. destruct v; [discriminate|reflexivity]. Qed.

Lemma inject_Z_positive n : 0 < n -> (0 < inject_Z n)%Q.
Proof. intros H. unfold Qlt. cbn. lia. Qed.

Lemma truthy_positive (q : number) : (0 < q)%Q -> truthy q = true.
Proof.
  intros H. unfold truthy. destruct (Qeq_bool q 0) eqn:E; [|reflexivity].
  apply Qeq_bool_eq in E. rewrite E in H. exact (False_ind _ (Qlt_irrefl 0 H)).
Qed.

Lemma is_white_space_not_eq c :
  JsString.is_white_space c = true -> N.eqb c 61 = false.
Proof.
  intros H. apply N.eqb_neq. intros ->. discriminate H.
Qed.

Lemma before_eq_white_space ws s :
  all_white_space ws -> before_eq (ws ++ s) = ws ++ before_eq s.
Proof.
  induction 1 as [|c ws Hc _ IH]; [reflexivity|].
  cbn [app before_eq]. rewrite (is_white_space_not_eq c Hc), IH. reflexivity.
Qed.

Lemma before_eq_uint d s :
  before_eq (JsString.of_ascii (NilEmpty.string_of_uint d) ++ s)
  = JsString.of_ascii (NilEmpty.string_of_uint d) ++ before_eq s.
Proof.
  induction d; cbn [NilEmpty.string_of_uint];
    try (change (JsString.of_ascii (String ?c ?s)) with (N_of_ascii c :: JsString.of_ascii s));
    cbn [app before_eq]; try reflexivity;
    cbn [N_of_ascii N.eqb Pos.eqb]; rewrite IHd; reflexivity.
Qed.

Lemma before_eq_decimal n s :
  0 < n -> before_eq (decimal n ++ s) = decimal n ++ before_eq s.
Proof.
  intros H. destruct n as [|p|p]; try lia. unfold decimal.
  cbn [Z.to_int NilZero.string_of_int].
  rewrite string_of_uint_nonnil by apply DecimalPos.Unsigned.to_uint_nonnil.
  apply before_eq_uint.
Qed.

Lemma no_digit_before_eq rest : no_digit_next rest -> no_digit_next (before_eq rest).
Proof.
  destruct rest as [|c rest]; [trivial|]. cbn [before_eq no_digit_next].
  intros H. destruct (N.eqb c 61); [exact I|exact H].
Qed.

(** [s.split('=')] starts with the text before the first equals sign. *)
Lemma split_eq_head s :
  exists pieces, Cli.split_eq s = before_eq s :: pieces.
Proof.
  induction s as [|c s [pieces IH]]; [eexists; reflexivity|].
  cbn [Cli.split_eq before_eq]. destruct (N.eqb c 61); [eexists; reflexivity|].
  rewrite IH. eexists; reflexivity.
Qed.

Lemma split_eq_second_skip c s :
  N.eqb c 61 = false ->
  nth 1 (Cli.split_eq (c :: s)) [] = nth 1 (Cli.split_eq s) [].
Proof.
  intros H. cbn [Cli.split_eq]. rewrite H.
  destruct (split_eq_head s) as [pieces ->]. reflexivity.
Qed.

(** The second piece of an argument that starts with the flag is the text
    between the flag's equals sign and the next one. *)
Lemma split_eq_flag v :
  nth 1 (Cli.split_eq (timeout_flag ++ v)) [] = before_eq v.
Proof.
  unfold timeout_flag. cbn [JsString.of_ascii list_ascii_of_string map app].
  do 9 (rewrite split_eq_second_skip by reflexivity).
  cbn [Cli.split_eq N_of_ascii]. cbn [N.eqb Pos.eqb].
  destruct (split_eq_head v) as [pieces ->]. reflexivity.
Qed.

Lemma starts_with_app pre s :
  Cli.starts_with pre s = true -> exists v, s = pre ++ v.
Proof.
  revert s. induction pre as [|c pre IH]; intros s H.
  - exists s. reflexivity.
  - destruct s as [|d s]; [discriminate|]. cbn [Cli.starts_with] in H.
    apply andb_true_iff in H. destruct H as [E H].
    apply N.eqb_eq in E. subst d. destruct (IH s H) as [v ->].
    exists v. reflexivity.
Qed.

Lemma starts_with_refl pre v : Cli.starts_with pre (pre ++ v) = true.
Proof.
  induction pre as [|c pre IH]; [reflexivity|].
  cbn [app Cli.starts_with]. rewrite N.eqb_refl. exact IH.
Qed.

Lemma find_first_flag pre a more :
  no_timeout_flag pre -> Cli.starts_with timeout_flag a = true ->
  find (Cli.starts_with timeout_flag) (pre ++ a :: more) = Some a.
Proof.
  intros Hpre Ha. induction Hpre as [|x pre Hx _ IH]; cbn [app find].
  - rewrite Ha. reflexivity.
  - rewrite Hx. exact IH.
Qed.

(** X1.  When [REDNOTE_TIMEOUT] holds the decimal digits of a positive
    integer [n], with white space before them or other text after them
    (as in [" 5000ms"]), the configured timeout is [n], whatever the command
    line says. *)
Theorem configured_timeout_from_env (n : Z) (ws rest : JsString.t)
    (argv : list JsString.t) :
  0 < n -> safe_integer n -> all_white_space ws -> no_digit_next rest ->
  Cli.getConfiguredTimeout (Some (ws ++ decimal n ++ rest)) argv = inject_Z n.
Proof.
  intros Hn _ Hws Hr. unfold Cli.getConfiguredTimeout.
  pose proof (parseInt_decimal n ws rest Hws Hr) as E.
  rewrite (parseInt_truthy _ _ E), E, (positive_some n Hn). reflexivity.
Qed.

Lemma configured_timeout_from_env_witness :
  Cli.getConfiguredTimeout
    (Some ([32%N] ++ decimal 5000 ++ JsString.of_ascii "ms"))
    [timeout_flag ++ decimal 7000] = inject_Z 5000.
Proof.
  apply (configured_timeout_from_env 5000 [32%N] (JsString.of_ascii "ms")).
  - lia.
  - unfold safe_integer. cbn. lia.
  - repeat constructor.
  - reflexivity.
Defined.

(** X2.  Of the command-line arguments only the first one that starts with
    [--timeout=] is looked at: the configured timeout is what it would be
    with that argument alone, so a later [--timeout=] is ignored even when
    the first one holds no usable number and the default is taken. *)
Theorem first_timeout_flag_decides (pre more : list JsString.t)
    (a : JsString.t) (env : option JsString.t) :
  no_timeout_flag pre -> Cli.starts_with timeout_flag a = true ->
  Cli.getConfiguredTimeout env (pre ++ a :: more)
  = Cli.getConfiguredTimeout env [a].
Proof.
  intros Hpre Ha. unfold Cli.getConfiguredTimeout.
  fold timeout_flag.
  rewrite (find_first_flag pre a more Hpre Ha).
  cbn [find]. rewrite Ha. reflexivity.
Qed.

Lemma first_timeout_flag_decides_witness :
  Cli.getConfiguredTimeout None
    ([JsString.of_ascii "--stdio"]
     ++ (timeout_flag ++ JsString.of_ascii "soon")
     :: [timeout_flag ++ decimal 5000])
  = Cli.getConfiguredTimeout None [timeout_flag ++ JsString.of_ascii "soon"]
  /\ Cli.getConfiguredTimeout None [timeout_flag ++ JsString.of_ascii "soon"]
     = Cli.DEFAULT_TIMEOUT.
Proof.
  split; [|reflexivity].
  apply (first_timeout_flag_decides [JsString.of_ascii "--stdio"]).
  - repeat constructor.
  - reflexivity.
Defined.

(** X3.  Without [REDNOTE_TIMEOUT], a command line whose first [--timeout=]
    argument holds the decimal digits of a positive integer [n] (other text
    may follow the digits) configures the timeout [n]. *)
Theorem configured_timeout_from_argv (n : Z) (ws rest : JsString.t)
    (pre more : list JsString.t) :
  0 < n -> safe_integer n -> all_white_space ws -> no_digit_next rest ->
  no_timeout_flag pre ->
  Cli.getConfiguredTimeout None
    (pre ++ (timeout_flag ++ ws ++ decimal n ++ rest) :: more)
  = inject_Z n.
Proof.
  intros Hn _ Hws Hr Hpre. unfold Cli.getConfiguredTimeout.
  fold timeout_flag.
  rewrite (find_first_flag pre _ more Hpre (starts_with_refl _ _)).
  rewrite split_eq_flag, (before_eq_white_space _ _ Hws),
    (before_eq_decimal _ _ Hn).
  rewrite (parseInt_decimal n ws _ Hws (no_digit_before_eq _ Hr)).
  rewrite (positive_some n Hn). reflexivity.
Qed.

Lemma configured_timeout_from_argv_witness :
  Cli.getConfiguredTimeout None
    ([JsString.of_ascii "node"; JsString.of_ascii "--stdio"]
     ++ (timeout_flag ++ [] ++ decimal 5000 ++ JsString.of_ascii "=ms")
     :: [timeout_flag ++ decimal 7000])
  = inject_Z 5000.
Proof.
  apply (configured_timeout_from_argv 5000 [] (JsString.of_ascii "=ms")).
  - lia.
  - unfold safe_integer. cbn. lia.
  - constructor.
  - reflexivity.
  - repeat constructor.
Defined.

(** X4.  The configured timeout is a positive number whatever the
    environment and the command line hold, and the orchestrator built from it
    at start-up has exactly it as its instance default: the built-in 30000 of
    the class is never what the instance holds unless it is what was
    configured. *)
Theorem configured_timeout_positive (env : option JsString.t)
    (argv : list JsString.t) :
  (0 < Cli.getConfiguredTimeout env argv)%Q /\
  RedNoteTools.timeout (Cli.tools env argv) = Cli.getConfiguredTimeout env argv.
Proof.
  assert (P : (0 < Cli.getConfiguredTimeout env argv)%Q).
  { unfold Cli.getConfiguredTimeout.
    destruct (match env with
              | Some v => if Link.truthy v then Cli.positive (Cli.parseInt v) else None
              | None => None
              end) as [n|] eqn:E.
    - apply inject_Z_positive.
      destruct env as [v|]; [|discriminate].
      destruct (Link.truthy v); [|discriminate].
      exact (positive_inv _ _ E).
    - destruct (find _ argv) as [arg|].
      + destruct (Cli.positive _) as [n|] eqn:F.
        * apply inject_Z_positive. exact (positive_inv _ _ F).
        * reflexivity.
      + reflexivity. }
  split; [exact P|].
  unfold Cli.tools, RedNoteTools.new. cbn [RedNoteTools.timeout or_else].
  rewrite (truthy_positive _ P). reflexivity.
Qed.

End ConfiguredTimeout.

(** ** Link resolution on its own results *)

Section LinkFixpoints.
Import JsString Regex Link.
Local Open Scope N_scope.

Lemma run_Str_ci l : forall h r s k,
  ci_eq h l -> run (Str l r) (h ++ s) k = run r s k.
Proof.
  induction l as [|c l IH]; intros h r s k E; destruct h as [|x h];
    unfold ci_eq in E; cbn [map] in E; try discriminate E.
  - reflexivity.
  - injection E as Hx Hh. cbn [Str run app]. rewrite Hx, N.eqb_refl.
    apply IH. exact Hh.
Qed.

Lemma run_Str_mismatch c l r x s k :
  canonicalize x <> canonicalize c -> run (Str (c :: l) r) (x :: s) k = None.
Proof.
  intros H. cbn [Str run]. apply N.eqb_neq in H. rewrite H. reflexivity.
Qed.

Lemma star_cls_all cs w :
  Forall (fun c => in_class cs c = true) w -> star_cls cs w Some = Some [].
Proof.
  induction 1 as [|c w Hc _ IH]; [reflexivity|].
  cbn [star_cls]. rewrite Hc, IH. reflexivity.
Qed.

Lemma run_plus_all cs w :
  w <> [] -> Forall (fun c => in_class cs c = true) w ->
  run (PlusCls cs) w Some = Some [].
Proof.
  intros Hne H. destruct w as [|c w]; [congruence|].
  inversion H as [|? ? Hc Hw]; subst. cbn [run]. rewrite Hc.
  apply star_cls_all. exact Hw.
Qed.

Lemma ci_eq_head h c l :
  ci_eq h (c :: l) -> exists x h', h = x :: h' /\ canonicalize x = canonicalize c.
Proof.
  destruct h as [|x h]; unfold ci_eq; cbn [map]; intros E; [discriminate|].
  injection E as Hx _. eauto.
Qed.

(** A short link is matched whole at its first position. *)
Lemma run_short_link w :
  is_short_link w -> run xhslinkRegex w Some = Some [].
Proof.
  intros H. apply lang_xhslinkRegex in H. unfold xhslinkRegex in *.
  apply lang_Str in H. destruct H as (h1 & w1 & -> & E1 & (o & w2 & -> & Ho & L)).
  apply lang_Str in L. destruct L as (h2 & path & -> & E2 & Hne & Hp).
  rewrite (run_Str_ci _ _ _ _ _ E1). cbn [run].
  assert (K : run (Str (of_ascii "://xhslink.com/") (PlusCls link_path_class))
                (h2 ++ path) Some = Some []).
  { rewrite (run_Str_ci _ _ _ _ _ E2). apply run_plus_all; assumption. }
  destruct Ho as [-> | (x & -> & Hx)].
  - destruct (ci_eq_head _ _ _ E2) as (x & h2' & -> & Hx).
    cbn [app] in *. 
    replace (canonicalize x =? canonicalize 115) with false
      by (rewrite Hx; reflexivity).
    exact K.
  - cbn [app]. rewrite Hx, N.eqb_refl. rewrite K. reflexivity.
Qed.

(** A link on the site's domain is matched whole at its first position. *)
Lemma run_site_link w :
  is_site_link w -> run xiaohongshuRegex w Some = Some [].
Proof.
  intros H. apply lang_xiaohongshuRegex in H.
  apply lang_xiaohongshuRegex_parts in H.
  destruct H as (h1 & o1 & h2 & o2 & h3 & tail & -> & E1 & Ho1 & E2 & Ho2 & E3
                 & Hne & Ht).
  unfold xiaohongshuRegex. rewrite (run_Str_ci _ _ _ _ _ E1). cbn [run].
  assert (K3 : run (Str (of_ascii "xiaohongshu.com/") (PlusCls url_tail_class))
                 (h3 ++ tail) Some = Some []).
  { rewrite (run_Str_ci _ _ _ _ _ E3). apply run_plus_all; assumption. }
  assert (K2 : match run (Str (of_ascii "www") (Chr 46)) (o2 ++ h3 ++ tail)
                       (fun s' => run (Str (of_ascii "xiaohongshu.com/")
                                         (PlusCls url_tail_class)) s' Some) with
               | Some x => Some x
               | None => run (Str (of_ascii "xiaohongshu.com/")
                                (PlusCls url_tail_class)) (o2 ++ h3 ++ tail) Some
               end = Some []).
  { destruct Ho2 as [-> | Eo].
    - destruct (ci_eq_head _ _ _ E3) as (x & h3' & -> & Hx).
      cbn [app] in *. change (of_ascii "www") with [119; 119; 119].
      rewrite run_Str_mismatch by (rewrite Hx; discriminate).
      exact K3.
    - change (of_ascii "www.") with (of_ascii "www" ++ [46]) in Eo.
      apply ci_eq_app_inv in Eo. destruct Eo as (a & d & -> & Ea & Ed).
      apply ci_eq_single in Ed. destruct Ed as (y & -> & Hy).
      rewrite <- app_assoc. rewrite (run_Str_ci _ _ _ _ _ Ea).
      cbn [run app]. rewrite Hy, N.eqb_refl, K3. reflexivity. }
  assert (K1 : run (Str (of_ascii "://")
                      (Cat (Opt (Str (of_ascii "www") (Chr 46)))
                         (Str (of_ascii "xiaohongshu.com/")
                            (PlusCls url_tail_class))))
                 (h2 ++ o2 ++ h3 ++ tail) Some = Some []).
  { rewrite (run_Str_ci _ _ _ _ _ E2). cbn [run]. exact K2. }
  destruct Ho1 as [-> | Eo].
  - destruct (ci_eq_head _ _ _ E2) as (x & h2' & -> & Hx).
    cbn [app] in *.
    replace (canonicalize x =? canonicalize 115) with false
      by (rewrite Hx; reflexivity).
    exact K1.
  - apply ci_eq_single in Eo. destruct Eo as (y & -> & Hy).
    cbn [app]. rewrite Hy, N.eqb_refl, K1. reflexivity.
Qed.

Lemma exec_whole r w :
  run r w Some = Some [] -> exec r w = Some w.
Proof.
  intros H. rewrite exec_unfold, H. cbn [List.length].
  rewrite Nat.sub_0_r, firstn_all. reflexivity.
Qed.

Lemma holds_none_exec r s :
  holds_none (lang r) s -> exec r s = None.
Proof.
  intros H. destruct (exec r s) as [w|] eqn:E; [|reflexivity].
  apply exec_some in E. destruct E as (pre & post & -> & L & _).
  exfalso. exact (H pre w post eq_refl L).
Qed.

Lemma holds_none_inside (P : t -> Prop) s pre w post :
  holds_none P s -> s = pre ++ w ++ post -> holds_none P w.
Proof.
  intros H -> pre' w' post' ->. apply (H (pre ++ pre') w' (post' ++ post)).
  rewrite <- !app_assoc. reflexivity.
Qed.

Lemma extractRedBookUrl_short_link w :
  is_short_link w -> extractRedBookUrl w = w.
Proof.
  intros H. unfold extractRedBookUrl.
  rewrite (exec_whole _ _ (run_short_link w H)). unfold group1.
  rewrite (is_short_link_nonempty w H). reflexivity.
Qed.

Lemma extractRedBookUrl_site_link w :
  is_site_link w -> holds_none is_short_link w -> extractRedBookUrl w = w.
Proof.
  intros H N. unfold extractRedBookUrl.
  rewrite (holds_none_exec xhslinkRegex w
             (holds_none_iff _ _ _ (fun x => iff_sym (lang_xhslinkRegex x)) N)).
  cbn [group1].
  rewrite (exec_whole _ _ (run_site_link w H)). unfold group1.
  rewrite (is_site_link_nonempty w H). reflexivity.
Qed.

(** X5.  A link resolves to itself: a short link always, a link on the
    site's own domain as long as no short link lies inside it.  So a caller
    who passes an address of either shape has it opened as it is. *)
Theorem extractRedBookUrl_fixes_links (w : t) :
  is_short_link w \/ (is_site_link w /\ holds_none is_short_link w) ->
  extractRedBookUrl w = w.
Proof.
  intros [H | [H N]].
  - apply extractRedBookUrl_short_link. exact H.
  - apply extractRedBookUrl_site_link; assumption.
Qed.

Lemma extractRedBookUrl_fixes_links_witness :
  extractRedBookUrl (of_ascii "https://xhslink.com/a/Bc9")
  = of_ascii "https://xhslink.com/a/Bc9".
Proof.
  apply extractRedBookUrl_fixes_links. left.
  exists (of_ascii "https://xhslink.com/"), (of_ascii "a/Bc9").
  split; [reflexivity|]. split; [right; reflexivity|].
  split; [discriminate|]. repeat constructor.
Defined.

(** X6.  Resolving twice is resolving once: whatever the text, the link
    taken out of it resolves to itself. *)
Theorem extractRedBookUrl_idempotent (shareText : t) :
  extractRedBookUrl (extractRedBookUrl shareText) = extractRedBookUrl shareText.
Proof.
  unfold extractRedBookUrl at 2 3.
  destruct (exec xhslinkRegex shareText) as [w|] eqn:E1; cbn [group1].
  - destruct (exec_xhslink_some _ _ E1) as (L & _).
    rewrite (is_short_link_nonempty w L).
    apply extractRedBookUrl_short_link. exact L.
  - destruct (exec xiaohongshuRegex shareText) as [w|] eqn:E2; cbn [group1].
    + destruct (exec_xiaohongshu_some _ _ E2) as (L & pre & post & Hs & _).
      rewrite (is_site_link_nonempty w L).
      apply extractRedBookUrl_site_link; [exact L|].
      apply exec_none in E1.
      apply (holds_none_inside _ shareText pre w post); [|exact Hs].
      exact (holds_none_iff _ _ _ lang_xhslinkRegex E1).
    + unfold extractRedBookUrl. rewrite E1, E2. reflexivity.
Qed.

End LinkFixpoints.

(** ** The orchestrator from call to call *)

Section Lifecycle.
Import Js Browser Playwright Obs RedNoteTools More.
Variable fraction : number -> string.

Lemma workflow_silent {A} timeout sess (body : nat -> number -> Prog t A) s w :
  bind (workflow fraction timeout sess body) (fun _ => ret tt) s w =
  workflow fraction timeout sess
    (fun p T => bind (body p T) (fun _ => ret tt)) s w.
Proof.
  unfold bind at 1. unfold workflow.
  destruct (initialize _ _ _ s w) as [[[u|m] s1] w1]; [|reflexivity].
  destruct (page s1) as [p|]; [|reflexivity].
  unfold try_finally, bind, ret.
  destruct (body p _ s1 w1) as [[[a|m] s2] w2];
    destruct (cleanup s2 w2) as [[[u'|m'] s3] w3]; reflexivity.
Qed.

Lemma perform_workflow c s w :
  perform fraction c s w =
  workflow fraction (timeout_of c) (session_of c) (body_of fraction c) s w.
Proof.
  destruct c as [k l t sc|u t sc|u t sc]; cbn [perform timeout_of session_of].
  - change (body_of fraction (SearchNotes k l t sc))
      with (fun p T => bind (search_try fraction p T k
                               (match l with Some n => n | None => 10%Q end) sc)
                         (fun _ => @ret RedNoteTools.t unit tt)).
    rewrite <- workflow_silent. unfold bind.
    rewrite searchNotes_workflow. reflexivity.
  - change (body_of fraction (GetNoteContent u t sc))
      with (fun p T => bind (content_try fraction p T u sc)
                         (fun _ => @ret RedNoteTools.t unit tt)).
    rewrite <- workflow_silent. unfold bind.
    rewrite getNoteContent_workflow. reflexivity.
  - change (body_of fraction (GetNoteComments u t sc))
      with (fun p T => bind (comments_try fraction p T u sc)
                         (fun _ => @ret RedNoteTools.t unit tt)).
    rewrite <- workflow_silent. unfold bind.
    rewrite getNoteComments_workflow. reflexivity.
Qed.

Lemma body_of_quiet c p T :
  keeps_state (body_of fraction c p T) /\
  steps untouched (body_of fraction c p T) /\
  emits (fun _ => True) (body_of fraction c p T).
Proof.
  destruct try_blocks_quiet with (fraction := fraction) as (Hs & Hc & Hm).
  destruct c as [k l t sc|u t sc|u t sc]; cbn [body_of];
    [destruct (Hs p T k (match l with Some n => n | None => 10%Q end) sc)
       as (K & U & E)
    |destruct (Hc p T u sc) as (K & U & E)
    |destruct (Hm p T u sc) as (K & U & E)];
    (split;
     [apply keeps_bind; [exact K|intros; apply keeps_ret]
     |split;
      [apply (steps_bind _ untouched_preorder);
         [exact U|intros; apply (steps_ret _ untouched_preorder)]
      |apply emits_bind; [exact E|intros; apply emits_ret]]]).
Qed.

Lemma body_of_on_page c p T : emits (on_page p) (body_of fraction c p T).
Proof.
  destruct c as [k l t sc|u t sc|u t sc]; cbn [body_of];
    (apply emits_bind; [|intros; apply emits_ret]).
  - unfold search_try. repeat emits_step.
    apply process_notes_emits; simpl; auto.
  - unfold content_try. repeat emits_step.
  - unfold comments_try. repeat emits_step.
Qed.

(** With a browser in its field the setup does nothing. *)
Lemma initialize_skips T sess s w b :
  browser s = Some b -> initialize fraction T sess s w = (Returned tt, s, w).
Proof.
  intros H. unfold initialize, bind, get. cbv beta iota. rewrite H. reflexivity.
Qed.

(** On an idle orchestrator a setup that does not find the session throws
    after the browser and the page were opened, and leaves them in the
    fields. *)
Lemma initialize_idle_failed T sess tools w :
  idle tools -> ~ session_ok sess ->
  exists m w',
    initialize fraction T sess tools w =
      (Thrown m,
       {| authManager :=
            {| AuthManager.browser := Some (fresh w);
               AuthManager.context := AuthManager.context (authManager tools);
               AuthManager.page := AuthManager.page (authManager tools) |};
          browser := Some (fresh w);
          page := Some (S (S (fresh w)));
          timeout := timeout tools |}, w') /\
    browsers w' = fresh w :: browsers w /\
    contexts w' = (S (fresh w), fresh w) :: contexts w /\
    pages w' = (S (S (fresh w)), S (fresh w)) :: pages w /\
    (home_nav sess = Returned tt -> login_probe sess = Returned false ->
     m = "Not logged in"%string) /\
    exists e0, trace w' = trace w ++ e0 /\ Forall (fun e => closes e = false) e0.
Proof.
  intros [Hb Ha] Hs.
  unfold initialize, bind, get. cbv beta iota. rewrite Hb. cbv beta iota.
  unfold on_authManager, AuthManager.getBrowser, bind, get. cbv beta iota.
  rewrite Ha. cbn. unfold browserNewPage. cbn [browsers emit existsb].
  rewrite Nat.eqb_refl. cbn.
  destruct (home_nav sess) as [[]|m0] eqn:Hn;
    [destruct (login_probe sess) as [[|]|m1] eqn:Hp;
       [exfalso; apply Hs; split; assumption| |]|];
    destruct (cookie_file w); cbn;
    try (destruct (String.eqb m1 "Not logged in"); cbn);
    eexists; eexists; (split; [reflexivity|]);
    cbn [browsers contexts pages emit trace];
    (split; [reflexivity|]); (split; [reflexivity|]); (split; [reflexivity|]);
    (split; [intros; try reflexivity; discriminate|]);
    rewrite <- ?app_assoc; cbn [app]; eexists;
    (split; [reflexivity|repeat constructor]).
Qed.

Lemma workflow_failed_setup {A} timeout sess (body : nat -> number -> Prog t A)
    tools w :
  idle tools -> ~ session_ok sess ->
  let out := workflow fraction timeout sess body tools w in
  (exists m, result out = Thrown m) /\
  (home_nav sess = Returned tt -> login_probe sess = Returned false ->
   result out = Thrown "Not logged in"%string) /\
  browser (state out) = Some (fresh w) /\
  page (state out) = Some (S (S (fresh w))) /\
  AuthManager.browser (authManager (state out)) = Some (fresh w) /\
  RedNoteTools.timeout (state out) = RedNoteTools.timeout tools /\
  browsers (after out) = fresh w :: browsers w /\
  contexts (after out) = (S (fresh w), fresh w) :: contexts w /\
  pages (after out) = (S (S (fresh w)), S (fresh w)) :: pages w /\
  exists evs, added w out evs /\ Forall (fun e => closes e = false) evs.
Proof.
  intros Hi Hs. unfold workflow.
  destruct (initialize_idle_failed
              (Some (or_else timeout (RedNoteTools.timeout tools))) sess tools w
              Hi Hs) as (m & w1 & E & Hb & Hc & Hp & Hm & e0 & Ht & Hq).
  rewrite E. unfold result, state, after, added. cbn [fst snd].
  cbn [browser page authManager AuthManager.browser RedNoteTools.timeout].
  repeat split; try assumption; try reflexivity.
  - exists m. reflexivity.
  - intros H1 H2. rewrite (Hm H1 H2). reflexivity.
  - exists e0. split; assumption.
Qed.

(** X7.  On an orchestrator that holds no browser, a call whose session
    setup fails throws before its [try] block is entered, so its [finally]
    never runs: the browser and the page that the setup opened stay open
    and stay in the fields, and nothing is closed.  A site that shows no
    session gives the error [Not logged in]. *)
Theorem failed_setup_leaves_browser (c : call) (tools : RedNoteTools.t)
    (w : World) :
  idle tools -> ~ session_ok (session_of c) ->
  let out := perform fraction c tools w in
  (exists m, result out = Thrown m) /\
  (home_nav (session_of c) = Returned tt ->
   login_probe (session_of c) = Returned false ->
   result out = Thrown "Not logged in"%string) /\
  browser (state out) = Some (fresh w) /\
  page (state out) = Some (S (S (fresh w))) /\
  In (fresh w) (browsers (after out)) /\
  In (S (S (fresh w)), S (fresh w)) (pages (after out)) /\
  exists evs, added w out evs /\ Forall (fun e => closes e = false) evs.
Proof.
  intros Hi Hs. cbv zeta. rewrite perform_workflow.
  destruct (workflow_failed_setup (timeout_of c) (session_of c)
              (body_of fraction c) tools w Hi Hs)
    as (H1 & H2 & H3 & H4 & _ & _ & H5 & _ & H6 & H7).
  repeat split; try assumption.
  - rewrite H5. left. reflexivity.
  - rewrite H6. left. reflexivity.
Qed.

End Lifecycle.

Lemma failed_setup_leaves_browser_witness :
  Obs.result
    (More.perform Sample.no_fraction
       (More.GetNoteComments Sample.short_link None More.comments_page_down)
       (RedNoteTools.new None) Sample.empty_world)
  = Browser.Thrown "Not logged in"%string.
Proof.
  refine (proj1 (proj2 (failed_setup_leaves_browser Sample.no_fraction
            (More.GetNoteComments Sample.short_link None More.comments_page_down)
            (RedNoteTools.new None) Sample.empty_world _ _)) _ _).
  - split; reflexivity.
  - intros [_ H]. discriminate H.
  - reflexivity.
  - reflexivity.
Defined.

Section LaterCalls.
Import Js Browser Playwright Obs RedNoteTools More.
Variable fraction : number -> string.

Lemma not_in_existsb b l : ~ In b l -> existsb (Nat.eqb b) l = false.
Proof.
  intros H. destruct (existsb (Nat.eqb b) l) eqn:E; [|reflexivity].
  apply existsb_exists in E. destruct E as (x & Hx & Hb).
  apply Nat.eqb_eq in Hb. subst x. contradiction.
Qed.

Lemma not_in_closed b l : ~ In b (filter (fun x => negb (Nat.eqb x b)) l).
Proof.
  intros H. apply filter_In in H. destruct H as (_ & H).
  rewrite Nat.eqb_refl in H. discriminate.
Qed.

(** A call on an orchestrator that holds a browser and a page: no setup,
    the [try] block on that page, then [cleanup]. *)
Lemma workflow_leftover {A} (P : event -> Prop) timeout sess
    (body : nat -> number -> Prog t A) s w b p :
  browser s = Some b -> page s = Some p ->
  (forall T, keeps_state (body p T)) ->
  (forall T, steps untouched (body p T)) ->
  (forall T, emits P (body p T)) ->
  let out := workflow fraction timeout sess body s w in
  state out = {| authManager := authManager s; browser := None; page := None;
                 timeout := RedNoteTools.timeout s |} /\
  ~ In b (browsers (after out)) /\
  exists evs, added w out (evs ++ [CloseBrowser b]) /\ Forall P evs.
Proof.
  intros Hb Hp Hk Hu He. unfold workflow.
  rewrite (initialize_skips fraction _ sess s w b Hb). rewrite Hp.
  unfold try_finally.
  match goal with |- context [body p ?T s w] =>
    pose proof (Hk T s w) as Ks; destruct (Hu T s w) as (Ub & _);
    destruct (He T s w) as (e1 & A1 & F1);
    unfold state, after in Ks, Ub, A1;
    destruct (body p T s w) as [[r s2] w2]
  end.
  cbn [fst snd] in *. subst s2. rewrite (cleanup_run s w2 b Hb).
  unfold state, after, added. cbn.
  split; [reflexivity|]. split; [apply not_in_closed|].
  exists e1. split; [|exact F1]. rewrite A1, app_assoc. reflexivity.
Qed.

(** A call on an orchestrator whose browser was closed: the session
    manager hands the closed browser out again, and opening a page in it
    throws before anything is asked of the site. *)
Lemma workflow_spent {A} timeout sess (body : nat -> number -> Prog t A) s w b :
  spent b s w ->
  workflow fraction timeout sess body s w =
  (Thrown "browser.newPage: Target page, context or browser has been closed"%string,
   {| authManager := authManager s; browser := Some b; page := None;
      timeout := RedNoteTools.timeout s |}, w).
Proof.
  intros (Hb & Hp & Ha & Hn). unfold workflow.
  unfold initialize, bind, get. cbv beta iota. rewrite Hb. cbv beta iota.
  unfold on_authManager, AuthManager.getBrowser, bind, get. cbv beta iota.
  rewrite Ha. cbn. unfold browserNewPage. rewrite (not_in_existsb b _ Hn).
  destruct s as [[ab ac ap] sb sp st]. cbn in *. subst. reflexivity.
Qed.

(** A call on an orchestrator that holds a browser and no page. *)
Lemma workflow_jammed {A} timeout sess (body : nat -> number -> Prog t A) s w :
  jammed s ->
  workflow fraction timeout sess body s w =
  (Thrown "Page not initialized"%string, s, w).
Proof.
  intros (Hb & Hp). unfold workflow.
  destruct (browser s) as [b|] eqn:E; [|congruence].
  rewrite (initialize_skips fraction _ sess s w b E). rewrite Hp. reflexivity.
Qed.

Lemma serve_jammed cs : forall s w,
  jammed s -> serve fraction cs s w = (s, w).
Proof.
  induction cs as [|c cs IH]; intros s w H; [reflexivity|].
  cbn [serve]. rewrite perform_workflow, (workflow_jammed _ _ _ s w H).
  unfold state, after. cbn [fst snd]. apply IH. exact H.
Qed.

(** After a call whose setup succeeded the browser is closed and the
    session manager still holds it. *)
Lemma spent_after_call c tools w :
  idle tools -> session_ok (session_of c) ->
  spent (fresh w) (state (perform fraction c tools w))
    (after (perform fraction c tools w)).
Proof.
  intros Hi Hs. rewrite perform_workflow.
  pose proof (workflow_closes fraction (timeout_of c) (session_of c)
                (body_of fraction c) tools w Hi Hs
                (fun p T => proj1 (body_of_quiet fraction c p T))
                (fun p T => proj1 (proj2 (body_of_quiet fraction c p T)))
                (fun p T => proj2 (proj2 (body_of_quiet fraction c p T))))
    as (_ & Hb & Hp & Hn & _).
  split; [exact Hb|]. split; [exact Hp|]. split; [|exact Hn].
  unfold workflow.
  destruct (initialize_idle fraction
              (Some (or_else (timeout_of c) (RedNoteTools.timeout tools)))
              (session_of c) tools w Hi Hs) as (w1 & E & _).
  rewrite E. cbn [page]. unfold try_finally.
  match goal with |- context [body_of fraction c ?p ?T ?s1 w1] =>
    pose proof (proj1 (body_of_quiet fraction c p T) s1 w1) as Ks;
    unfold state in Ks;
    destruct (body_of fraction c p T s1 w1) as [[r s2] w2]
  end.
  cbn [fst snd] in Ks. subst s2.
  match goal with |- context [cleanup ?s0 w2] =>
    rewrite (cleanup_run s0 w2 (fresh w) eq_refl)
  end.
  reflexivity.
Qed.

(** X8.  The call that follows a failed setup finds the browser and the
    page of the failed call in the fields and sets up nothing: whatever the
    site would answer, it opens no browser, context or page, gives no
    cookies and does not load the home page; it runs its [try] block on the
    page left over, and closes the browser left over at its end. *)
Theorem call_after_failed_setup (c1 c2 : call) (tools : RedNoteTools.t)
    (w : World) :
  idle tools -> ~ session_ok (session_of c1) ->
  let out1 := perform fraction c1 tools w in
  let out2 := perform fraction c2 (state out1) (after out1) in
  (exists evs,
     added (after out1) out2 (evs ++ [CloseBrowser (fresh w)]) /\
     Forall (on_page (S (S (fresh w)))) evs) /\
  ~ In (fresh w) (browsers (after out2)) /\
  browser (state out2) = None /\ page (state out2) = None.
Proof.
  intros Hi Hs. cbv zeta.
  rewrite (perform_workflow fraction c1).
  destruct (workflow_failed_setup fraction (timeout_of c1) (session_of c1)
              (body_of fraction c1) tools w Hi Hs)
    as (_ & _ & Hb & Hp & _).
  rewrite (perform_workflow fraction c2).
  destruct (workflow_leftover (on_page (S (S (fresh w)))) (timeout_of c2)
              (session_of c2) (body_of fraction c2) _
              (after (workflow fraction (timeout_of c1) (session_of c1)
                        (body_of fraction c1) tools w)) _ _ Hb Hp
              (fun T => proj1 (body_of_quiet fraction c2 _ T))
              (fun T => proj1 (proj2 (body_of_quiet fraction c2 _ T)))
              (fun T => body_of_on_page fraction c2 _ T))
    as (E & Hn & Ht).
  split; [exact Ht|]. split; [exact Hn|]. rewrite E. split; reflexivity.
Qed.

(** X9.  An orchestrator serves one call.  After a call whose setup
    succeeded, and whether it returned or threw, the next call on the same
    orchestrator throws when it asks the closed browser for a page: nothing
    is launched, no page is loaded, and the world stays as the first call
    left it. *)
Theorem second_call_refused (c1 c2 : call) (tools : RedNoteTools.t)
    (w : World) :
  idle tools -> session_ok (session_of c1) ->
  let out1 := perform fraction c1 tools w in
  let out2 := perform fraction c2 (state out1) (after out1) in
  failed (result out2) = true /\
  after out2 = after out1 /\
  jammed (state out2).
Proof.
  intros Hi Hs. cbv zeta.
  pose proof (spent_after_call c1 tools w Hi Hs) as Sp.
  rewrite (perform_workflow fraction c2).
  rewrite (workflow_spent _ _ _ _ _ _ Sp).
  unfold result, after, state, jammed. cbn.
  split; [reflexivity|]. split; [reflexivity|]. split; [discriminate|reflexivity].
Qed.

End LaterCalls.

Lemma call_after_failed_setup_witness :
  ~ In 0%nat
      (Browser.browsers
         (Obs.after
            (More.perform Sample.no_fraction
               (More.GetNoteComments Sample.short_link None Sample.comments_page)
               (Obs.state
                  (More.perform Sample.no_fraction
                     (More.GetNoteComments Sample.short_link None
                        More.comments_page_down)
                     (RedNoteTools.new None) Sample.empty_world))
               (Obs.after
                  (More.perform Sample.no_fraction
                     (More.GetNoteComments Sample.short_link None
                        More.comments_page_down)
                     (RedNoteTools.new None) Sample.empty_world))))).
Proof.
  refine (proj1 (proj2 (call_after_failed_setup Sample.no_fraction
            (More.GetNoteComments Sample.short_link None More.comments_page_down)
            (More.GetNoteComments Sample.short_link None Sample.comments_page)
            (RedNoteTools.new None) Sample.empty_world _ _))).
  - split; reflexivity.
  - intros [_ H]. discriminate H.
Defined.

Lemma second_call_refused_witness :
  Obs.failed
    (Obs.result
       (More.perform Sample.no_fraction
          (More.SearchNotes Sample.keywords None None
             (Sample.results Sample.four_items))
          (Obs.state
             (More.perform Sample.no_fraction
                (More.GetNoteContent Sample.share_text None Sample.detail_page)
                (RedNoteTools.new None) Sample.empty_world))
          (Obs.after
             (More.perform Sample.no_fraction
                (More.GetNoteContent Sample.share_text None Sample.detail_page)
                (RedNoteTools.new None) Sample.empty_world))))
  = true.
Proof.
  refine (proj1 (second_call_refused Sample.no_fraction
            (More.GetNoteContent Sample.share_text None Sample.detail_page)
            (More.SearchNotes Sample.keywords None None
               (Sample.results Sample.four_items))
            (RedNoteTools.new None) Sample.empty_world _ _)).
  - split; reflexivity.
  - split; reflexivity.
Defined.

Section Jam.
Import Js Browser Playwright Obs RedNoteTools More.
Variable fraction : number -> string.

Lemma session_ok_dec sess : session_ok sess \/ ~ session_ok sess.
Proof.
  unfold session_ok.
  destruct (home_nav sess) as [[]|m]; [|right; intros [H _]; discriminate H].
  destruct (login_probe sess) as [[|]|m];
    [left; split; reflexivity|right; intros [_ H]; discriminate H..].
Qed.

(** After the call that follows a failed setup the browser is closed and
    the session manager still holds it. *)
Lemma spent_after_leftover c1 c2 tools w :
  idle tools -> ~ session_ok (session_of c1) ->
  let out1 := perform fraction c1 tools w in
  let out2 := perform fraction c2 (state out1) (after out1) in
  spent (fresh w) (state out2) (after out2).
Proof.
  intros Hi Hs. cbv zeta.
  rewrite (perform_workflow fraction c1).
  destruct (workflow_failed_setup fraction (timeout_of c1) (session_of c1)
              (body_of fraction c1) tools w Hi Hs)
    as (_ & _ & Hb & Hp & Ha & _).
  rewrite (perform_workflow fraction c2).
  destruct (workflow_leftover fraction (fun _ => True) (timeout_of c2)
              (session_of c2) (body_of fraction c2) _
              (after (workflow fraction (timeout_of c1) (session_of c1)
                        (body_of fraction c1) tools w)) _ _ Hb Hp
              (fun T => proj1 (body_of_quiet fraction c2 _ T))
              (fun T => proj1 (proj2 (body_of_quiet fraction c2 _ T)))
              (fun T => proj2 (proj2 (body_of_quiet fraction c2 _ T))))
    as (E & Hn & _).
  unfold spent. rewrite E. cbn [browser page authManager].
  split; [reflexivity|]. split; [reflexivity|]. split; [exact Ha|exact Hn].
Qed.

Lemma jammed_after_spent c b s w :
  spent b s w ->
  jammed (state (perform fraction c s w)) /\ after (perform fraction c s w) = w.
Proof.
  intros H. rewrite perform_workflow, (workflow_spent fraction _ _ _ _ _ _ H).
  unfold jammed, state, after. cbn. split; [split|]; [discriminate|reflexivity..].
Qed.

Lemma perform_jammed c s w :
  jammed s -> perform fraction c s w = (Thrown "Page not initialized"%string, s, w).
Proof.
  intros H. rewrite perform_workflow. apply workflow_jammed. exact H.
Qed.

(** X10.  From its fourth call on at the latest, and from its third when
    the first call found the session, an orchestrator that started without a
    browser throws [Page not initialized] at every call: the call changes
    neither the fields nor the world, so nothing is launched, loaded or
    closed any more. *)
Theorem orchestrator_jams (c1 c2 c3 c : call) (cs : list call)
    (tools : RedNoteTools.t) (w : World) :
  idle tools ->
  (let sw := serve fraction (c1 :: c2 :: c3 :: cs) tools w in
   perform fraction c (fst sw) (snd sw) =
   (Thrown "Page not initialized"%string, fst sw, snd sw)) /\
  (session_ok (session_of c1) ->
   let sw := serve fraction (c1 :: c2 :: cs) tools w in
   perform fraction c (fst sw) (snd sw) =
   (Thrown "Page not initialized"%string, fst sw, snd sw) /\
   snd sw = after (perform fraction c1 tools w)).
Proof.
  intros Hi.
  assert (Ok : session_ok (session_of c1) ->
               forall c2 cs,
                 jammed (fst (serve fraction (c1 :: c2 :: cs) tools w)) /\
                 snd (serve fraction (c1 :: c2 :: cs) tools w)
                 = after (perform fraction c1 tools w)).
  { intros Hs c2' cs'. cbn [serve].
    destruct (jammed_after_spent c2' _ _ _ (spent_after_call fraction c1 tools w Hi Hs))
      as (J & E).
    rewrite (serve_jammed fraction cs' _ _ J). cbn [fst snd].
    split; [exact J|exact E]. }
  split.
  - cbv zeta. apply perform_jammed.
    destruct (session_ok_dec (session_of c1)) as [Hs|Hs].
    + exact (proj1 (Ok Hs c2 (c3 :: cs))).
    + cbn [serve].
      destruct (jammed_after_spent c3 _ _ _
                  (spent_after_leftover c1 c2 tools w Hi Hs)) as (J & _).
      rewrite (serve_jammed fraction cs _ _ J). exact J.
  - intros Hs. cbv zeta. destruct (Ok Hs c2 cs) as (J & E).
    split; [apply perform_jammed; exact J|exact E].
Qed.

End Jam.

Lemma orchestrator_jams_witness :
  More.perform Sample.no_fraction
    (More.GetNoteContent Sample.share_text None Sample.detail_page)
    (fst (More.serve Sample.no_fraction
            [More.GetNoteComments Sample.short_link None More.comments_page_down;
             More.GetNoteComments Sample.short_link None Sample.comments_page;
             More.SearchNotes Sample.keywords None None
               (Sample.results Sample.four_items)]
            (RedNoteTools.new None) Sample.empty_world))
    (snd (More.serve Sample.no_fraction
            [More.GetNoteComments Sample.short_link None More.comments_page_down;
             More.GetNoteComments Sample.short_link None Sample.comments_page;
             More.SearchNotes Sample.keywords None None
               (Sample.results Sample.four_items)]
            (RedNoteTools.new None) Sample.empty_world))
  = (Browser.Thrown "Page not initialized"%string,
     fst (More.serve Sample.no_fraction
            [More.GetNoteComments Sample.short_link None More.comments_page_down;
             More.GetNoteComments Sample.short_link None Sample.comments_page;
             More.SearchNotes Sample.keywords None None
               (Sample.results Sample.four_items)]
            (RedNoteTools.new None) Sample.empty_world),
     snd (More.serve Sample.no_fraction
            [More.GetNoteComments Sample.short_link None More.comments_page_down;
             More.GetNoteComments Sample.short_link None Sample.comments_page;
             More.SearchNotes Sample.keywords None None
               (Sample.results Sample.four_items)]
            (RedNoteTools.new None) Sample.empty_world)).
Proof.
  refine (proj1 (orchestrator_jams Sample.no_fraction
            (More.GetNoteComments Sample.short_link None More.comments_page_down)
            (More.GetNoteComments Sample.short_link None Sample.comments_page)
            (More.SearchNotes Sample.keywords None None
               (Sample.results Sample.four_items))
            (More.GetNoteContent Sample.share_text None Sample.detail_page)
            [] (RedNoteTools.new None) Sample.empty_world _)).
  split; reflexivity.
Defined.

(** ** The timeout of a call in the requests it makes *)

Section CallTimeouts.
Import Js Browser Playwright Obs RedNoteTools More.
Variable fraction : number -> string.

Lemma or_else_idem t d : or_else (Some (or_else t d)) d = or_else t d.
Proof.
  unfold or_else. destruct t as [n|].
  - destruct (truthy n) eqn:E; [rewrite E; reflexivity|].
    destruct (truthy d); reflexivity.
  - destruct (truthy d); reflexivity.
Qed.

(** The setup of a call on the fields [s]: the home page is loaded under
    the call's timeout, or under the instance default without one. *)
Lemma initialize_grows (P : event -> Prop) timeout sess s w :
  (forall b, P (Launch b)) -> (forall b c, P (NewContext b c)) ->
  (forall c p, P (NewPage c p)) -> (forall c cs, P (AddCookies c cs)) ->
  (forall p, P (Goto p HomePage (or_else timeout (RedNoteTools.timeout s)))) ->
  (forall p, P (Evaluate p)) ->
  grows P w (after (initialize fraction timeout sess s w)).
Proof.
  intros H1 H2 H3 H4 H5 H6. unfold initialize.
  unfold bind at 1. unfold get at 1. cbv beta iota zeta.
  assert (Hset : forall x, emits P (set_browser x) /\ emits P (set_page x))
    by (intros x; split; intros s0 w0; apply (pre_refl _ (grows_preorder P))).
  match goal with |- grows _ _ (after (?prog s w)) =>
    cut (emits P prog); [intros E; exact (E s w)|]
  end.
  repeat (emits_step
          || (apply steps_on_authManager; apply emits_getBrowser; assumption)
          || (apply steps_on_authManager; unfold AuthManager.getCookies;
              apply emits_loadCookies)
          || apply (proj1 (Hset _)) || apply (proj2 (Hset _))).
Qed.

Lemma workflow_grows {A} (P : event -> Prop) timeout sess
    (body : nat -> number -> Prog t A) s w :
  let T := or_else timeout (RedNoteTools.timeout s) in
  (forall b, P (Launch b)) -> (forall b c, P (NewContext b c)) ->
  (forall c p, P (NewPage c p)) -> (forall c cs, P (AddCookies c cs)) ->
  (forall p, P (Goto p HomePage T)) ->
  (forall p, P (Evaluate p)) ->
  (forall b, P (CloseBrowser b)) ->
  (forall p, emits P (body p T)) ->
  grows P w (after (workflow fraction timeout sess body s w)).
Proof.
  intros T H1 H2 H3 H4 H5 H6 H7 Hb. unfold workflow. fold T.
  assert (G0 : grows P w (after (initialize fraction (Some T) sess s w))).
  { apply initialize_grows; try assumption.
    unfold T. rewrite or_else_idem. exact H5. }
  unfold after in *.
  destruct (initialize _ _ _ s w) as [[[u|m] s1] w1]; [|exact G0].
  destruct (page s1) as [p|]; [|exact G0].
  eapply (pre_trans _ (grows_preorder P)); [exact G0|].
  apply (emits_try_finally P); [apply Hb | apply emits_cleanup; exact H7].
Qed.

(** X11.  In a search the caller's timeout (the instance default without
    one) bounds the navigations and the wait for the result list only: the
    waits for the detail view of an item to open and to close run under
    30000 ms whatever timeout the call was given. *)
Theorem searchNotes_item_waits_fixed (keywords : JsString.t)
    (limit timeout : option number) (sc : search_script)
    (tools : RedNoteTools.t) (w : World) :
  grows (search_timed (or_else timeout (RedNoteTools.timeout tools))) w
    (after (searchNotes fraction keywords limit timeout sc tools w)).
Proof.
  rewrite searchNotes_workflow.
  apply workflow_grows; simpl; auto.
  intros p. unfold search_try. repeat emits_step.
  apply process_notes_emits; simpl; auto.
Qed.

(** X12.  The note-detail and the comments calls pass their timeout (the
    instance default without one, or with a zero one) to every request they
    make: each navigation, the wait for the comment list and the detail
    extraction run under it. *)
Theorem detail_calls_honour_timeout (url : JsString.t)
    (timeout : option number) (tools : RedNoteTools.t) (w : World) :
  (forall sc,
     grows (timed_by (or_else timeout (RedNoteTools.timeout tools))) w
       (after (getNoteContent fraction url timeout sc tools w))) /\
  (forall sc,
     grows (timed_by (or_else timeout (RedNoteTools.timeout tools))) w
       (after (getNoteComments fraction url timeout sc tools w))).
Proof.
  split; intros sc.
  - rewrite getNoteContent_workflow.
    apply workflow_grows; simpl; auto.
    intros p. unfold content_try. repeat emits_step.
  - rewrite getNoteComments_workflow.
    apply workflow_grows; simpl; auto.
    intros p. unfold comments_try. repeat emits_step.
Qed.

End CallTimeouts.

(** ** The loop over the result items *)

Section SearchLoop.
Import Js Browser Playwright Obs RedNoteTools More.
Variable fraction : number -> string.

(** The loop stops at the first item whose handler throws. *)
Lemma process_notes_abort p len limit m it rest : forall pre i notes w,
  (i + List.length (pre ++ it :: rest) = len)%nat ->
  (i + List.length pre < iterations len limit)%nat ->
  Forall (fun x => item_escapes x = None) pre ->
  item_escapes it = Some m ->
  result (process_notes p i (pre ++ it :: rest)
            (Qmin (inject_Z (Z.of_nat len)) limit) notes w) = Thrown m.
Proof.
  induction pre as [|x pre IH]; intros i notes w Hlen Hlt Hpre Hit;
    cbn [app process_notes].
  - cbn [List.length] in Hlt.
    rewrite (proj2 (loop_test i len limit)) by lia.
    destruct (process_note_run p it notes w) as (Hr & _).
    rewrite Hit in Hr. unfold bind. unfold result in *.
    destruct (process_note p it notes w) as [[[u|m'] s1] w1]; cbn [fst] in *;
      [discriminate|exact Hr].
  - cbn [List.length app] in Hlt, Hlen.
    rewrite (proj2 (loop_test i len limit)) by lia.
    inversion Hpre as [|? ? Hx Hpre']; subst.
    destruct (process_note_run p x notes w) as (Hr & _).
    rewrite Hx in Hr. unfold bind. unfold result in Hr.
    destruct (process_note p x notes w) as [[[u|m'] s1] w1]; cbn [fst] in Hr;
      [|discriminate].
    apply IH; try assumption; lia.
Qed.

Lemma search_try_abort p T keywords encoded limit sc s w pre it rest m :
  JsString.encodeURIComponent keywords = Some encoded ->
  search_nav sc = Returned tt -> results_wait sc = Returned tt ->
  note_items sc = pre ++ it :: rest ->
  (List.length pre < iterations (List.length (note_items sc)) limit)%nat ->
  Forall (fun x => item_escapes x = None) pre ->
  item_escapes it = Some m ->
  result (search_try fraction p T keywords limit sc s w) = Thrown m.
Proof.
  intros He Hn Hw Hi Hlt Hpre Hit.
  unfold search_try, try_catch, bind, tell, ask, throw, with_local, ret, result.
  rewrite He, Hn, Hw. cbv beta iota. cbn [fst snd].
  match goal with |- context [process_notes ?p0 0 ?items ?bound [] ?w0] =>
    pose proof (process_notes_abort p0 (List.length (note_items sc)) limit m it
                  rest pre 0 [] w0) as H
  end.
  rewrite <- Hi in H. specialize (H eq_refl Hlt Hpre Hit).
  unfold result in H.
  match goal with |- context [process_notes ?p0 0 ?items ?bound [] ?w0] =>
    destruct (process_notes p0 0 items bound [] w0) as [[[u|m'] l] w2]
  end; cbn [fst snd] in *; [discriminate|].
  injection H as ->. reflexivity.
Qed.

(** X13.  A failure in the [catch] block of a result item ends the whole
    search.  For keywords that [encodeURIComponent] accepts (the search page
    is not asked for otherwise), once the search page and the result list
    have loaded: when, among the items the loop reaches, the first one whose
    handler throws (its [try] block failed and closing the note view in the
    handler failed too) throws [m], the call throws [m]: the notes of the items
    before it are not returned. *)
Theorem searchNotes_handler_failure_aborts (keywords encoded : JsString.t)
    (limit timeout : option number) (sc : search_script)
    (tools : RedNoteTools.t) (w : World)
    (pre rest : list item) (it : item) (m : string) :
  let L := match limit with Some n => n | None => 10%Q end in
  JsString.encodeURIComponent keywords = Some encoded ->
  idle tools -> session_ok (search_session sc) ->
  search_nav sc = Returned tt -> results_wait sc = Returned tt ->
  note_items sc = pre ++ it :: rest ->
  (List.length pre < iterations (List.length (note_items sc)) L)%nat ->
  Forall (fun x => item_escapes x = None) pre ->
  item_escapes it = Some m ->
  result (searchNotes fraction keywords limit timeout sc tools w) = Thrown m.
Proof.
  intros L He Hi Hs Hn Hw Hitems Hlt Hpre Hit.
  rewrite searchNotes_workflow.
  destruct (workflow_idle_result fraction timeout (search_session sc)
              (fun p T => search_try fraction p T keywords L sc) tools w Hi Hs)
    as (w1 & E).
  fold L. rewrite E.
  apply (search_try_abort _ _ _ encoded _ _ _ _ pre it rest m); assumption.
Qed.

End SearchLoop.

Lemma searchNotes_handler_failure_aborts_witness :
  Obs.result
    (RedNoteTools.searchNotes Sample.no_fraction Sample.keywords (Some 5%Q) None
       (Sample.results [Sample.good_item 0; Sample.stuck_item; Sample.good_item 2])
       (RedNoteTools.new None) Sample.empty_world)
  = Browser.Thrown "page.waitForSelector: Timeout 30000ms exceeded."%string.
Proof.
  apply (searchNotes_handler_failure_aborts Sample.no_fraction Sample.keywords
           Sample.keywords (Some 5%Q) None
           (Sample.results [Sample.good_item 0; Sample.stuck_item; Sample.good_item 2])
           (RedNoteTools.new None) Sample.empty_world
           [Sample.good_item 0] [Sample.good_item 2] Sample.stuck_item).
  - reflexivity.
  - split; reflexivity.
  - split; reflexivity.
  - reflexivity.
  - reflexivity.
  - reflexivity.
  - vm_compute. lia.
  - repeat constructor.
  - reflexivity.
Defined.

Section OpenedItems.
Import Js Browser Playwright Obs RedNoteTools More.
Variable fraction : number -> string.

Lemma opened_app a b : opened (a ++ b) = (opened a + opened b)%nat.
Proof. unfold opened. rewrite filter_app, length_app. reflexivity. Qed.

Lemma opened_other evs : Forall other_request evs -> opened evs = 0%nat.
Proof.
  unfold opened. induction 1 as [|e evs He _ IH]; [reflexivity|].
  cbn [filter]. unfold other_request in He. rewrite He. exact IH.
Qed.

(** A guarded block that starts with a request: the request comes first,
    whatever way the block goes on. *)
Lemma ask_first {St A B} (P : event -> Prop) e (a : outcome A)
    (K : A -> Prog St B) (H : string -> Prog St B) (F : Prog St unit) s w :
  (forall x, emits P (K x)) -> (forall x, emits P (H x)) -> emits P F ->
  exists rest,
    added w (try_finally (try_catch (bind (ask e a) K) H) F s w) (e :: rest) /\
    Forall P rest.
Proof.
  intros EK EH EF.
  unfold try_finally, try_catch, bind, ask, added, after.
  destruct a as [x|m0].
  - destruct (EK x s (emit e w)) as (e1 & A1 & F1).
    unfold after in A1.
    destruct (K x s (emit e w)) as [[[u|m1] s1] w1]; cbn [snd] in A1.
    + destruct (EF s1 w1) as (e2 & A2 & F2). unfold after in A2.
      destruct (F s1 w1) as [[[u2|m2] s2] w2]; cbn [snd] in *;
        exists (e1 ++ e2); (split; [|apply Forall_app; split; assumption]);
        rewrite A2, A1; cbn [trace emit]; rewrite <- !app_assoc; reflexivity.
    + destruct (EH m1 s1 w1) as (e2 & A2 & F2). unfold after in A2.
      destruct (H m1 s1 w1) as [[r2 s2] w2]; cbn [snd] in A2.
      destruct (EF s2 w2) as (e3 & A3 & F3). unfold after in A3.
      destruct (F s2 w2) as [[[u3|m3] s3] w3]; cbn [snd] in *;
        exists (e1 ++ e2 ++ e3);
        (split; [|repeat (apply Forall_app; split); assumption]);
        rewrite A3, A2, A1; cbn [trace emit]; rewrite <- !app_assoc; reflexivity.
  - destruct (EH m0 s (emit e w)) as (e2 & A2 & F2).
    unfold after in A2.
    destruct (H m0 s (emit e w)) as [[r2 s2] w2]; cbn [snd] in A2.
    destruct (EF s2 w2) as (e3 & A3 & F3). unfold after in A3.
    destruct (F s2 w2) as [[[u3|m3] s3] w3]; cbn [snd] in *;
      exists (e2 ++ e3);
      (split; [|apply Forall_app; split; assumption]);
      rewrite A3, A2; cbn [trace emit]; rewrite <- !app_assoc; reflexivity.
Qed.

(** One turn of the loop clicks the cover of its item once. *)
Lemma process_note_opens p it notes w :
  exists rest,
    added w (process_note p it notes w) (Click p NoteCover :: rest) /\
    Forall other_request rest.
Proof.
  unfold process_note. apply ask_first.
  - intros x. unfold randomDelay, close_dialog, push.
    repeat emits_step; try reflexivity.
    intros s0 w0. apply (pre_refl _ (grows_preorder other_request)).
  - intros x. unfold close_dialog. repeat emits_step; reflexivity.
  - unfold randomDelay. repeat emits_step. reflexivity.
Qed.

Lemma process_notes_opens p len limit : forall rest i notes w,
  (i + List.length rest = len)%nat ->
  exists evs,
    added w (process_notes p i rest (Qmin (inject_Z (Z.of_nat len)) limit) notes w)
      evs /\
    (opened evs <= iterations len limit - i)%nat.
Proof.
  induction rest as [|it rest IH]; intros i notes w Hlen; cbn [process_notes].
  - exists []. unfold added, after, ret. cbn. rewrite app_nil_r.
    split; [reflexivity|lia].
  - destruct (lt (inject_Z (Z.of_nat i)) (Qmin (inject_Z (Z.of_nat len)) limit))
      eqn:Ht.
    + apply loop_test in Ht.
      destruct (process_note_opens p it notes w) as (r1 & A1 & F1).
      unfold bind, added, after in *.
      destruct (process_note p it notes w) as [[[u|m] s1] w1]; cbn [snd] in *.
      * cbn [List.length] in Hlen.
        destruct (IH (S i) s1 w1 ltac:(lia)) as (e2 & A2 & C2).
        unfold added, after in A2.
        exists ((Click p NoteCover :: r1) ++ e2).
        split; [rewrite A2, A1, app_assoc; reflexivity|].
        rewrite opened_app. change (Click p NoteCover :: r1)
          with ([Click p NoteCover] ++ r1).
        rewrite opened_app, (opened_other r1 F1). cbn. lia.
      * exists (Click p NoteCover :: r1). split; [exact A1|].
        change (Click p NoteCover :: r1) with ([Click p NoteCover] ++ r1).
        rewrite opened_app, (opened_other r1 F1). cbn. lia.
    + exists []. unfold added, after, ret. cbn. rewrite app_nil_r.
      split; [reflexivity|lia].
Qed.

Lemma search_try_opens p T keywords limit sc s w :
  exists evs,
    added w (search_try fraction p T keywords limit sc s w) evs /\
    (opened evs <= iterations (List.length (note_items sc)) limit)%nat.
Proof.
  unfold search_try, try_catch, bind, tell, ask, throw, with_local, ret, added,
    after.
  destruct (JsString.encodeURIComponent keywords) as [encoded|];
    cbv beta iota; cbn [fst snd];
    [|exists []; split; [rewrite app_nil_r; reflexivity|cbn; lia]].
  destruct (search_nav sc) as [[]|m1]; cbv beta iota; cbn [fst snd];
    [|eexists; split; [reflexivity|cbn; lia]].
  destruct (results_wait sc) as [[]|m2]; cbv beta iota; cbn [fst snd];
    [|eexists; split; [cbn [trace emit]; rewrite <- app_assoc; reflexivity
                      |cbn; lia]].
  match goal with |- context [process_notes ?p0 0 ?items ?bound [] ?w0] =>
    destruct (process_notes_opens p0 (List.length (note_items sc)) limit
                (note_items sc) 0 [] w0 eq_refl) as (e1 & A1 & C1);
    unfold added, after in A1;
    destruct (process_notes p0 0 items bound [] w0) as [[[u|m] l] w2]
  end; cbn [fst snd] in *; rewrite Nat.sub_0_r in C1;
    (eexists; split;
     [rewrite A1; cbn [trace emit]; rewrite <- !app_assoc; reflexivity
     |cbn [app]; exact C1]).
Qed.

Lemma workflow_opens {A} timeout sess (body : nat -> number -> Prog t A) n s w :
  (forall p T s1 w1,
     exists evs, added w1 (body p T s1 w1) evs /\ (opened evs <= n)%nat) ->
  exists evs,
    added w (workflow fraction timeout sess body s w) evs /\
    (opened evs <= n)%nat.
Proof.
  intros Hb. unfold workflow.
  destruct (emits_initialize fraction other_request
              (Some (or_else timeout (RedNoteTools.timeout s))) sess
              ltac:(reflexivity) ltac:(reflexivity) ltac:(reflexivity)
              ltac:(reflexivity) ltac:(reflexivity) ltac:(reflexivity) s w)
    as (e0 & A0 & F0).
  unfold added, after in *.
  destruct (initialize _ _ _ s w) as [[[u|m] s1] w1]; cbn [snd] in *;
    [|exists e0; split; [exact A0|rewrite (opened_other e0 F0); lia]].
  destruct (page s1) as [p|];
    [|exists e0; split; [exact A0|rewrite (opened_other e0 F0); lia]].
  unfold try_finally.
  destruct (Hb p (or_else timeout (RedNoteTools.timeout s)) s1 w1)
    as (e1 & A1 & C1).
  unfold added, after in A1.
  destruct (body p _ s1 w1) as [[r s2] w2]; cbn [snd] in *.
  destruct (emits_cleanup other_request ltac:(reflexivity) s2 w2) as (e2 & A2 & F2).
  unfold after in A2.
  destruct (cleanup s2 w2) as [[[u3|m3] s3] w3]; cbn [snd] in *;
    exists (e0 ++ e1 ++ e2);
    (split; [rewrite A2, A1, A0, <- !app_assoc; reflexivity|]);
    rewrite !opened_app, (opened_other e0 F0), (opened_other e2 F2); lia.
Qed.

(** X14.  A search opens at most [min(found, limit)] result items, whatever
    fails on the way: the number of cover clicks in its requests is bounded
    by the number of loop turns. *)
Theorem searchNotes_opens_at_most (keywords : JsString.t)
    (limit timeout : option number) (sc : search_script)
    (tools : RedNoteTools.t) (w : World) :
  let L := match limit with Some n => n | None => 10%Q end in
  exists evs,
    added w (searchNotes fraction keywords limit timeout sc tools w) evs /\
    (opened evs <= iterations (List.length (note_items sc)) L)%nat /\
    (opened evs <= List.length (note_items sc))%nat.
Proof.
  intros L. rewrite searchNotes_workflow.
  destruct (workflow_opens timeout (search_session sc)
              (fun p T => search_try fraction p T keywords L sc)
              (iterations (List.length (note_items sc)) L) tools w
              (fun p T s1 w1 => search_try_opens p T keywords L sc s1 w1))
    as (evs & A & C).
  exists evs. split; [exact A|]. split; [exact C|].
  pose proof (iterations_le_len (List.length (note_items sc)) L). lia.
Qed.

End OpenedItems.

(** ** What a login leaves behind *)

Section LoginCookies.
Import Js Browser Playwright Obs AuthManager More.
Variable fraction : number -> string.
Variable total : number.
Variable answers : site.

(** The [try] block of an attempt writes the cookie file as its last step,
    and only when it returns. *)
Lemma sign_in_cookies c p k s w :
  let v := answers k (cookie_file w) in
  let out := sign_in fraction total answers c p k s w in
  match result out with
  | Thrown _ => cookie_file (after out) = cookie_file w
  | Returned _ =>
      cookie_file (after out) = jar v /\
      exists evs, added w out (evs ++ [SaveCookies (jar v)])
  end.
Proof.
  cbv zeta.
  unfold sign_in, manual_login, result, after, added, bind, try_catch, ask,
    tell, ret, throw, CookieManager.loadCookies, CookieManager.saveCookies.
  cbv beta iota zeta.
  set (v := answers k (cookie_file w)).
  assert (Saved : forall (l e1 : list event),
            l = trace w ++ e1 ->
            exists evs,
              l ++ [SaveCookies (jar v)]
              = trace w ++ evs ++ [SaveCookies (jar v)]).
  { intros l e1 ->. exists e1. rewrite app_assoc. reflexivity. }
  destruct (cookie_file w) as [|ck cks] eqn:Hc; cbv beta iota;
  (destruct (nav v) as [[]|m1]; cbn [fst snd cookie_file emit trace];
   [|first [reflexivity|exact Hc]]);
  (destruct (sidebar v); cbn [fst snd cookie_file emit trace];
   [destruct (probe v) as [[|]|m2]; cbn [fst snd cookie_file emit trace];
    [split; [reflexivity|eapply Saved; cbn [trace emit]; rewrite <- ?app_assoc; reflexivity]
    | |first [reflexivity|exact Hc]]|]);
  (destruct (dialog v) as [[]|m3]; cbn [fst snd cookie_file emit trace];
   [|first [reflexivity|exact Hc]]);
  (destruct (qrcode v) as [[]|m4]; cbn [fst snd cookie_file emit trace];
   [|first [reflexivity|exact Hc]]);
  (destruct (human v) as [[]|m5]; cbn [fst snd cookie_file emit trace];
   [|first [reflexivity|exact Hc]]);
  (destruct (verified v) as [[|]|m6]; cbn [fst snd cookie_file emit trace];
   [split; [reflexivity|eapply Saved; cbn [trace emit]; rewrite <- ?app_assoc; reflexivity]
   |first [reflexivity|exact Hc]|first [reflexivity|exact Hc]]).
Qed.

Lemma attempt_cookies b k s w :
  let v := answers k (cookie_file w) in
  let out := attempt fraction total answers b k s w in
  match result out with
  | Thrown _ => cookie_file (after out) = cookie_file w
  | Returned _ =>
      cookie_file (after out) = jar v /\
      exists evs, added w out (evs ++ [SaveCookies (jar v)])
  end.
Proof.
  cbv zeta. rewrite attempt_unfold.
  match goal with |- context [sign_in _ _ _ ?c ?p k ?s1 ?w1] =>
    pose proof (sign_in_cookies c p k s1 w1) as H; cbv zeta in H;
    cbn [cookie_file] in H;
    destruct (result (sign_in fraction total answers c p k s1 w1));
    [destruct H as (H1 & evs & H2); split; [exact H1|]|exact H]
  end.
  unfold added in *. cbn [trace] in H2.
  exists ([NewContext b (fresh w)] ++ [NewPage (fresh w) (S (fresh w))] ++ evs).
  rewrite H2, <- !app_assoc. reflexivity.
Qed.

(** The retry loop: while attempts fail the cookie file stays as it was;
    the attempt that returns has written it, and nothing follows. *)
Lemma login_loop_cookies fuel : forall k b s w,
  (k < 3)%nat -> (3 - k <= fuel)%nat ->
  let out := login_loop fraction total answers fuel b k s w in
  match result out with
  | Thrown _ => cookie_file (after out) = cookie_file w
  | Returned _ =>
      exists k',
        (k' < 3)%nat /\
        cookie_file (after out) = jar (answers k' (cookie_file w)) /\
        exists evs,
          added w out (evs ++ [SaveCookies (jar (answers k' (cookie_file w)))])
  end.
Proof.
  induction fuel as [|fuel IH]; intros k b s w Hk Hf; [lia|].
  cbv zeta. cbn [login_loop].
  replace (Nat.ltb k maxRetries) with true
    by (symmetry; apply Nat.ltb_lt; exact Hk).
  unfold try_catch.
  destruct (attempt_shape fraction total answers b k s w)
    as ((ea & Ha & _) & Hp & Hc & _).
  pose proof (attempt_cookies b k s w) as Ck. cbv zeta in Ck.
  destruct (attempt fraction total answers b k s w) as [[[u|m] s1] w1] eqn:E;
    unfold added, state, after, result in Ha, Hp, Hc, Ck;
    cbn [fst snd] in Ha, Hp, Hc, Ck.
  - unfold result, after, added. cbn [fst snd].
    destruct Ck as (C1 & evs & C2). exists k. split; [exact Hk|].
    split; [exact C1|]. exists evs. exact C2.
  - rewrite (close_both_run (S (fresh w)) (fresh w) _ s1 w1 Hp Hc).
    destruct (Nat.ltb (S k) maxRetries) eqn:Hlt.
    + apply Nat.ltb_lt in Hlt. unfold maxRetries in Hlt.
      rewrite bind_tell.
      match goal with |- context [login_loop _ _ _ fuel b (S k) ?s2 ?w2] =>
        pose proof (IH (S k) b s2 w2 Hlt ltac:(lia)) as H; cbv zeta in H;
        assert (Cw : cookie_file w2 = cookie_file w)
          by (unfold after, closeContext, closePage;
              cbn [snd cookie_file emit]; exact Ck);
        assert (Tw : trace w2 = trace w ++ ea ++ [ClosePage (S (fresh w));
                                                 CloseContext (fresh w);
                                                 Delay 2000%Q])
          by (unfold after, closeContext, closePage; cbn [snd trace emit];
              rewrite Ha, <- !app_assoc; reflexivity);
        rewrite Cw in H;
        destruct (result (login_loop fraction total answers fuel b (S k) s2 w2))
      end.
      * destruct H as (k' & Hk' & C1 & evs & C2).
        exists k'. split; [exact Hk'|]. split; [exact C1|].
        unfold added in *. rewrite C2, Tw.
        exists (ea ++ [ClosePage (S (fresh w)); CloseContext (fresh w);
                       Delay 2000%Q] ++ evs).
        rewrite <- !app_assoc. reflexivity.
      * exact H.
    + unfold result, after, throw, closeContext, closePage.
      cbn [fst snd cookie_file emit]. exact Ck.
Qed.

End LoginCookies.

Section LoginOutcome.
Import Js Browser Playwright Obs AuthManager More.
Variable fraction : number -> string.
Variable answers : site.

Lemma login_body_unfold total (am : AuthManager.t) (w : World) :
  login_body fraction total answers am w =
  login_loop fraction total answers 3 (fresh w) 0
    {| browser := Some (fresh w); context := context am; page := page am |}
    (emit (Launch (fresh w))
       {| fresh := S (fresh w); browsers := fresh w :: browsers w;
          contexts := contexts w; pages := pages w;
          cookie_file := cookie_file w; trace := trace w |}).
Proof. reflexivity. Qed.

(** X15.  A login writes the cookie file only when it succeeds.  A login
    that throws leaves the stored cookies as they were, after all three
    attempts; a login that returns has stored the cookies of the context of
    its last attempt, and storing them was the last thing it did. *)
Theorem login_saves_cookies_on_success_only (timeout : option number)
    (am : AuthManager.t) (w : World) :
  let out := login fraction timeout answers am w in
  match result out with
  | Thrown _ => cookie_file (after out) = cookie_file w
  | Returned _ =>
      exists k,
        (k < 3)%nat /\
        cookie_file (after out) = jar (answers k (cookie_file w)) /\
        exists evs,
          added w out (evs ++ [SaveCookies (jar (answers k (cookie_file w)))])
  end.
Proof.
  cbv zeta. unfold login. rewrite login_body_unfold.
  match goal with |- context [login_loop _ ?T _ 3 ?b 0 ?s2 ?w2] =>
    set (w2v := w2) in *;
    assert (Cw : cookie_file w2v = cookie_file w) by reflexivity;
    assert (Tw : trace w2v = trace w ++ [Launch (fresh w)]) by reflexivity;
    clearbody w2v;
    pose proof (login_loop_cookies fraction T answers 3 0 b s2 w2v
                  ltac:(lia) ltac:(lia)) as H;
    cbv zeta in H; rewrite Cw in H;
    destruct (result (login_loop fraction T answers 3 b 0 s2 w2v))
  end; [|exact H].
  destruct H as (k & Hk & C1 & evs & C2).
  exists k. split; [exact Hk|]. split; [exact C1|].
  unfold added in *. exists (Launch (fresh w) :: evs).
  rewrite C2, Tw, <- !app_assoc. reflexivity.
Qed.

End LoginOutcome.

(** ** What the login tool leaves open *)

Section LoginResources.
Import Js Browser Playwright Obs AuthManager More.
Variable fraction : number -> string.
Variable total : number.
Variable answers : site.

Lemma settled_preorder : preorder settled.
Proof.
  split.
  - intros w. repeat split.
  - intros a b c (A1 & A2 & A3 & A4) (B1 & B2 & B3 & B4).
    unfold settled. repeat split; congruence.
Qed.

Lemma sign_in_settled c p k : steps settled (sign_in fraction total answers c p k).
Proof.
  assert (Hask : forall St A e (a : outcome A), steps settled (@ask St A e a))
    by (intros; intros s w; repeat split).
  assert (Hsave : forall cs, steps settled (@CookieManager.saveCookies t cs))
    by (intros; intros s w; repeat split).
  unfold sign_in, manual_login, tell.
  repeat (first
    [ apply (steps_bind _ settled_preorder); [|intros ?]
    | apply (steps_try_catch _ settled_preorder); [|intros ?]
    | apply (steps_ret _ settled_preorder)
    | apply (steps_throw _ settled_preorder)
    | apply (steps_loadCookies _ settled_preorder)
    | apply Hask
    | apply Hsave
    | match goal with
      | |- steps settled (match ?x with _ => _ end) => destruct x
      | |- steps settled (let _ := _ in _) => cbv zeta
      end ]).
Qed.

Lemma drop_id_fresh i (xs : list (nat * nat)) :
  (forall x, In x xs -> (fst x < i)%nat) -> drop_id i xs = xs.
Proof.
  intros H. induction xs as [|x xs IH]; [reflexivity|].
  change (drop_id i (x :: xs))
    with (if negb (Nat.eqb (fst x) i) then x :: drop_id i xs else drop_id i xs).
  destruct (Nat.eqb_spec (fst x) i) as [E|N].
  - specialize (H x (or_introl eq_refl)). lia.
  - cbn [negb]. rewrite IH; [reflexivity|].
    intros y Hy. apply H. right. exact Hy.
Qed.

Lemma drop_owner_fresh c (xs : list (nat * nat)) :
  (forall x, In x xs -> (snd x < c)%nat) -> drop_owner [c] xs = xs.
Proof.
  intros H. induction xs as [|x xs IH]; [reflexivity|].
  change (drop_owner [c] (x :: xs))
    with (if negb (Nat.eqb (snd x) c || false)
          then x :: drop_owner [c] xs else drop_owner [c] xs).
  destruct (Nat.eqb_spec (snd x) c) as [E|N].
  - specialize (H x (or_introl eq_refl)). lia.
  - cbn [orb negb]. rewrite IH; [reflexivity|].
    intros y Hy. apply H. right. exact Hy.
Qed.

Lemma attempt_resources b k s w :
  let out := attempt fraction total answers b k s w in
  fresh (after out) = S (S (fresh w)) /\
  browsers (after out) = browsers w /\
  contexts (after out) = (fresh w, b) :: contexts w /\
  pages (after out) = (S (fresh w), fresh w) :: pages w.
Proof.
  cbv zeta. rewrite attempt_unfold.
  match goal with |- context [sign_in _ _ _ ?c ?p k ?s1 ?w1] =>
    destruct (sign_in_settled c p k s1 w1) as (F & B & C & P)
  end.
  cbn [fresh browsers contexts pages] in *. auto.
Qed.

(** The world after the page and the context of an attempt were closed. *)
Lemma closed_attempt b w w1 :
  fresh w1 = S (S (fresh w)) ->
  browsers w1 = browsers w ->
  contexts w1 = (fresh w, b) :: contexts w ->
  pages w1 = (S (fresh w), fresh w) :: pages w ->
  let w2 := after (@closeContext unit (fresh w) tt
                     (after (@closePage unit (S (fresh w)) tt w1))) in
  fresh w2 = S (S (fresh w)) /\ browsers w2 = browsers w /\
  (well_formed w ->
   contexts w2 = contexts w /\ pages w2 = pages w /\ well_formed w2).
Proof.
  intros F B C P w2.
  assert (F2 : fresh w2 = S (S (fresh w))) by exact F.
  assert (B2 : browsers w2 = browsers w) by exact B.
  assert (C2 : contexts w2 = drop_id (fresh w) (contexts w1)) by reflexivity.
  assert (P2 : pages w2 = drop_owner [fresh w] (drop_id (S (fresh w)) (pages w1)))
    by reflexivity.
  clearbody w2. split; [exact F2|]. split; [exact B2|].
  intros (Wc & Wp).
  assert (C3 : contexts w2 = contexts w).
  { rewrite C2, C.
    change (drop_id (fresh w) ((fresh w, b) :: contexts w))
      with (if negb (Nat.eqb (fresh w) (fresh w))
            then (fresh w, b) :: drop_id (fresh w) (contexts w)
            else drop_id (fresh w) (contexts w)).
    rewrite Nat.eqb_refl. cbn [negb]. apply drop_id_fresh.
    intros [c0 b0] Hin. cbn [fst]. exact (Wc c0 b0 Hin). }
  assert (P3 : pages w2 = pages w).
  { rewrite P2, P.
    change (drop_id (S (fresh w)) ((S (fresh w), fresh w) :: pages w))
      with (if negb (Nat.eqb (S (fresh w)) (S (fresh w)))
            then (S (fresh w), fresh w) :: drop_id (S (fresh w)) (pages w)
            else drop_id (S (fresh w)) (pages w)).
    rewrite Nat.eqb_refl. cbn [negb].
    rewrite drop_id_fresh.
    - apply drop_owner_fresh. intros [p0 c0] Hin. cbn [snd].
      exact (proj2 (Wp p0 c0 Hin)).
    - intros [p0 c0] Hin. cbn [fst].
      pose proof (proj1 (Wp p0 c0 Hin)). lia. }
  split; [exact C3|]. split; [exact P3|].
  split.
  - intros c0 b0 Hin. rewrite C3 in Hin. rewrite F2.
    pose proof (Wc c0 b0 Hin). lia.
  - intros p0 c0 Hin. rewrite P3 in Hin. rewrite F2.
    pose proof (Wp p0 c0 Hin). lia.
Qed.

(** The retry loop in terms of what is open: the browsers stay as they
    are; the fields end with the context and the page of the last attempt,
    which are open when the loop returns and closed when it throws, and
    those of the attempts before are closed. *)
Lemma login_loop_resources fuel : forall k b s w,
  (k < 3)%nat -> (3 - k <= fuel)%nat ->
  let out := login_loop fraction total answers fuel b k s w in
  browsers (after out) = browsers w /\
  exists c p,
    context (state out) = Some c /\ page (state out) = Some p /\
    (fresh w <= c)%nat /\ (fresh w <= p)%nat /\
    (well_formed w ->
     match result out with
     | Returned _ =>
         contexts (after out) = (c, b) :: contexts w /\
         pages (after out) = (p, c) :: pages w
     | Thrown _ =>
         contexts (after out) = contexts w /\ pages (after out) = pages w
     end).
Proof.
  induction fuel as [|fuel IH]; intros k b s w Hk Hf; [lia|].
  cbv zeta. cbn [login_loop].
  replace (Nat.ltb k maxRetries) with true
    by (symmetry; apply Nat.ltb_lt; exact Hk).
  unfold try_catch.
  destruct (attempt_shape fraction total answers b k s w)
    as (_ & Hp & Hc & _).
  destruct (attempt_resources b k s w) as (Rf & Rb & Rc & Rp).
  destruct (attempt fraction total answers b k s w) as [[[u|m] s1] w1] eqn:E;
    unfold state, after, result in Hp, Hc, Rf, Rb, Rc, Rp;
    cbn [fst snd] in Hp, Hc, Rf, Rb, Rc, Rp.
  - unfold state, after, result. cbn [fst snd].
    split; [exact Rb|]. exists (fresh w), (S (fresh w)).
    split; [exact Hc|]. split; [exact Hp|]. split; [lia|]. split; [lia|].
    intros _. split; assumption.
  - rewrite (close_both_run (S (fresh w)) (fresh w) _ s1 w1 Hp Hc).
    destruct (closed_attempt b w w1 Rf Rb Rc Rp) as (F2 & B2 & W2).
    cbv zeta in F2, B2, W2.
    set (w2 := after (@closeContext unit (fresh w) tt
                        (after (@closePage unit (S (fresh w)) tt w1)))) in *.
    clearbody w2.
    destruct (Nat.ltb (S k) maxRetries) eqn:Hlt.
    + apply Nat.ltb_lt in Hlt. unfold maxRetries in Hlt.
      rewrite bind_tell.
      assert (F3 : fresh (emit (Delay 2000%Q) w2) = S (S (fresh w))) by exact F2.
      assert (B3 : browsers (emit (Delay 2000%Q) w2) = browsers w) by exact B2.
      assert (C3 : contexts (emit (Delay 2000%Q) w2) = contexts w2) by reflexivity.
      assert (P3 : pages (emit (Delay 2000%Q) w2) = pages w2) by reflexivity.
      set (w3 := emit (Delay 2000%Q) w2) in *. clearbody w3.
      destruct (IH (S k) b s1 w3 Hlt ltac:(lia))
        as (Hb' & c & p & Hc' & Hp' & Lc & Lp & Hw).
      split; [rewrite Hb'; exact B3|]. exists c, p.
      split; [exact Hc'|]. split; [exact Hp'|].
      split; [lia|]. split; [lia|].
      intros W. destruct (W2 W) as (C2 & P2 & (Wc2 & Wp2)).
      assert (W3 : well_formed w3).
      { split.
        - intros c0 b0 Hin. rewrite C3 in Hin. rewrite F3, <- F2.
          exact (Wc2 c0 b0 Hin).
        - intros p0 c0 Hin. rewrite P3 in Hin. rewrite F3, <- F2.
          exact (Wp2 p0 c0 Hin). }
      specialize (Hw W3). rewrite C3, P3, C2, P2 in Hw. exact Hw.
    + unfold throw, state, after, result. cbn [fst snd].
      split; [exact B2|]. exists (fresh w), (S (fresh w)).
      split; [exact Hc|]. split; [exact Hp|]. split; [lia|]. split; [lia|].
      intros W. destruct (W2 W) as (C2 & P2 & _). split; assumption.
Qed.

Lemma login_loop_retry_events fuel : forall b k,
  emits retry_event (login_loop fraction total answers fuel b k).
Proof.
  induction fuel as [|fuel IH]; intros b k; simpl.
  - apply emits_ret.
  - destruct (emits_close_if_any retry_event) as (Hp & Hc); simpl; auto.
    destruct (emits_field_updates retry_event) as (_ & Hsc & Hsp).
    unfold attempt, open_page, sign_in, manual_login.
    repeat (emits_step || apply Hsc || apply Hsp || apply Hp || apply Hc
            || apply IH).
Qed.

End LoginResources.

Section LoginTool.
Import Js Browser Playwright Obs AuthManager More.
Variable fraction : number -> string.
Variable answers : site.

(** [cleanup] with a page and a context in the fields. *)
Lemma auth_cleanup_run s w p c :
  page s = Some p -> context s = Some c ->
  cleanup s w =
  (Returned tt, AuthManager.new,
   after (@closeContext unit c tt (after (@closePage unit p tt w)))).
Proof.
  intros Hp Hc. unfold cleanup.
  rewrite (close_both_run p c _ s w Hp Hc). reflexivity.
Qed.

(** X16.  The login tool leaves a browser behind at every call.  The
    browser that [login] launches is never closed, neither by the retries nor
    by [cleanup], which only drops it from the fields: after the call one
    more browser is open than before, and the session manager of the call
    is gone with all its fields cleared. *)
Theorem login_tool_leaves_browser (w : World) :
  let out := Cli.login fraction answers w in
  state out = AuthManager.new /\
  browsers (after out) = fresh w :: browsers w /\
  exists evs,
    added w out (Launch (fresh w) :: evs) /\ Forall retry_event evs.
Proof.
  cbv zeta. unfold Cli.login, login, try_finally.
  rewrite login_body_unfold.
  match goal with |- context [login_loop _ ?T _ 3 ?b 0 ?s2 ?w2] =>
    set (w0 := w2) in *;
    assert (B0 : browsers w0 = fresh w :: browsers w) by reflexivity;
    assert (T0 : trace w0 = trace w ++ [Launch (fresh w)]) by reflexivity;
    clearbody w0;
    destruct (login_loop_resources fraction T answers 3 0 b s2 w0
                ltac:(lia) ltac:(lia)) as (Hb & c & p & Hc & Hp & _);
    destruct (login_loop_retry_events fraction T answers 3 b 0 s2 w0)
      as (e1 & A1 & F1);
    unfold state, after in Hb, Hc, Hp, A1;
    destruct (login_loop fraction T answers 3 b 0 s2 w0) as [[r s1] w1]
  end.
  cbn [fst snd] in *.
  rewrite (auth_cleanup_run s1 w1 p c Hp Hc).
  set (w2 := after (@closeContext unit c tt (after (@closePage unit p tt w1)))).
  assert (B2 : browsers w2 = browsers w1) by reflexivity.
  assert (T2 : trace w2 = trace w1 ++ [ClosePage p; CloseContext c]).
  { unfold w2, after, closeContext, closePage. cbn [snd trace emit].
    rewrite <- app_assoc. reflexivity. }
  clearbody w2. cbv beta iota. unfold added, state, after. cbn [fst snd].
  split; [reflexivity|]. split.
  - rewrite B2, Hb. exact B0.
  - exists (e1 ++ [ClosePage p; CloseContext c]). split.
    + rewrite T2, A1, T0, <- !app_assoc. reflexivity.
    + apply Forall_app. split; [exact F1|]. repeat constructor.
Qed.

Lemma drop_id_head i o (xs : list (nat * nat)) :
  drop_id i ((i, o) :: xs) = drop_id i xs.
Proof.
  change (drop_id i ((i, o) :: xs))
    with (if negb (Nat.eqb i i) then (i, o) :: drop_id i xs else drop_id i xs).
  rewrite Nat.eqb_refl. reflexivity.
Qed.

(** X17.  The login tool closes every context and every page it opened:
    after the call the open contexts and pages are those from before it,
    whether the login succeeded, on whichever attempt, or failed for good.
    Only the browser stays. *)
Theorem login_tool_closes_pages (w : World) :
  well_formed w ->
  let out := Cli.login fraction answers w in
  contexts (after out) = contexts w /\ pages (after out) = pages w.
Proof.
  intros (Wc & Wp). cbv zeta. unfold Cli.login, login, try_finally.
  rewrite login_body_unfold.
  match goal with |- context [login_loop _ ?T _ 3 ?b 0 ?s2 ?w2] =>
    set (w0 := w2) in *;
    assert (F0 : fresh w0 = S (fresh w)) by reflexivity;
    assert (C0 : contexts w0 = contexts w) by reflexivity;
    assert (P0 : pages w0 = pages w) by reflexivity;
    clearbody w0;
    destruct (login_loop_resources fraction T answers 3 0 b s2 w0
                ltac:(lia) ltac:(lia)) as (_ & c & p & Hc & Hp & Lc & Lp & Hw);
    unfold state, after, result in Hc, Hp, Hw;
    destruct (login_loop fraction T answers 3 b 0 s2 w0) as [[r s1] w1]
  end.
  cbn [fst snd] in *.
  assert (W0 : well_formed w0).
  { split.
    - intros c0 b0 Hin. rewrite C0 in Hin. rewrite F0.
      pose proof (Wc c0 b0 Hin). lia.
    - intros p0 c0 Hin. rewrite P0 in Hin. rewrite F0.
      pose proof (Wp p0 c0 Hin). lia. }
  specialize (Hw W0).
  rewrite (auth_cleanup_run s1 w1 p c Hp Hc).
  set (w2 := after (@closeContext unit c tt (after (@closePage unit p tt w1)))).
  assert (C2 : contexts w2 = drop_id c (contexts w1)) by reflexivity.
  assert (P2 : pages w2 = drop_owner [c] (drop_id p (pages w1))) by reflexivity.
  clearbody w2. cbv beta iota. unfold state, after. cbn [fst snd].
  assert (Dc : drop_id c (contexts w) = contexts w).
  { apply drop_id_fresh. intros [c0 b0] Hin. cbn [fst].
    pose proof (Wc c0 b0 Hin). lia. }
  assert (Dp : drop_owner [c] (drop_id p (pages w)) = pages w).
  { rewrite drop_id_fresh.
    - apply drop_owner_fresh. intros [p0 c0] Hin. cbn [snd].
      pose proof (Wp p0 c0 Hin). lia.
    - intros [p0 c0] Hin. cbn [fst]. pose proof (Wp p0 c0 Hin). lia. }
  rewrite C2, P2.
  destruct r as [u|m]; destruct Hw as (Hw1 & Hw2); rewrite Hw1, Hw2, C0, P0;
    rewrite ?drop_id_head; split; assumption.
Qed.

End LoginTool.

Lemma login_tool_closes_pages_witness :
  Browser.contexts
    (Obs.after (Cli.login Sample.no_fraction Sample.unreachable_site
                  Sample.empty_world)) = []
  /\ Browser.pages
       (Obs.after (Cli.login Sample.no_fraction Sample.unreachable_site
                     Sample.empty_world)) = [].
Proof.
  apply (login_tool_closes_pages Sample.no_fraction Sample.unreachable_site
           Sample.empty_world).
  split; intros ? ? H; destruct H.
Defined.

(** ** The stored cookies in the extraction calls *)

Section CallCookies.
Import Js Browser Playwright Obs RedNoteTools More.
Variable fraction : number -> string.

Lemma same_cookies_preorder : preorder same_cookies.
Proof.
  split.
  - intros w. reflexivity.
  - intros a b c H1 H2. unfold same_cookies in *. congruence.
Qed.

Ltac cookies_step :=
  first
    [ apply (steps_bind _ same_cookies_preorder); [|intros ?]
    | apply (steps_try_catch _ same_cookies_preorder); [|intros ?]
    | apply (steps_try_finally _ same_cookies_preorder)
    | apply steps_with_local
    | apply (steps_ret _ same_cookies_preorder)
    | apply (steps_throw _ same_cookies_preorder)
    | apply (steps_get _ same_cookies_preorder)
    | apply (steps_put _ same_cookies_preorder)
    | apply (steps_loadCookies _ same_cookies_preorder)
    | match goal with
      | |- steps same_cookies (ask _ _) => intros ? ?; reflexivity
      | |- steps same_cookies (tell _) => intros ? ?; reflexivity
      | |- steps same_cookies launch => intros ? ?; reflexivity
      | |- steps same_cookies (closeBrowser _) => intros ? ?; reflexivity
      | |- steps same_cookies (set_browser _) => intros ? ?; reflexivity
      | |- steps same_cookies (set_page _) => intros ? ?; reflexivity
      | |- steps same_cookies (push _) => intros ? ?; reflexivity
      | |- steps same_cookies (browserNewPage ?b) =>
          let s := fresh "s" in let w := fresh "w" in
          intros s w; unfold browserNewPage;
          destruct (existsb (Nat.eqb b) (browsers w)); reflexivity
      | |- steps same_cookies (match ?x with _ => _ end) => destruct x
      | |- steps same_cookies (let _ := _ in _) => cbv zeta
      end ].

Lemma initialize_cookies timeout sess :
  steps same_cookies (initialize fraction timeout sess).
Proof.
  unfold initialize.
  repeat (cookies_step
          || (apply steps_on_authManager; unfold AuthManager.getBrowser)
          || (apply steps_on_authManager; unfold AuthManager.getCookies)
          || match goal with
             | |- steps same_cookies (AuthManager.set_browser _) =>
                 intros ? ?; reflexivity
             end).
Qed.

Lemma process_notes_cookies p bound : forall rest i,
  steps same_cookies (process_notes p i rest bound).
Proof.
  induction rest as [|it rest IH]; intros i; cbn [process_notes].
  - cookies_step.
  - unfold process_note, randomDelay, close_dialog.
    repeat (cookies_step || apply IH).
Qed.

Lemma body_of_cookies c p T : steps same_cookies (body_of fraction c p T).
Proof.
  destruct c as [k l t sc|u t sc|u t sc]; cbn [body_of].
  - unfold search_try. repeat (cookies_step || apply process_notes_cookies).
  - unfold content_try. repeat cookies_step.
  - unfold comments_try. repeat cookies_step.
Qed.

Lemma cleanup_cookies : steps same_cookies cleanup.
Proof. unfold cleanup. repeat cookies_step. Qed.

Lemma workflow_cookies c s w :
  cookie_file (after (workflow fraction (timeout_of c) (session_of c)
                        (body_of fraction c) s w)) = cookie_file w.
Proof.
  unfold workflow.
  pose proof (initialize_cookies
                (Some (or_else (timeout_of c) (RedNoteTools.timeout s)))
                (session_of c) s w) as H0.
  unfold after in *.
  destruct (initialize _ _ _ s w) as [[[u|m] s1] w1]; cbn [snd] in *;
    [|exact H0].
  destruct (page s1) as [p|]; cbn [snd]; [|exact H0].
  pose proof (steps_try_finally _ same_cookies_preorder _ _
                (body_of_cookies c p
                   (or_else (timeout_of c) (RedNoteTools.timeout s)))
                cleanup_cookies s1 w1) as H1.
  unfold same_cookies, after in *. congruence.
Qed.

(** The requests of the setup on an idle orchestrator. *)
Lemma initialize_idle_trace T sess tools w :
  idle tools ->
  exists e0,
    added w (initialize fraction T sess tools w)
      (setup_trace (fresh w) (S (fresh w)) (S (S (fresh w))) (cookie_file w)
         (or_else T (RedNoteTools.timeout tools)) ++ e0).
Proof.
  intros [Hb Ha].
  unfold initialize, bind, get. cbv beta iota zeta. rewrite Hb. cbv beta iota.
  unfold on_authManager, AuthManager.getBrowser, bind, get. cbv beta iota.
  rewrite Ha. cbn. unfold browserNewPage. cbn [browsers emit existsb].
  rewrite Nat.eqb_refl. cbn. unfold setup_trace, added, after.
  destruct (cookie_file w); cbn;
    (destruct (home_nav sess) as [[]|m0]; cbn;
     [destruct (login_probe sess) as [[|]|m1]; cbn;
      try (destruct (String.eqb m1 "Not logged in"); cbn)|]);
    rewrite <- ?app_assoc; cbn [app]; eexists;
    repeat (f_equal; try reflexivity);
    first [reflexivity | symmetry; apply app_nil_r].
Qed.

Lemma workflow_extends c s w :
  exists e,
    trace (after (workflow fraction (timeout_of c) (session_of c)
                    (body_of fraction c) s w))
    = trace (after (initialize fraction
                      (Some (or_else (timeout_of c) (RedNoteTools.timeout s)))
                      (session_of c) s w)) ++ e.
Proof.
  unfold workflow, after.
  destruct (initialize _ _ _ s w) as [[[u|m] s1] w1]; cbn [snd];
    [|exists []; rewrite app_nil_r; reflexivity].
  destruct (page s1) as [p|]; cbn [snd];
    [|exists []; rewrite app_nil_r; reflexivity].
  destruct (emits_try_finally (fun _ => True) _ _
              (proj2 (proj2 (body_of_quiet fraction c p
                 (or_else (timeout_of c) (RedNoteTools.timeout s)))))
              (emits_cleanup (fun _ => True) (fun _ => I)) s1 w1)
    as (e & He & _).
  exists e. exact He.
Qed.

(** X18.  The extraction calls read the stored cookies and never write
    them.  Whatever a call does and however it ends, the cookie file is
    afterwards what it was before; and on an orchestrator without a browser
    the call starts by launching one, opening a page, giving the stored
    cookies (if there are any) to the page's context, and loading the home
    page under the call's timeout. *)
Theorem calls_replay_cookies_unchanged (c : call) (tools : RedNoteTools.t)
    (w : World) :
  let out := perform fraction c tools w in
  cookie_file (after out) = cookie_file w /\
  (idle tools ->
   exists rest,
     added w out
       (setup_trace (fresh w) (S (fresh w)) (S (S (fresh w))) (cookie_file w)
          (or_else (timeout_of c) (RedNoteTools.timeout tools)) ++ rest)).
Proof.
  cbv zeta. rewrite perform_workflow. split; [apply workflow_cookies|].
  intros Hi.
  destruct (workflow_extends c tools w) as (e & He).
  destruct (initialize_idle_trace
              (Some (or_else (timeout_of c) (RedNoteTools.timeout tools)))
              (session_of c) tools w Hi) as (e0 & H0).
  unfold added in *. rewrite or_else_idem in H0.
  exists (e0 ++ e). rewrite He, H0, <- !app_assoc. reflexivity.
Qed.

End CallCookies.

Lemma calls_replay_cookies_unchanged_witness :
  exists rest,
    Obs.added Sample.logged_world
      (More.perform Sample.no_fraction
         (More.GetNoteContent Sample.share_text (Some 5000%Q) Sample.detail_page)
         (RedNoteTools.new None) Sample.logged_world)
      (More.setup_trace 0 1 2 [Sample.session_cookie] 5000%Q ++ rest).
Proof.
  refine (proj2 (calls_replay_cookies_unchanged Sample.no_fraction
            (More.GetNoteContent Sample.share_text (Some 5000%Q) Sample.detail_page)
            (RedNoteTools.new None) Sample.logged_world) _).
  split; reflexivity.
Defined.

(** ** The directories of the cookie file *)

Section CookieDirectories.
Import Browser NodeFs AuthManagerSetup.
Local Open Scope string_scope.

Lemma path_eqb_refl p : path_eqb p p = true.
Proof. unfold path_eqb. destruct (list_eq_dec string_dec p p); congruence. Qed.

Lemma path_eqb_neq p q : p <> q -> path_eqb p q = false.
Proof.
  intros H. unfold path_eqb. destruct (list_eq_dec string_dec p q); congruence.
Qed.

Lemma join_longer dir name : join dir name <> dir.
Proof.
  unfold join. intros H. apply (f_equal (@List.length string)) in H.
  rewrite length_app in H. cbn in H. lia.
Qed.

Lemma dirname_join dir name : dirname (join dir name) = dir.
Proof. unfold dirname, join. apply removelast_last. Qed.

(** What [ensure_dir] does where the place is not taken by a file and the
    parent is a directory. *)
Lemma ensure_dir_run fs dir :
  fs (dirname dir) = Some Directory -> fs dir <> Some File ->
  exists fs',
    ensure_dir fs dir = (Returned tt, fs') /\
    fs' dir = Some Directory /\
    (forall q, q <> dir -> fs' q = fs q) /\
    ensure_dir fs' dir = (Returned tt, fs').
Proof.
  intros Hp Hd. unfold ensure_dir, existsSync, mkdirSync.
  destruct (fs dir) as [[|]|] eqn:E; [congruence| |].
  - exists fs. rewrite E. auto.
  - rewrite Hp. eexists. split; [reflexivity|]. cbv beta.
    rewrite path_eqb_refl. split; [reflexivity|].
    split; [|reflexivity].
    intros q Hq. rewrite (path_eqb_neq q dir Hq). reflexivity.
Qed.

(** X19.  Constructing a session manager without a cookie path makes sure
    that [~/.mcp] and [~/.mcp/rednote] are there.  When the home directory
    exists and neither place is taken by a file, the constructor returns with
    the cookie file at [~/.mcp/rednote/cookies.json], both directories exist
    afterwards, nothing else in the file system changed, and constructing
    again changes nothing. *)
Theorem constructor_creates_directories (homeDir : path) (fs : NodeFs.t) :
  let mcpDir := join homeDir ".mcp" in
  let rednoteDir := join mcpDir "rednote" in
  fs homeDir = Some Directory ->
  fs mcpDir <> Some File -> fs rednoteDir <> Some File ->
  exists fs',
    constructor None homeDir fs
    = (Returned (join rednoteDir "cookies.json"), fs') /\
    fs' mcpDir = Some Directory /\ fs' rednoteDir = Some Directory /\
    (forall q, q <> mcpDir -> q <> rednoteDir -> fs' q = fs q) /\
    constructor None homeDir fs' = constructor None homeDir fs.
Proof.
  intros mcpDir rednoteDir Hh Hm Hr.
  assert (Nmr : rednoteDir <> mcpDir) by apply join_longer.
  destruct (ensure_dir_run fs mcpDir) as (fs1 & E1 & D1 & K1 & I1);
    [unfold mcpDir; rewrite dirname_join; exact Hh|exact Hm|].
  destruct (ensure_dir_run fs1 rednoteDir) as (fs2 & E2 & D2 & K2 & I2);
    [unfold rednoteDir; rewrite dirname_join; exact D1
    |rewrite (K1 rednoteDir Nmr); exact Hr|].
  assert (M2 : fs2 mcpDir = Some Directory).
  { rewrite (K2 mcpDir (fun H => Nmr (eq_sym H))). exact D1. }
  exists fs2. unfold constructor. fold mcpDir. fold rednoteDir.
  rewrite E1, E2.
  split; [reflexivity|]. split; [exact M2|]. split; [exact D2|]. split.
  - intros q Q1 Q2. rewrite (K2 q Q2). apply K1. exact Q1.
  - assert (J1 : ensure_dir fs2 mcpDir = (Returned tt, fs2)).
    { unfold ensure_dir, existsSync. rewrite M2. reflexivity. }
    rewrite J1, I2. reflexivity.
Qed.

Lemma constructor_creates_directories_witness :
  exists fs',
    constructor None ["home"; "user"] bare_home
    = (Returned ["home"; "user"; ".mcp"; "rednote"; "cookies.json"], fs') /\
    fs' ["home"; "user"; ".mcp"] = Some Directory /\
    fs' ["home"; "user"; ".mcp"; "rednote"] = Some Directory /\
    (forall q, q <> ["home"; "user"; ".mcp"] ->
               q <> ["home"; "user"; ".mcp"; "rednote"] -> fs' q = bare_home q) /\
    constructor None ["home"; "user"] fs'
    = constructor None ["home"; "user"] bare_home.
Proof.
  apply (constructor_creates_directories ["home"; "user"] bare_home).
  - reflexivity.
  - discriminate.
  - discriminate.
Defined.

End CookieDirectories.

(** ** The login flow, attempt by attempt *)

Section LoginRuns.
Import Js Browser Playwright Obs AuthManager More.
Variable fraction : number -> string.
Variable total : number.
Variable answers : site.

Lemma attempt_waits_app_l p v evs post :
  attempt_waits total p v evs -> attempt_waits total p v (evs ++ post).
Proof.
  assert (M : forall e, In e evs -> In e (evs ++ post))
    by (intros e He; apply in_or_app; left; exact He).
  intros (G & H). split; [exact (M _ G)|].
  intros Hn Hs. destruct (H Hn Hs) as (D & H1). split; [exact (M _ D)|].
  intros Hd. destruct (H1 Hd) as (Q & H2). split; [exact (M _ Q)|].
  intros Hq. exact (M _ (H2 Hq)).
Qed.

Lemma attempt_waits_app_r p v pre evs :
  attempt_waits total p v evs -> attempt_waits total p v (pre ++ evs).
Proof.
  assert (M : forall e, In e evs -> In e (pre ++ evs))
    by (intros e He; apply in_or_app; right; exact He).
  intros (G & H). split; [exact (M _ G)|].
  intros Hn Hs. destruct (H Hn Hs) as (D & H1). split; [exact (M _ D)|].
  intros Hd. destruct (H1 Hd) as (Q & H2). split; [exact (M _ Q)|].
  intros Hq. exact (M _ (H2 Hq)).
Qed.

Ltac waits_step :=
  match goal with
  | |- _ /\ _ => split
  | |- In _ _ => cbn [In app]; repeat (first [left; reflexivity | right])
  | |- _ \/ _ -> _ => let H := fresh in intros [H|H]; try discriminate H
  | |- _ = _ -> _ => let H := fresh in intros H; try discriminate H
  end.

Ltac waits_leaf :=
  eexists; split;
  [cbn [trace emit]; rewrite <- ?app_assoc; reflexivity | repeat waits_step].

(** The [try] block of an attempt asks for its bounded requests on the page
    of the attempt. *)
Lemma sign_in_requests c p k s w :
  exists evs,
    added w (sign_in fraction total answers c p k s w) evs /\
    attempt_waits total p (answers k (cookie_file w)) evs.
Proof.
  unfold attempt_waits, sign_in, manual_login, added, after, bind, try_catch,
    tell, ask, ret, throw, CookieManager.loadCookies, CookieManager.saveCookies.
  cbv beta iota zeta.
  set (v := answers k (cookie_file w)).
  destruct (cookie_file w) as [|ck cks]; cbv beta iota;
  (destruct (nav v) as [[]|m1]; cbn [fst snd emit trace]; [|waits_leaf]);
  (destruct (sidebar v); cbn [fst snd emit trace];
   [destruct (probe v) as [[|]|m2]; cbn [fst snd emit trace];
    [waits_leaf| |waits_leaf]|]);
  (destruct (dialog v) as [[]|m3]; cbn [fst snd emit trace]; [|waits_leaf]);
  (destruct (qrcode v) as [[]|m4]; cbn [fst snd emit trace]; [|waits_leaf]);
  (destruct (human v) as [[]|m5]; cbn [fst snd emit trace]; [|waits_leaf]);
  (destruct (verified v) as [[|]|m6]; cbn [fst snd emit trace]; waits_leaf).
Qed.

(** How the [try] block of an attempt ends depends on the attempt and on the
    stored cookies alone. *)
Lemma sign_in_result_cookies c c' p p' k s s' w w' :
  cookie_file w' = cookie_file w ->
  result (sign_in fraction total answers c' p' k s' w')
  = result (sign_in fraction total answers c p k s w).
Proof.
  intros E.
  unfold sign_in, manual_login, result, bind, try_catch, tell, ask, ret, throw,
    CookieManager.loadCookies, CookieManager.saveCookies.
  cbv beta iota zeta. rewrite E.
  set (v := answers k (cookie_file w)).
  destruct (cookie_file w) as [|ck cks]; cbv beta iota;
  (destruct (nav v) as [[]|m1]; cbn [fst snd]; [|reflexivity]);
  (destruct (sidebar v); cbn [fst snd];
   [destruct (probe v) as [[|]|m2]; cbn [fst snd];
    [reflexivity| |reflexivity]|]);
  (destruct (dialog v) as [[]|m3]; cbn [fst snd]; [|reflexivity]);
  (destruct (qrcode v) as [[]|m4]; cbn [fst snd]; [|reflexivity]);
  (destruct (human v) as [[]|m5]; cbn [fst snd]; [|reflexivity]);
  (destruct (verified v) as [[|]|m6]; cbn [fst snd]; reflexivity).
Qed.

Lemma attempt_result_cookies b b' k s s' w w' :
  cookie_file w' = cookie_file w ->
  result (attempt fraction total answers b' k s' w')
  = result (attempt fraction total answers b k s w).
Proof.
  intros E. rewrite !attempt_unfold. apply sign_in_result_cookies. exact E.
Qed.

(** One attempt: its events, with its bounded requests among them. *)
Lemma attempt_run b k s w :
  exists evs,
    added w (attempt fraction total answers b k s w) evs /\
    attempt_trace b (fresh w) (S (fresh w)) evs /\
    attempt_waits total (S (fresh w)) (answers k (cookie_file w)) evs.
Proof.
  rewrite attempt_unfold.
  match goal with |- context [sign_in _ _ _ ?c ?p ?k ?s1 ?w1] =>
    destruct (sign_in_quiet fraction total answers c p k s1 w1) as (rest & Hr & Hq);
    destruct (sign_in_requests c p k s1 w1) as (evs & He & Hw)
  end.
  unfold added in He. cbn [trace cookie_file] in Hr, He, Hw.
  rewrite Hr in He. apply app_inv_head in He. subst evs.
  exists (NewContext b (fresh w) :: NewPage (fresh w) (S (fresh w)) :: rest).
  split; [|split].
  - unfold added. rewrite Hr. rewrite <- !app_assoc. reflexivity.
  - exists rest. split; [reflexivity | exact Hq].
  - apply (attempt_waits_app_r _ _ [NewContext b (fresh w);
                                   NewPage (fresh w) (S (fresh w))]).
    exact Hw.
Qed.

(** The retry loop from attempt [k] on: its events and its outcome follow
    the outcomes of the attempts, and the bounded requests of every attempt
    that is reached are among the events. *)
Lemma login_loop_run fuel : forall k b s w (outcome_of : nat -> outcome unit),
  (k < 3)%nat -> (3 - k <= fuel)%nat ->
  (forall j s' w', cookie_file w' = cookie_file w ->
     result (attempt fraction total answers b j s' w') = outcome_of j) ->
  let out := login_loop fraction total answers fuel b k s w in
  exists evs,
    added w out evs /\
    login_trace b outcome_of k evs (result out) /\
    forall j, (k <= j < 3)%nat ->
      (forall i, (k <= i < j)%nat -> failed (outcome_of i) = true) ->
      attempt_waits total (S (fresh w) + 2 * (j - k))
        (answers j (cookie_file w)) evs.
Proof.
  induction fuel as [|fuel IH]; intros k b s w outcome_of Hk Hf Ho; [lia|].
  cbv zeta. cbn [login_loop].
  replace (Nat.ltb k maxRetries) with true
    by (symmetry; apply Nat.ltb_lt; exact Hk).
  unfold try_catch.
  destruct (attempt_run b k s w) as (ea & Ha & Ta & Wa).
  destruct (attempt_shape fraction total answers b k s w) as (_ & Hp & Hc & _).
  destruct (attempt_resources fraction total answers b k s w) as (Rf & _).
  pose proof (attempt_cookies fraction total answers b k s w) as Ck.
  cbv zeta in Ck.
  pose proof (Ho k s w eq_refl) as Ok.
  destruct (attempt fraction total answers b k s w) as [[[u|m] s1] w1] eqn:E;
    unfold added, state, after, result in Ha, Hp, Hc, Rf, Ck, Ok;
    cbn [fst snd] in Ha, Hp, Hc, Rf, Ck, Ok.
  - destruct u. exists ea. split; [exact Ha|]. split.
    + unfold result. cbn [fst].
      exact (last_returned b outcome_of k _ _ ea Ta (eq_sym Ok)).
    + intros j Hj Hfail. destruct (Nat.eq_dec j k) as [->|Hne].
      * rewrite Nat.sub_diag, Nat.mul_0_r, Nat.add_0_r. exact Wa.
      * specialize (Hfail k ltac:(lia)). rewrite <- Ok in Hfail.
        discriminate Hfail.
  - rewrite (close_both_run (S (fresh w)) (fresh w) _ s1 w1 Hp Hc).
    set (w2 := after (@closeContext unit (fresh w) tt
                        (after (@closePage unit (S (fresh w)) tt w1)))).
    assert (F2 : fresh w2 = S (S (fresh w))) by exact Rf.
    assert (C2 : cookie_file w2 = cookie_file w) by exact Ck.
    assert (T2 : trace w2 = trace w ++ ea ++ [ClosePage (S (fresh w));
                                             CloseContext (fresh w)]).
    { unfold w2, after, closeContext, closePage. cbn [snd trace emit].
      rewrite Ha, <- !app_assoc. reflexivity. }
    clearbody w2.
    destruct (Nat.ltb (S k) maxRetries) eqn:Hlt.
    + apply Nat.ltb_lt in Hlt.
      rewrite bind_tell.
      set (w3 := emit (Delay 2000%Q) w2).
      assert (F3 : fresh w3 = S (S (fresh w))) by exact F2.
      assert (C3 : cookie_file w3 = cookie_file w) by exact C2.
      assert (T3 : trace w3 = trace w ++ ea ++ [ClosePage (S (fresh w));
                                               CloseContext (fresh w);
                                               Delay 2000%Q]).
      { unfold w3. cbn [trace emit]. rewrite T2, <- !app_assoc. reflexivity. }
      clearbody w3.
      assert (Hlt' : (S k < 3)%nat) by exact Hlt.
      destruct (IH (S k) b s1 w3 outcome_of Hlt' ltac:(lia)
                  (fun j s' w' H => Ho j s' w' (eq_trans H C3)))
        as (evs & Hev & Ht & Hw).
      exists (ea ++ [ClosePage (S (fresh w)); CloseContext (fresh w);
                     Delay 2000%Q] ++ evs).
      split; [|split].
      * unfold added in *. rewrite Hev, T3, <- !app_assoc. reflexivity.
      * exact (retried b outcome_of k _ _ ea m evs _ Ta (eq_sym Ok) Hlt Ht).
      * intros j Hj Hfail. destruct (Nat.eq_dec j k) as [->|Hne].
        -- rewrite Nat.sub_diag, Nat.mul_0_r, Nat.add_0_r.
           apply attempt_waits_app_l. exact Wa.
        -- specialize (Hw j ltac:(lia) (fun i Hi => Hfail i ltac:(lia))).
           rewrite F3, C3 in Hw.
           replace (S (fresh w) + 2 * (j - k))%nat
             with (S (S (S (fresh w))) + 2 * (j - S k))%nat by lia.
           apply attempt_waits_app_r.
           apply (attempt_waits_app_r _ _ [ClosePage (S (fresh w));
                                           CloseContext (fresh w);
                                           Delay 2000%Q]).
           exact Hw.
    + apply Nat.ltb_ge in Hlt. unfold maxRetries in Hlt.
      assert (k = 2)%nat by lia. subst k.
      exists (ea ++ [ClosePage (S (fresh w)); CloseContext (fresh w)]).
      rewrite (ceiling_literal fraction).
      split; [|split].
      * unfold added, throw, after. cbn [snd]. exact T2.
      * unfold result, throw. cbn [fst].
        exact (last_failed b outcome_of 2 _ _ ea m Ta (eq_sym Ok) eq_refl).
      * intros j Hj Hfail. assert (j = 2)%nat by lia. subst j.
        rewrite Nat.sub_diag, Nat.mul_0_r, Nat.add_0_r.
        apply attempt_waits_app_l. exact Wa.
Qed.

(** A whole login: the browser is launched, and the loop starts at the
    first attempt. *)
Lemma login_run (am : AuthManager.t) (w : World) :
  let out := login fraction (Some total) answers am w in
  let outcome_of :=
    fun k => result (attempt fraction total answers (fresh w) k am w) in
  exists evs,
    added w out (Launch (fresh w) :: evs) /\
    login_trace (fresh w) outcome_of 0 evs (result out) /\
    forall k, (k < 3)%nat ->
      (forall j, (j < k)%nat -> failed (outcome_of j) = true) ->
      attempt_waits total (fresh w + 2 * k + 2) (answers k (cookie_file w)) evs.
Proof.
  cbv zeta. unfold login. rewrite login_body_unfold.
  match goal with |- context [login_loop _ _ _ 3 ?b 0 ?s2 ?w2] =>
    set (w2v := w2) in *;
    assert (Cw : cookie_file w2v = cookie_file w) by reflexivity;
    assert (Fw : fresh w2v = S (fresh w)) by reflexivity;
    assert (Tw : trace w2v = trace w ++ [Launch (fresh w)]) by reflexivity;
    clearbody w2v;
    destruct (login_loop_run 3 0 b s2 w2v
                (fun k => result (attempt fraction total answers (fresh w) k am w))
                ltac:(lia) ltac:(lia)
                (fun j s' w' H =>
                   attempt_result_cookies (fresh w) (fresh w) j am s' w w'
                     (eq_trans H Cw)))
      as (evs & Hev & Ht & Hw)
  end.
  exists evs. split; [|split].
  - unfold added in *. rewrite Hev, Tw, <- app_assoc. reflexivity.
  - exact Ht.
  - intros k Hk Hfail.
    specialize (Hw k ltac:(lia) (fun i Hi => Hfail i ltac:(lia))).
    rewrite Fw, Cw, Nat.sub_0_r in Hw.
    replace (fresh w + 2 * k + 2)%nat with (S (S (fresh w)) + 2 * k)%nat by lia.
    exact Hw.
Qed.

(** What a trace of the loop says about the attempts: their number, which
    of them failed, and what the loop came to. *)
Lemma login_trace_outcome b (f : nat -> outcome unit) k evs r :
  login_trace b f k evs r -> (k < 3)%nat ->
  Forall retry_event evs /\
  match r with
  | Returned _ =>
      exists j,
        (k <= j < 3)%nat /\ f j = Returned tt /\
        (forall i, (k <= i < j)%nat -> failed (f i) = true) /\
        List.length (filter is_new_context evs) = S (j - k)
  | Thrown m =>
      (forall i, (k <= i < 3)%nat -> failed (f i) = true) /\
      List.length (filter is_new_context evs) = (3 - k)%nat /\
      exists cause,
        f 2%nat = Thrown cause /\
        m = ("登录失败，已达到最大重试次数 (3): " ++ cause)%string
  end.
Proof.
  induction 1 as [k c p evs Ha Hk
                 |k c p evs cause Ha Hk Hl
                 |k c p evs cause rest r Ha Hk Hl Hrest IH];
    intros Hlt; destruct (attempt_trace_facts _ _ _ _ Ha) as (H1 & H2).
  - split; [exact H2|]. exists k.
    split; [lia|]. split; [exact Hk|]. split; [intros i Hi; lia|].
    rewrite Nat.sub_diag. exact H1.
  - unfold maxRetries in Hl. assert (k = 2)%nat by lia. subst k.
    split; [apply Forall_app; split; [exact H2 | repeat constructor]|].
    split; [|split].
    + intros i Hi. assert (i = 2)%nat by lia. subst i. rewrite Hk. reflexivity.
    + rewrite filter_app, length_app, H1. reflexivity.
    + exists cause. split; [exact Hk | reflexivity].
  - unfold maxRetries in Hl. destruct (IH Hl) as (R & M).
    assert (N : List.length
                  (filter is_new_context
                     (evs ++ [ClosePage p; CloseContext c; Delay 2000%Q] ++ rest))
                = S (List.length (filter is_new_context rest))).
    { rewrite !filter_app, !length_app, H1. reflexivity. }
    split.
    { apply Forall_app. split; [exact H2|].
      repeat (constructor; [simpl; auto|]). exact R. }
    rewrite N. destruct r as [u|m].
    + destruct M as (j & Hj & Fj & Hf & Hn). exists j.
      split; [lia|]. split; [exact Fj|]. split; [|lia].
      intros i Hi. destruct (Nat.eq_dec i k) as [->|Hne];
        [rewrite Hk; reflexivity | apply Hf; lia].
    + destruct M as (Hf & Hn & C). split; [|split; [lia | exact C]].
      intros i Hi. destruct (Nat.eq_dec i k) as [->|Hne];
        [rewrite Hk; reflexivity | apply Hf; lia].
Qed.

(** A failed navigation to the landing page ends the attempt with the
    browser's own error. *)
Lemma sign_in_nav_failed c p k s w m :
  nav (answers k (cookie_file w)) = Thrown m ->
  result (sign_in fraction total answers c p k s w) = Thrown m.
Proof.
  unfold sign_in, result, bind, tell, ask, ret, CookieManager.loadCookies.
  cbv beta iota zeta.
  destruct (cookie_file w); cbv beta iota; intros E; rewrite E; reflexivity.
Qed.

(** The errors of one attempt, by the wait that failed. *)
Lemma attempt_timeouts b k s w :
  let v := answers k (cookie_file w) in
  let out := attempt fraction total answers b k s w in
  let sub := toString fraction (Qmin 10000 (total / 3)) in
  (forall m, nav v = Thrown m -> result out = Thrown m) /\
  (nav v = Returned tt ->
   (sidebar v = false \/ probe v = Returned false) ->
   (failed (dialog v) = true -> carries (result out) sub) /\
   (dialog v = Returned tt -> failed (qrcode v) = true ->
    carries (result out) sub) /\
   (dialog v = Returned tt -> qrcode v = Returned tt ->
    failed (human v) = true ->
    carries (result out) (toString fraction total))).
Proof.
  cbv zeta. rewrite attempt_unfold. split.
  - intros m E. apply sign_in_nav_failed. exact E.
  - intros Hn Hs.
    match goal with |- context [sign_in _ _ _ ?c ?p k ?s1 ?w1] =>
      destruct (sign_in_manual fraction total answers c p k s1 w1 Hn Hs)
        as (w0 & E)
    end.
    rewrite E. apply manual_login_timeouts.
Qed.

(** The browser's timeout message names the bound. *)
Lemma timeout_message_includes api t log :
  includes (timeout_message fraction api t ++ log)%string (toString fraction t).
Proof.
  unfold timeout_message.
  exists (api ++ ": Timeout ")%string, ("ms exceeded." ++ log)%string.
  rewrite !append_assoc. reflexivity.
Qed.

(** When the first two attempts fail, the login ends as the third one
    does: it returns with it, or wraps its error. *)
Lemma login_third_attempt (am : AuthManager.t) (w : World) cause :
  (forall k, (k < 2)%nat ->
     failed (result (attempt fraction total answers (fresh w) k am w)) = true) ->
  result (attempt fraction total answers (fresh w) 2 am w) = Thrown cause ->
  result (login fraction (Some total) answers am w)
  = Thrown ("登录失败，已达到最大重试次数 (3): " ++ cause)%string.
Proof.
  intros Hfail E2.
  destruct (login_run am w) as (evs & _ & T & _). cbv zeta in T.
  destruct (login_trace_outcome _ _ _ _ _ T ltac:(lia)) as (_ & M).
  destruct (result (login fraction (Some total) answers am w)) as [u|m].
  - destruct M as (j & Hj & Fj & _).
    destruct (Nat.eq_dec j 2) as [->|Hne]; [congruence|].
    specialize (Hfail j ltac:(lia)). rewrite Fj in Hfail. discriminate Hfail.
  - destruct M as (_ & _ & c2 & Ec & ->). congruence.
Qed.

(** C2.  Whatever the site answers, every landing-page navigation, every
    wait for the login dialog and every wait for the QR code that
    [login(total)] asks for carries the timeout [min(10000, total / 3)], and
    every wait for the identity element carries [total] itself.  And these
    requests are made: each attempt that is reached (the first, and an
    attempt after failed ones, up to the third) asks for the landing page on
    its page; when the page loads and shows no session, it waits for the
    login dialog; when the dialog is there, for the QR code; and when the
    code is there, for the identity element. *)
Theorem login_timeout_budget (am : AuthManager.t) (w : World) :
  let out := login fraction (Some total) answers am w in
  let outcome_of :=
    fun k => result (attempt fraction total answers (fresh w) k am w) in
  exists evs,
    added w out evs /\
    Forall (budgeted total) evs /\
    forall k, (k < 3)%nat ->
      (forall j, (j < k)%nat -> failed (outcome_of j) = true) ->
      attempt_waits total (fresh w + 2 * k + 2) (answers k (cookie_file w)) evs.
Proof.
  cbv zeta.
  destruct (login_budgeted fraction answers total am w) as (evs & A & F).
  destruct (login_run am w) as (evs0 & A0 & _ & W). cbv zeta in A0, W.
  unfold added in A, A0. rewrite A0 in A. apply app_inv_head in A. subst evs.
  exists (Launch (fresh w) :: evs0). split; [exact A0|]. split; [exact F|].
  intros k Hk Hfail.
  apply (attempt_waits_app_r _ _ [Launch (fresh w)]). exact (W k Hk Hfail).
Qed.

(** C3.  [login] launches the browser and makes at most three attempts, one
    after the other for as long as they fail.  How an attempt ends depends on
    its number and the stored cookies only, and a failed attempt leaves the
    stored cookies as they are.  An attempt that returns ends the login.
    After each failed attempt the login closes that attempt's page and context
    and nothing else, the browser included; before the second and the third
    attempt it pauses for 2000 ms, the same pause each time; and when the
    third attempt has failed too, it throws an error whose message holds the
    retry ceiling 3 and ends with the message of the third attempt's
    failure. *)
Theorem login_retry_policy (am : AuthManager.t) (w : World) :
  let out := login fraction (Some total) answers am w in
  let outcome_of :=
    fun k => result (attempt fraction total answers (fresh w) k am w) in
  (forall k b s' w',
     cookie_file w' = cookie_file w ->
     let run := attempt fraction total answers b k s' w' in
     result run = outcome_of k /\
     (failed (outcome_of k) = true -> cookie_file (after run) = cookie_file w)) /\
  exists evs,
    added w out (Launch (fresh w) :: evs) /\
    login_trace (fresh w) outcome_of 0 evs (result out) /\
    (List.length (filter is_new_context evs) <= 3)%nat /\
    Forall retry_event evs /\
    match result out with
    | Returned _ =>
        exists k,
          (k < 3)%nat /\ outcome_of k = Returned tt /\
          (forall j, (j < k)%nat -> failed (outcome_of j) = true) /\
          List.length (filter is_new_context evs) = S k
    | Thrown m =>
        (forall j, (j < 3)%nat -> failed (outcome_of j) = true) /\
        List.length (filter is_new_context evs) = 3%nat /\
        exists cause,
          outcome_of 2%nat = Thrown cause /\
          m = ("登录失败，已达到最大重试次数 (3): " ++ cause)%string
    end.
Proof.
  cbv zeta. split.
  - intros k b s' w' E.
    pose proof (attempt_result_cookies (fresh w) b k am s' w w' E) as R.
    split; [exact R|]. rewrite <- R. intros F.
    pose proof (attempt_cookies fraction total answers b k s' w') as Ck.
    cbv zeta in Ck.
    destruct (result (attempt fraction total answers b k s' w'));
      [discriminate F | rewrite Ck; exact E].
  - destruct (login_run am w) as (evs & A & T & _). cbv zeta in A, T.
    destruct (login_trace_outcome _ _ _ _ _ T ltac:(lia)) as (R & M).
    exists evs. split; [exact A|]. split; [exact T|].
    destruct (result (login fraction (Some total) answers am w)) as [u|m].
    + destruct M as (j & Hj & Fj & Hf & Hn). rewrite Nat.sub_0_r in Hn.
      split; [lia|]. split; [exact R|].
      exists j. split; [lia|]. split; [exact Fj|]. split; [|exact Hn].
      intros i Hi. apply Hf. lia.
    + destruct M as (Hf & Hn & C). rewrite Nat.sub_0_r in Hn.
      split; [lia|]. split; [exact R|].
      split; [intros i Hi; apply Hf; lia|]. split; [exact Hn | exact C].
Qed.

(** A call whose home page does not load ends with the error of
    [initialize]. *)
Lemma workflow_home_timeout {A} timeout sess
    (body : nat -> number -> Prog RedNoteTools.t A) tools w :
  idle tools -> failed (RedNoteTools.home_nav sess) = true ->
  carries (result (workflow fraction timeout sess body tools w))
    (toString fraction (or_else timeout (RedNoteTools.timeout tools))).
Proof.
  intros Hi F. apply failed_thrown in F. destruct F as (m & E).
  pose proof (initialize_home_timeout fraction
                (Some (or_else timeout (RedNoteTools.timeout tools)))
                sess tools w m Hi E) as R.
  rewrite or_else_idem in R. unfold workflow, result in *.
  destruct (RedNoteTools.initialize fraction _ sess tools w) as [[[u|m0] s1] w1];
    cbn [fst] in *; [discriminate R|].
  assert (R' : m0 = ("初始化访问主页超时 ("
                     ++ toString fraction
                          (or_else timeout (RedNoteTools.timeout tools))
                     ++ "ms)")%string)
    by (injection R as R0; exact R0).
  rewrite R'.
  eexists. split; [reflexivity | apply includes_between].
Qed.

(** The error of a handler whose wait for the note view to go away failed
    leaves the [catch] block of the item. *)
Lemma handler_wait_escapes it m :
  try_fails it = true -> RedNoteTools.recover_button it = true ->
  RedNoteTools.recover_click it = Returned tt ->
  RedNoteTools.recover_wait it = Thrown m ->
  item_escapes it = Some m.
Proof.
  intros H1 H2 H3 H4. unfold item_escapes. rewrite H1, H2, H3, H4. reflexivity.
Qed.

(** C9.  The timeout errors carry the bound of the wait that ran out.  In
    the login flow, the error that [login(total)] throws is that of its third
    attempt, wrapped (the errors of the attempts before are not thrown on):
    when the login dialog or the QR code did not appear it carries
    [min(10000, total / 3)], and when the person did not log in it carries
    [total]; when the landing page timed out, it is the browser's timeout
    error that is wrapped, and it carries the [min(10000, total / 3)] that the
    navigation was given.  In the orchestrator the errors for the home page,
    the search page (keywords that cannot be encoded end as a failed
    navigation), the result list, the note page, the comments page and the
    comment list carry the timeout of the call; and when, in the handler of
    a result item, the wait for the note view to go away times out, the
    browser's timeout error ends the search, and it carries the 30000 that
    the wait was given. *)
Theorem timeout_errors_carry_bound :
  (forall am w,
     let out := login fraction (Some total) answers am w in
     let v := answers 2%nat (cookie_file w) in
     let sub := Qmin 10000 (total / 3) in
     (forall k, (k < 2)%nat ->
        failed (result (attempt fraction total answers (fresh w) k am w)) = true) ->
     (timed_out fraction "page.goto" sub (nav v) ->
      carries (result out) (toString fraction sub)) /\
     (nav v = Returned tt ->
      (sidebar v = false \/ probe v = Returned false) ->
      (failed (dialog v) = true ->
       carries (result out) (toString fraction sub)) /\
      (dialog v = Returned tt -> failed (qrcode v) = true ->
       carries (result out) (toString fraction sub)) /\
      (dialog v = Returned tt -> qrcode v = Returned tt ->
       failed (human v) = true ->
       carries (result out) (toString fraction total)))) /\
  (forall T sess tools w,
     idle tools -> failed (RedNoteTools.home_nav sess) = true ->
     carries (result (RedNoteTools.initialize fraction T sess tools w))
       (toString fraction (or_else T (RedNoteTools.timeout tools)))) /\
  (forall timeout tools w,
     idle tools ->
     let bound := toString fraction (or_else timeout (RedNoteTools.timeout tools)) in
     (forall keywords limit sc,
        let out := RedNoteTools.searchNotes fraction keywords limit timeout sc tools w in
        let L := match limit with Some n => n | None => 10%Q end in
        (failed (RedNoteTools.home_nav (RedNoteTools.search_session sc)) = true ->
         carries (result out) bound) /\
        (session_ok (RedNoteTools.search_session sc) ->
         (JsString.encodeURIComponent keywords = None ->
          carries (result out) bound) /\
         (failed (RedNoteTools.search_nav sc) = true ->
          carries (result out) bound) /\
         (RedNoteTools.search_nav sc = Returned tt ->
          failed (RedNoteTools.results_wait sc) = true ->
          carries (result out) bound) /\
         (forall encoded pre it rest,
            JsString.encodeURIComponent keywords = Some encoded ->
            RedNoteTools.search_nav sc = Returned tt ->
            RedNoteTools.results_wait sc = Returned tt ->
            RedNoteTools.note_items sc = pre ++ it :: rest ->
            (List.length pre
             < iterations (List.length (RedNoteTools.note_items sc)) L)%nat ->
            Forall (fun x => item_escapes x = None) pre ->
            try_fails it = true ->
            RedNoteTools.recover_button it = true ->
            RedNoteTools.recover_click it = Returned tt ->
            timed_out fraction "page.waitForSelector" 30000%Q
              (RedNoteTools.recover_wait it) ->
            carries (result out) "30000"))) /\
     (forall url sc,
        let out := RedNoteTools.getNoteContent fraction url timeout sc tools w in
        (failed (RedNoteTools.home_nav (RedNoteTools.content_session sc)) = true ->
         carries (result out) bound) /\
        (session_ok (RedNoteTools.content_session sc) ->
         failed (RedNoteTools.note_nav sc) = true ->
         carries (result out) bound)) /\
     (forall url sc,
        let out := RedNoteTools.getNoteComments fraction url timeout sc tools w in
        (failed (RedNoteTools.home_nav (RedNoteTools.comments_session sc)) = true ->
         carries (result out) bound) /\
        (session_ok (RedNoteTools.comments_session sc) ->
         (failed (RedNoteTools.comments_nav sc) = true ->
          carries (result out) bound) /\
         (RedNoteTools.comments_nav sc = Returned tt ->
          failed (RedNoteTools.list_wait sc) = true ->
          carries (result out) bound)))).
Proof.
  split; [|split].
  - intros am w out v sub Hfail. subst out v sub.
    assert (Key : forall bound,
              carries (result (attempt fraction total answers (fresh w) 2 am w))
                bound ->
              carries (result (login fraction (Some total) answers am w)) bound).
    { intros bound (msg & E & I).
      rewrite (login_third_attempt am w msg Hfail E).
      eexists. split; [reflexivity | apply includes_wrapped; exact I]. }
    destruct (attempt_timeouts (fresh w) 2 am w) as (N & M).
    cbv zeta in N, M. split.
    + intros (log & E). apply Key. eexists.
      split; [exact (N _ E) | apply timeout_message_includes].
    + intros Hn Hs. destruct (M Hn Hs) as (D & Q & H).
      split; [|split].
      * intros F. exact (Key _ (D F)).
      * intros Hd F. exact (Key _ (Q Hd F)).
      * intros Hd Hq F. exact (Key _ (H Hd Hq F)).
  - intros T sess tools w Hi F. apply failed_thrown in F. destruct F as (m & E).
    rewrite (initialize_home_timeout fraction T sess tools w m Hi E).
    eexists. split; [reflexivity | apply includes_between].
  - intros timeout tools w Hi. cbv zeta. split; [|split].
    + intros keywords limit sc. rewrite searchNotes_workflow.
      split; [apply workflow_home_timeout; exact Hi|].
      intros Hs.
      destruct (workflow_idle_result fraction timeout (RedNoteTools.search_session sc)
                  (fun p T => RedNoteTools.search_try fraction p T keywords
                                (match limit with Some n => n | None => 10%Q end) sc)
                  tools w Hi Hs) as (w1 & E).
      rewrite E.
      split; [apply search_try_malformed|].
      split; [apply search_try_timeouts|].
      split; [apply search_try_timeouts|].
      intros encoded pre it rest He Hn Hw Hitems Hlt Hpre Ht Hb Hc (log & Hr).
      rewrite (search_try_abort fraction _ _ keywords encoded _ sc _ _ pre it rest _
                 He Hn Hw Hitems Hlt Hpre
                 (handler_wait_escapes it _ Ht Hb Hc Hr)).
      eexists. split; [reflexivity|].
      exact (timeout_message_includes "page.waitForSelector" 30000%Q log).
    + intros url sc. rewrite getNoteContent_workflow.
      split; [apply workflow_home_timeout; exact Hi|].
      intros Hs F.
      destruct (workflow_idle_result fraction timeout (RedNoteTools.content_session sc)
                  (fun p T => RedNoteTools.content_try fraction p T url sc)
                  tools w Hi Hs) as (w1 & E).
      rewrite E. apply content_try_timeouts. exact F.
    + intros url sc. rewrite getNoteComments_workflow.
      split; [apply workflow_home_timeout; exact Hi|].
      intros Hs.
      destruct (workflow_idle_result fraction timeout (RedNoteTools.comments_session sc)
                  (fun p T => RedNoteTools.comments_try fraction p T url sc)
                  tools w Hi Hs) as (w1 & E).
      rewrite E. apply comments_try_timeouts.
Qed.

End LoginRuns.

(** ** Sample logins and searches *)

Section LoginSamples.
Import Js Browser Obs Sample.
Local Open Scope string_scope.

(** [encodeURIComponent] on ASCII, on a character of three octets, on a
    surrogate pair and on surrogates without a partner. *)
Example encodeURIComponent_samples :
  JsString.encodeURIComponent keywords = Some keywords /\
  JsString.encodeURIComponent (JsString.of_ascii "a b&c=d/e?")
  = Some (JsString.of_ascii "a%20b%26c%3Dd%2Fe%3F") /\
  JsString.encodeURIComponent [21654; 21857]%N
  = Some (JsString.of_ascii "%E5%92%96%E5%95%A1") /\
  JsString.encodeURIComponent [55357; 56832]%N
  = Some (JsString.of_ascii "%F0%9F%98%80") /\
  JsString.encodeURIComponent [55296]%N = None /\
  JsString.encodeURIComponent [56832; 55357]%N = None.
Proof. vm_compute. repeat split. Qed.

(** A search for a surrogate without its partner: the address of the search
    page cannot be built, the page is not sent anywhere after the home page,
    and the call throws the error of a search page that did not load. *)
Example search_malformed_keywords :
  let out := RedNoteTools.searchNotes no_fraction [55296%N] None None
               (results []) (RedNoteTools.new None) empty_world in
  result out = Thrown "导航到搜索页面超时 (30000ms)" /\
  trace (after out) =
    [Launch 0; NewContext 0 1; NewPage 1 2; Goto 2 HomePage 30000%Q; Evaluate 2;
     CloseBrowser 0].
Proof. vm_compute. auto. Qed.

(** The landing page of [login(60000)] times out three times: the error of
    the login wraps the browser's, which names the 10000 ms of the
    navigation. *)
Example login_landing_page_timeout :
  result (AuthManager.login no_fraction (Some 60000%Q) unreachable_site
            AuthManager.new empty_world)
  = Thrown "登录失败，已达到最大重试次数 (3): page.goto: Timeout 10000ms exceeded.".
Proof. vm_compute. reflexivity. Qed.

(** A login that gets through at the third attempt. *)
Example login_third_time :
  let out := AuthManager.login no_fraction (Some 60000%Q) slow_site
               AuthManager.new empty_world in
  result out = Returned tt /\
  trace (after out) =
    [Launch 0;
     NewContext 0 1; NewPage 1 2; Goto 2 ExplorePage 10000%Q;
     ClosePage 2; CloseContext 1; Delay 2000%Q;
     NewContext 0 3; NewPage 3 4; Goto 4 ExplorePage 10000%Q;
     ClosePage 4; CloseContext 3; Delay 2000%Q;
     NewContext 0 5; NewPage 5 6; Goto 6 ExplorePage 10000%Q;
     Query 6 UserChannel;
     WaitForSelector 6 LoginContainer false 10000%Q;
     WaitForSelector 6 QrcodeImg false 10000%Q;
     WaitForSelector 6 UserChannel false 60000%Q;
     Evaluate 6; SaveCookies [session_cookie]].
Proof. vm_compute. auto. Qed.

Lemma login_timeout_budget_witness :
  exists evs,
    added empty_world
      (AuthManager.login no_fraction (Some 60000%Q) slow_site AuthManager.new
         empty_world) evs /\
    Forall (budgeted 60000%Q) evs /\
    In (Goto 6 ExplorePage (Qmin 10000 (60000 / 3))) evs /\
    In (WaitForSelector 6 LoginContainer false (Qmin 10000 (60000 / 3))) evs /\
    In (WaitForSelector 6 QrcodeImg false (Qmin 10000 (60000 / 3))) evs /\
    In (WaitForSelector 6 UserChannel false 60000%Q) evs.
Proof.
  destruct (login_timeout_budget no_fraction 60000%Q slow_site AuthManager.new
              empty_world) as (evs & A & F & W).
  assert (Hf : forall j, (j < 2)%nat ->
            failed (result (AuthManager.attempt no_fraction 60000%Q slow_site
                              (fresh empty_world) j AuthManager.new empty_world))
            = true)
    by (intros [|[|j]] Hj; [reflexivity | reflexivity | lia]).
  destruct (W 2%nat ltac:(lia) Hf) as (G & H).
  destruct (H eq_refl (or_introl eq_refl)) as (D & H1).
  destruct (H1 eq_refl) as (Q & H2).
  exists evs. split; [exact A|]. split; [exact F|].
  exact (conj G (conj D (conj Q (H2 eq_refl)))).
Defined.

Lemma login_retry_policy_witness :
  let run := AuthManager.attempt no_fraction 60000%Q unreachable_site 0 2
               AuthManager.new
               {| fresh := 7; browsers := [0%nat]; contexts := []; pages := [];
                  cookie_file := []; trace := [Launch 0] |} in
  result run = Thrown "page.goto: Timeout 10000ms exceeded." /\
  cookie_file (after run) = [].
Proof.
  destruct (proj1 (login_retry_policy no_fraction 60000%Q unreachable_site
                     AuthManager.new empty_world)
              2%nat 0%nat AuthManager.new
              {| fresh := 7; browsers := [0%nat]; contexts := []; pages := [];
                 cookie_file := []; trace := [Launch 0] |} eq_refl)
    as (R & C).
  split; [exact R | exact (C eq_refl)].
Defined.

Lemma timeout_errors_carry_bound_witness :
  carries
    (result (AuthManager.login no_fraction (Some 60000%Q) unreachable_site
               AuthManager.new empty_world))
    "10000".
Proof.
  assert (Hf : forall k, (k < 2)%nat ->
            failed (result (AuthManager.attempt no_fraction 60000%Q
                              unreachable_site (fresh empty_world) k
                              AuthManager.new empty_world))
            = true)
    by (intros [|[|k]] Hk; [reflexivity | reflexivity | lia]).
  destruct (proj1 (timeout_errors_carry_bound no_fraction 60000%Q unreachable_site)
              AuthManager.new empty_world Hf) as (N & _).
  apply N. exists "". reflexivity.
Defined.

End LoginSamples.
